(** * kumadb-migrator: the SQLite to MariaDB schema and row translation of
      [migrate.py], embedded and verified.

    The development follows the source file top to bottom: the type mapper
    ([map_sqlite_to_mysql_type] and its five category mappers), the default
    translator ([build_default_sql]), the constraint resolver ([set_ai_nns]),
    the column renderer ([process_columns]), the timestamp normalizer
    ([knex_timestamp_conversion]) and the batched copy ([copy_rows],
    [migrate_table]).

    Conventions of the embedding.
    - Python [str] is [string]; the characters are ASCII, which is what SQLite
      type names, identifiers and default expressions are made of.  [upper]
      therefore maps a-z to A-Z and keeps every other character.
    - [print] appends a line to a log and [raise] aborts: both live in the
      monad [M], a writer over an exception result.
    - Python [int] is [Z].  [int(str)] is modelled for the texts the
      interpreter converts: beyond [sys.get_int_max_str_digits()] digits
      (4300 unless configured otherwise) it raises ValueError instead.  The
      theorems that reach [int(str)] on a text they do not fix assume that
      the text has at most [int_max_str_digits] digits.
    - The source database is what the SQLite cursor answers: an error for
      the query texts it refuses, and the rows of the table or index a query
      asks about.  The target is what the MariaDB cursor answers to each
      statement, with a record of the statements it was sent. *)

From Stdlib Require Import ZArith List String Ascii Bool Lia DecimalString FinFun.
Import ListNotations.
Local Open Scope string_scope.
Local Open Scope Z_scope.

(** ** Python strings *)

Module PyStr.

Definition nl : string := String (ascii_of_nat 10) EmptyString.
Definition dquote : ascii := ascii_of_nat 34.
Definition squote : ascii := ascii_of_nat 39.

Definition is_lower (c : ascii) : bool :=
  let n := nat_of_ascii c in (97 <=? n)%nat && (n <=? 122)%nat.

Definition is_digit (c : ascii) : bool :=
  let n := nat_of_ascii c in (48 <=? n)%nat && (n <=? 57)%nat.

(** [str.strip()] with no argument removes, among ASCII characters,
    TAB LF VT FF CR, the separators 0x1C-0x1F and the space. *)
Definition is_space (c : ascii) : bool :=
  let n := nat_of_ascii c in
  ((9 <=? n)%nat && (n <=? 13)%nat) || ((28 <=? n)%nat && (n <=? 32)%nat).

Definition upper_char (c : ascii) : ascii :=
  if is_lower c then ascii_of_nat (nat_of_ascii c - 32) else c.

Definition is_upper (c : ascii) : bool :=
  let n := nat_of_ascii c in (65 <=? n)%nat && (n <=? 90)%nat.

Definition lower_char (c : ascii) : ascii :=
  if is_upper c then ascii_of_nat (nat_of_ascii c + 32) else c.

(** [s.upper()] *)
Fixpoint upper (s : string) : string :=
  match s with
  | EmptyString => EmptyString
  | String c s' => String (upper_char c) (upper s')
  end.

(** [s.lower()] *)
Fixpoint lower (s : string) : string :=
  match s with
  | EmptyString => EmptyString
  | String c s' => String (lower_char c) (lower s')
  end.

(** [needle in hay] *)
Fixpoint contains (needle hay : string) : bool :=
  prefix needle hay ||
  match hay with
  | EmptyString => false
  | String _ hay' => contains needle hay'
  end.

(** [any(k in s for k in keys)] *)
Definition contains_any (keys : list string) (s : string) : bool :=
  existsb (fun k => contains k s) keys.

(** [s.replace(old, new)] for a non-empty [old]: the occurrences are taken
    from the left and do not overlap; [skip] counts the characters of an
    occurrence that are still to be dropped. *)
Fixpoint replace_from (old new : string) (skip : nat) (s : string) : string :=
  match s with
  | EmptyString => EmptyString
  | String c s' =>
      match skip with
      | S k => replace_from old new k s'
      | O =>
          if prefix old s
          then new ++ replace_from old new (String.length old - 1) s'
          else String c (replace_from old new 0 s')
      end
  end.

Definition replace (old new s : string) : string := replace_from old new 0 s.

Fixpoint mem_char (c : ascii) (chars : string) : bool :=
  match chars with
  | EmptyString => false
  | String d chars' => Ascii.eqb c d || mem_char c chars'
  end.

Fixpoint lstrip_by (p : ascii -> bool) (s : string) : string :=
  match s with
  | EmptyString => EmptyString
  | String c s' => if p c then lstrip_by p s' else s
  end.

Fixpoint rstrip_by (p : ascii -> bool) (s : string) : string :=
  match s with
  | EmptyString => EmptyString
  | String c s' =>
      match rstrip_by p s' with
      | EmptyString => if p c then EmptyString else String c EmptyString
      | r => String c r
      end
  end.

Definition strip_by (p : ascii -> bool) (s : string) : string :=
  rstrip_by p (lstrip_by p s).

(** [s.strip()] *)
Definition strip (s : string) : string := strip_by is_space s.

(** [s.strip(chars)] *)
Definition strip_chars (chars s : string) : string :=
  strip_by (fun c => mem_char c chars) s.

(** [s.isdigit()]: non-empty and decimal digits only. *)
Fixpoint all_digits (s : string) : bool :=
  match s with
  | EmptyString => true
  | String c s' => is_digit c && all_digits s'
  end.

Definition isdigit (s : string) : bool :=
  match s with
  | EmptyString => false
  | _ => all_digits s
  end.

Definition digit_val (c : ascii) : Z := Z.of_nat (nat_of_ascii c) - 48.

Fixpoint int_of_digits_from (acc : Z) (s : string) : Z :=
  match s with
  | EmptyString => acc
  | String c s' => int_of_digits_from (10 * acc + digit_val c) s'
  end.

(** [int(s)] for a string of decimal digits that the interpreter
    converts, which it does up to [int_max_str_digits] digits, leading
    zeros counted. *)
Definition int_of_digits (s : string) : Z := int_of_digits_from 0 s.

(** [sys.get_int_max_str_digits()], as the interpreter starts. *)
Definition int_max_str_digits : nat := 4300.

(** [str(n)] for an integer. *)
Definition str_Z (n : Z) : string := NilZero.string_of_int (Z.to_int n).

(** [sep.join(parts)] *)
Fixpoint join (sep : string) (parts : list string) : string :=
  match parts with
  | [] => EmptyString
  | [p] => p
  | p :: rest => p ++ sep ++ join sep rest
  end.

(** The longest prefix of decimal digits and what follows it. *)
Fixpoint span_digits (s : string) : string * string :=
  match s with
  | String c s' =>
      if is_digit c
      then let (d, r) := span_digits s' in (String c d, r)
      else (EmptyString, s)
  | EmptyString => (EmptyString, EmptyString)
  end.

(** [re.search(r'\((\d+)\)', s)]: group 1 of the leftmost match.  The
    digits are matched greedily and must be followed by the closing
    parenthesis, so no backtracking into the digits can succeed. *)
Fixpoint search_paren_digits (s : string) : option string :=
  match s with
  | EmptyString => None
  | String c s' =>
      if Ascii.eqb c "("%char
      then match span_digits s' with
           | (String d ds, String r _) =>
               if Ascii.eqb r ")"%char then Some (String d ds)
               else search_paren_digits s'
           | _ => search_paren_digits s'
           end
      else search_paren_digits s'
  end.

End PyStr.
Import PyStr.

(** ** Printing and raising *)

Inductive exn : Type :=
| ValueError (msg : string)
| TypeError (msg : string)
| OSError (msg : string)
| OverflowError (msg : string)
| MySQLError (msg : string)
| SQLiteError (msg : string).

Definition exn_msg (e : exn) : string :=
  match e with
  | ValueError m | TypeError m | OSError m | OverflowError m | MySQLError m
  | SQLiteError m => m
  end.

Inductive result (A : Type) : Type :=
| Ok (a : A)
| Raise (e : exn).
Arguments Ok {A} a.
Arguments Raise {A} e.

(** A computation yields a result or an exception, and the lines it printed. *)
Definition M (A : Type) : Type := (result A * list string)%type.

Definition ret {A} (a : A) : M A := (Ok a, []).

Definition bind {A B} (m : M A) (f : A -> M B) : M B :=
  match m with
  | (Ok a, out) => let (r, out') := f a in (r, (out ++ out')%list)
  | (Raise e, out) => (Raise e, out)
  end.

Definition print (line : string) : M unit := (Ok tt, [line]).

Definition raise {A} (e : exn) : M A := (Raise e, []).

Notation "x <- m ;; k" := (bind m (fun x => k))
  (at level 61, m at next level, right associativity).
Notation "m ;;; k" := (bind m (fun _ => k))
  (at level 61, right associativity).

Definition value_of {A} (m : M A) : result A := fst m.
Definition printed {A} (m : M A) : list string := snd m.

(** ** Mapping rules for SQLite -> MySQL types *)

Definition INTEGER_TYPES : list (string * string) :=
  [ ("TINYINT", "TINYINT");
    ("SMALLINT", "SMALLINT");
    ("MEDIUMINT", "MEDIUMINT");
    ("BIGINT", "BIGINT UNSIGNED");
    ("INT", "INT UNSIGNED") ].

Definition NUMERIC_TYPES : list (list string * string) :=
  [ (["REAL"; "FLOA"; "DOUB"], "DOUBLE");
    (["NUM"; "DEC"], "DECIMAL(10,2)");
    (["BOOL"], "TINYINT(1)") ].

Definition TEXT_TYPES : list string := ["CHAR"; "CLOB"; "TEXT"].
Definition BLOB_TYPES : list string := ["BLOB"].

Definition INDEXED_VARCHAR_MAX : Z := 191.
Definition DEFAULT_VARCHAR_MAX : Z := 255.

(** The first entry of a table whose key test succeeds: the [for ... return]
    loops of the mappers. *)
Fixpoint first_match {K} (hit : K -> bool) (table : list (K * string))
  : option string :=
  match table with
  | [] => None
  | (k, v) :: rest => if hit k then Some v else first_match hit rest
  end.

Definition map_integer_type (sqlite_type_upper : string) : option string :=
  first_match (fun key => contains key sqlite_type_upper) INTEGER_TYPES.

Definition map_numeric_type (sqlite_type_upper : string) : option string :=
  first_match (fun keys => contains_any keys sqlite_type_upper) NUMERIC_TYPES.

Definition map_text_type (sqlite_type_raw : string)
    (is_primary_key is_unique : bool) : M (option string) :=
  let sqlite_type_upper := upper sqlite_type_raw in
  if negb (contains_any TEXT_TYPES sqlite_type_upper) then ret None
  else if is_primary_key || is_unique then
    print ("Warning: Indexed text column '" ++ sqlite_type_raw ++ "' mapped to "
           ++ "VARCHAR(" ++ str_Z INDEXED_VARCHAR_MAX
           ++ ") for index compatibility.") ;;;
    ret (Some ("VARCHAR(" ++ str_Z INDEXED_VARCHAR_MAX ++ ")"))
  else
    match search_paren_digits sqlite_type_raw with
    | Some group1 =>
        let length := int_of_digits group1 in
        ret (Some ("VARCHAR(" ++ str_Z (Z.min length DEFAULT_VARCHAR_MAX) ++ ")"))
    | None => ret (Some "LONGTEXT")
    end.

Definition map_blob_type (sqlite_type_raw : string)
    (is_primary_key is_unique : bool) : M (option string) :=
  if negb (contains "BLOB" (upper sqlite_type_raw)) then ret None
  else if is_primary_key || is_unique then
    print ("Warning: Indexed BLOB column '" ++ sqlite_type_raw ++ "' mapped to "
           ++ "VARBINARY(" ++ str_Z INDEXED_VARCHAR_MAX
           ++ ") for index compatibility.") ;;;
    ret (Some ("VARBINARY(" ++ str_Z INDEXED_VARCHAR_MAX ++ ")"))
  else ret (Some "BLOB").

Definition map_datetime_type (sqlite_type_upper : string) : option string :=
  if String.eqb sqlite_type_upper "TIME" then Some "TIME"
  else if contains "DATE" sqlite_type_upper then Some "DATETIME"
  else None.

(** [for mapper in (...): mysql_type = mapper(...); if mysql_type: return].
    A mapper's answer counts when it is neither [None] nor the empty string. *)
Definition truthy_type (t : option string) : option string :=
  match t with
  | Some EmptyString => None
  | other => other
  end.

Fixpoint first_mapper (mappers : list (string -> M (option string)))
    (sqlite_type_upper : string) (otherwise : M string) : M string :=
  match mappers with
  | [] => otherwise
  | mapper :: rest =>
      mysql_type <- mapper sqlite_type_upper ;;
      match truthy_type mysql_type with
      | Some t => ret t
      | None => first_mapper rest sqlite_type_upper otherwise
      end
  end.

Definition map_sqlite_to_mysql_type (sqlite_type_raw : string)
    (is_primary_key is_unique : bool) : M string :=
  let sqlite_type_upper := upper sqlite_type_raw in
  first_mapper
    [ (fun t => ret (map_integer_type t));
      (fun _ => map_text_type sqlite_type_raw is_primary_key is_unique);
      (fun _ => map_blob_type sqlite_type_raw is_primary_key is_unique);
      (fun t => ret (map_numeric_type t));
      (fun t => ret (map_datetime_type t)) ]
    sqlite_type_upper
    (print ("Warning: Unknown SQLite type '" ++ sqlite_type_raw
            ++ "'. Defaulting to VARCHAR(255).") ;;;
     ret "VARCHAR(255)").

(** ** Python floats, as far as [float(str)] and comparisons need them *)

Module PyFloat.

(** A binary64 value: not-a-number, an infinity, or [+/- m * 2^e]. *)
Inductive pyfloat : Type :=
| FNan
| FInf (negative : bool)
| FFinite (negative : bool) (m : Z) (e : Z).

(** [float] strips the C locale's white space only: TAB LF VT FF CR, space. *)
Definition is_c_space (c : ascii) : bool :=
  let n := nat_of_ascii c in
  ((9 <=? n)%nat && (n <=? 13)%nat) || (n =? 32)%nat.

(** Underscores are accepted between two digits only, and dropped. *)
Fixpoint drop_underscores (prev : ascii) (s : string) : option string :=
  match s with
  | EmptyString => if Ascii.eqb prev "_"%char then None else Some EmptyString
  | String c s' =>
      if Ascii.eqb c "_"%char
      then if is_digit prev then drop_underscores c s' else None
      else if Ascii.eqb prev "_"%char && negb (is_digit c) then None
      else option_map (String c) (drop_underscores c s')
  end.

Definition split_sign (s : string) : bool * string :=
  match s with
  | String c s' =>
      if Ascii.eqb c "-"%char then (true, s')
      else if Ascii.eqb c "+"%char then (false, s')
      else (false, s)
  | EmptyString => (false, s)
  end.

(** [2^k <= num/den] for positive [num] and [den]. *)
Definition pow2_le (k num den : Z) : bool :=
  if 0 <=? k then den * 2 ^ k <=? num else den <=? num * 2 ^ (- k).

(** Round the positive rational [num/den] to the nearest binary64, ties to
    even: 53 significant bits, least exponent -1074, infinite from 2^1024. *)
Definition round_binary64 (negative : bool) (num den : Z) : pyfloat :=
  if num =? 0 then FFinite negative 0 0
  else
    let k0 := Z.log2 num - Z.log2 den in
    let k := if pow2_le k0 num den then k0 else k0 - 1 in
    let e := Z.max (k - 52) (-1074) in
    let n' := if 0 <=? e then num else num * 2 ^ (- e) in
    let d' := if 0 <=? e then den * 2 ^ e else den in
    let q := n' / d' in
    let r := n' mod d' in
    let m := if 2 * r <? d' then q
             else if d' <? 2 * r then q + 1
             else if Z.even q then q else q + 1 in
    if (0 <=? e) && (2 ^ 1024 <=? m * 2 ^ e) then FInf negative
    else FFinite negative m e.

(** The decimal [mantissa * 10^exponent]. *)
Definition of_decimal (negative : bool) (mantissa exponent : Z) : pyfloat :=
  if 0 <=? exponent
  then round_binary64 negative (mantissa * 10 ^ exponent) 1
  else round_binary64 negative mantissa (10 ^ (- exponent)).

(** digits [. digits] [e [sign] digits], with a digit before the exponent. *)
Definition parse_decimal (negative : bool) (body : string) : option pyfloat :=
  let (int_part, r1) := span_digits body in
  let (frac_part, r2) :=
    match r1 with
    | String c r => if Ascii.eqb c "."%char then span_digits r
                    else (EmptyString, r1)
    | EmptyString => (EmptyString, r1)
    end in
  let mantissa := int_of_digits (int_part ++ frac_part) in
  let scale := Z.of_nat (String.length frac_part) in
  match (int_part ++ frac_part)%string with
  | EmptyString => None
  | _ =>
      match r2 with
      | EmptyString => Some (of_decimal negative mantissa (- scale))
      | String c r3 =>
          if Ascii.eqb c "e"%char || Ascii.eqb c "E"%char then
            let (exp_negative, r4) := split_sign r3 in
            match span_digits r4 with
            | (String d ds, EmptyString) =>
                let ex := int_of_digits (String d ds) in
                let ex := if exp_negative then - ex else ex in
                Some (of_decimal negative mantissa (ex - scale))
            | _ => None
            end
          else None
      end
  end.

(** [float(s)] for a string: [None] stands for [ValueError]. *)
Definition float_of_string (s : string) : option pyfloat :=
  match drop_underscores zero (strip_by is_c_space s) with
  | None => None
  | Some t =>
      let (negative, body) := split_sign t in
      let name := upper body in
      if String.eqb name "INF" || String.eqb name "INFINITY"
      then Some (FInf negative)
      else if String.eqb name "NAN" then Some FNan
      else parse_decimal negative body
  end.

(** [x < z] and [x > z] for a float [x] and an integer [z]: exact, and
    false on a NaN. *)
Definition signed_mantissa (negative : bool) (m : Z) : Z :=
  if negative then - m else m.

Definition ltb_Z (x : pyfloat) (z : Z) : bool :=
  match x with
  | FNan => false
  | FInf negative => negative
  | FFinite negative m e =>
      if 0 <=? e then signed_mantissa negative m * 2 ^ e <? z
      else signed_mantissa negative m <? z * 2 ^ (- e)
  end.

Definition gtb_Z (x : pyfloat) (z : Z) : bool :=
  match x with
  | FNan => false
  | FInf negative => negb negative
  | FFinite negative m e =>
      if 0 <=? e then z <? signed_mantissa negative m * 2 ^ e
      else z * 2 ^ (- e) <? signed_mantissa negative m
  end.

Definition is_zero (x : pyfloat) : bool :=
  match x with
  | FFinite _ m _ => m =? 0
  | _ => false
  end.

End PyFloat.
Import PyFloat.

(** ** Exceptions caught by a [try] *)

(** [try: body / except <kinds>: handler]: [handles e] tells whether the
    clause lists the exception; any other exception propagates. *)
Definition try_except {A} (body : M A) (handles : exn -> bool)
    (handler : exn -> M A) : M A :=
  match body with
  | (Ok a, out) => (Ok a, out)
  | (Raise e, out) =>
      if handles e then let (r, out') := handler e in (r, (out ++ out')%list)
      else (Raise e, out)
  end.

(** [float(default_value)] for the text SQLite hands over. *)
Definition py_float (s : string) : M pyfloat :=
  match float_of_string s with
  | Some x => ret x
  | None => raise (ValueError "could not convert string to float")
  end.

(** ** The default translator *)

Definition is_TypeError_or_ValueError (e : exn) : bool :=
  match e with
  | TypeError _ | ValueError _ => true
  | _ => false
  end.

(** [default_value] is the [dflt_value] column of [PRAGMA table_info]: the
    text of the default expression, or [None]. *)
Definition build_default_sql (default_value : option string)
    (mysql_type table_name col_name : string) : M (string * string) :=
  match default_value with
  | None => ret (EmptyString, mysql_type)
  | Some default_text =>
      let default_str_raw := default_text in
      let default_str :=
        replace (String dquote EmptyString) "'" (upper default_str_raw) in
      if String.eqb default_str "CURRENT_TIMESTAMP"
         || String.eqb default_str "'CURRENT_TIMESTAMP'"
         || contains "DATETIME('NOW')" default_str
      then ret (" DEFAULT CURRENT_TIMESTAMP", mysql_type)
      else if String.eqb default_str "NULL" || String.eqb default_str "'NULL'"
      then ret (" DEFAULT NULL", mysql_type)
      else
        numeric <- try_except
                     (numeric_value <- py_float default_text ;;
                      ret (Some numeric_value))
                     is_TypeError_or_ValueError
                     (fun _ => ret None) ;;
        match numeric with
        | Some numeric_value =>
            mysql_type' <-
              (if contains "TINYINT" mysql_type
               then if ltb_Z numeric_value (-128) || gtb_Z numeric_value 127
                    then
                      print ("Warning: Default value " ++ default_text
                             ++ " for TINYINT column '" ++ table_name ++ "."
                             ++ col_name ++ "' exceeds range. "
                             ++ "Promoting column to SMALLINT.") ;;;
                      ret (replace "TINYINT" "SMALLINT" mysql_type)
                    else ret mysql_type
               else ret mysql_type) ;;
            ret (" DEFAULT " ++ default_text, mysql_type')
        | None =>
            let cleaned :=
              strip_chars (String squote (String dquote EmptyString))
                          default_str_raw in
            let cleaned := replace "'" "''" cleaned in
            ret (" DEFAULT '" ++ cleaned ++ "'", mysql_type)
        end
  end.

(** ** The constraint resolver *)

Definition set_ai_nns (pk : Z) (mysql_type : string) (not_null : Z)
    (col_name table_name : string) : M (string * string) :=
  if (pk =? 1) && (contains "INT" mysql_type || contains "BIGINT" mysql_type)
  then
    (if not_null =? 0
     then print ("Warning: Primary key '" ++ col_name ++ "' in table '"
                 ++ table_name ++ "' is NULLABLE"
                 ++ "                 in SQLite. "
                 ++ "MySQL AUTO_INCREMENT implies NOT NULL.")
     else ret tt) ;;;
    ret (" AUTO_INCREMENT", " NOT NULL")
  else if not_null =? 1 then ret (EmptyString, " NOT NULL")
  else ret (EmptyString, EmptyString).

(** ** The source store *)

(** A row of [PRAGMA table_info]: [col[0]] .. [col[5]]. *)
Record column : Type := mk_column {
  cid : Z;
  name : string;
  ctype : string;
  notnull : Z;
  dflt_value : option string;
  pk : Z
}.

(** A row of [PRAGMA index_list] ([idx[1]] is the name, [idx[2]] the unique
    flag) and a row of [PRAGMA index_info] ([idx_cols[k][2]] is the column
    name, absent for an expression or the rowid). *)
Record index_row : Type := mk_index_row {
  idx_seq : Z;
  idx_name : string;
  idx_unique : Z
}.

Record index_col : Type := mk_index_col {
  seqno : Z;
  idx_cid : Z;
  idx_col_name : option string
}.

(** Values of a fetched row: NULL, INTEGER, REAL, TEXT, BLOB. *)
Inductive value : Type :=
| VNone
| VInt (n : Z)
| VFloat (x : pyfloat)
| VStr (s : string)
| VBytes (b : string).

Definition row : Type := list value.

(** What the SQLite cursor answers.  [query_error q] is the message of the
    [sqlite3.Error] that executing the text [q] raises, when it raises one;
    the rows fetched after a query that was executed are given by the name
    of the table or index that the query asks about. *)
Record sqlite_db : Type := mk_sqlite_db {
  table_info : string -> list column;
  index_list : string -> list index_row;
  index_info : string -> list index_col;
  select_all : string -> list row;
  query_error : string -> option string
}.

(** [DB["sqlite_cursor"].execute(query)] *)
Definition sqlite_execute (db : sqlite_db) (query : string) : M unit :=
  match query_error db query with
  | Some msg => raise (SQLiteError msg)
  | None => ret tt
  end.

(** [table_name.lower() in {'group', 'order', 'key', 'index', 'table'}] *)
Definition is_reserved (table_name : string) : bool :=
  existsb (String.eqb (lower table_name))
          ["group"; "order"; "key"; "index"; "table"].

(** ** Column definitions *)

(** [len(idx_cols) == 1 and idx_cols[0][2] == col[1]] *)
Definition single_column_index_on (idx_cols : list index_col)
    (col_name : string) : bool :=
  match idx_cols with
  | [c] => match idx_col_name c with
           | Some n => String.eqb n col_name
           | None => false
           end
  | _ => false
  end.

(** [for idx in indexes: ...], the loop that sets [is_unique_col]: for each
    unique index its columns are asked for, and the loop breaks at the first
    one that is on the column alone. *)
Fixpoint unique_index_loop (db : sqlite_db) (indexes : list index_row)
    (col_name : string) : M bool :=
  match indexes with
  | [] => ret false
  | idx :: rest =>
      if idx_unique idx =? 1 then
        sqlite_execute db ("PRAGMA index_info('" ++ idx_name idx ++ "');") ;;;
        let idx_cols := index_info db (idx_name idx) in
        if single_column_index_on idx_cols col_name then ret true
        else unique_index_loop db rest col_name
      else unique_index_loop db rest col_name
  end.

(** [lst.append(x)] *)
Definition append_item {A} (lst : list A) (x : A) : list A := (lst ++ [x])%list.

(** [col[1] in pk_col_names] *)
Definition in_names (n : string) (names : list string) : bool :=
  existsb (String.eqb n) names.

(** [process_columns] appends to the two lists it is handed; the new lists
    are returned. *)
Definition process_columns (db : sqlite_db) (col : column) (table_name : string)
    (col_defs : list string) (pk_col_names : list string)
    (primary_keys : list string) : M (list string * list string) :=
  (if is_reserved table_name
   then sqlite_execute db ("PRAGMA index_list(`" ++ table_name ++ "`);")
   else sqlite_execute db ("PRAGMA index_list('" ++ table_name ++ "');")) ;;;
  let indexes := index_list db table_name in
  is_unique <- unique_index_loop db indexes (name col) ;;
  mysql_type <- map_sqlite_to_mysql_type (ctype col)
                  (in_names (name col) pk_col_names) is_unique ;;
  ai_nn <- set_ai_nns (pk col) mysql_type (notnull col) (name col) table_name ;;
  let (auto_increment, not_null_sql) := ai_nn in
  dflt <- build_default_sql (dflt_value col) mysql_type table_name (name col) ;;
  let (default_sql, mysql_type) := dflt in
  let col_defs :=
    append_item col_defs
      (strip ("`" ++ name col ++ "` " ++ mysql_type ++ not_null_sql
              ++ default_sql ++ auto_increment)) in
  let primary_keys :=
    if pk col =? 1 then append_item primary_keys ("`" ++ name col ++ "`")
    else primary_keys in
  let col_defs :=
    if is_unique && negb (in_names (name col) pk_col_names)
    then append_item col_defs ("UNIQUE (`" ++ name col ++ "`)")
    else col_defs in
  ret (col_defs, primary_keys).

(** [for col in columns: process_columns(col, ...)] *)
Fixpoint process_all (db : sqlite_db) (columns : list column)
    (table_name : string) (col_defs pk_col_names primary_keys : list string)
  : M (list string * list string) :=
  match columns with
  | [] => ret (col_defs, primary_keys)
  | col :: rest =>
      acc <- process_columns db col table_name col_defs pk_col_names
               primary_keys ;;
      process_all db rest table_name (fst acc) pk_col_names (snd acc)
  end.

(** The part of [migrate_table] that asks for the columns of the table and
    builds [create_stmt] from them. *)
Definition create_table_stmt (db : sqlite_db) (table_name : string) : M string :=
  let escaped_table_name := "`" ++ table_name ++ "`" in
  (if is_reserved table_name
   then sqlite_execute db ("PRAGMA table_info(`" ++ table_name ++ "`);")
   else sqlite_execute db ("PRAGMA table_info(" ++ table_name ++ ");")) ;;;
  let columns := table_info db table_name in
  let pk_col_names :=
    map name (filter (fun col => pk col =? 1) columns) in
  acc <- process_all db columns table_name [] pk_col_names [] ;;
  let (col_defs, primary_keys) := acc in
  let col_defs :=
    match primary_keys with
    | [] => col_defs
    | _ => append_item col_defs
             ("PRIMARY KEY (" ++ join ", " primary_keys ++ ")")
    end in
  let joined_col_defs := join ("," ++ nl ++ "    ") col_defs in
  ret ("CREATE TABLE IF NOT EXISTS " ++ escaped_table_name ++ " (" ++ nl
       ++ "    " ++ joined_col_defs ++ nl ++ ") "
       ++ "ENGINE=InnoDB DEFAULT CHARSET=utf8mb4 COLLATE=utf8mb4_unicode_ci;").

(** ** Local date and time *)

Record datetime : Type := mk_datetime {
  year : Z; month : Z; day : Z; hour : Z; minute : Z; second : Z
}.

(** The proleptic Gregorian date of a day counted from 1970-01-01. *)
Definition civil_from_days (days : Z) : Z * Z * Z :=
  let z := days + 719468 in
  let era := z / 146097 in
  let doe := z - era * 146097 in
  let yoe := (doe - doe / 1460 + doe / 36524 - doe / 146096) / 365 in
  let doy := doe - (365 * yoe + yoe / 4 - yoe / 100) in
  let mp := (5 * doy + 2) / 153 in
  let d := doy - (153 * mp + 2) / 5 + 1 in
  let m := if mp <? 10 then mp + 3 else mp - 9 in
  let y := yoe + era * 400 + (if m <=? 2 then 1 else 0) in
  (y, m, d).

(** [n] in decimal, padded with zeros on the left up to [width]. *)
Fixpoint zeros (k : nat) : string :=
  match k with
  | O => EmptyString
  | S k' => String "0"%char (zeros k')
  end.

Definition zero_padded (width : nat) (n : Z) : string :=
  let digits := str_Z n in
  zeros (width - String.length digits) ++ digits.

(** [dt.strftime('%Y-%m-%d %H:%M:%S')]; the C library prints the year as it
    is, which is four digits from the year 1000 on. *)
Definition strftime (dt : datetime) : string :=
  str_Z (year dt) ++ "-" ++ zero_padded 2 (month dt) ++ "-"
  ++ zero_padded 2 (day dt) ++ " " ++ zero_padded 2 (hour dt) ++ ":"
  ++ zero_padded 2 (minute dt) ++ ":" ++ zero_padded 2 (second dt).

(** ** Rows *)

(** [bool(v)] *)
Definition truthy (v : value) : bool :=
  match v with
  | VNone => false
  | VInt n => negb (n =? 0)
  | VFloat x => negb (is_zero x)
  | VStr s => negb (String.eqb s EmptyString)
  | VBytes b => negb (String.eqb b EmptyString)
  end.

(** [str(v)] when [str(v).isdigit()] holds.  The text of [None], of a
    negative integer, of a float (it has a point, an exponent, [inf] or
    [nan]) and of a bytes object (it starts with [b']) is never all digits. *)
Definition digit_text (v : value) : option string :=
  match v with
  | VInt n => if 0 <=? n then Some (str_Z n) else None
  | VStr s => if isdigit s then Some s else None
  | VNone | VFloat _ | VBytes _ => None
  end.

(** [int(v)] for a value whose text is all digits. *)
Definition py_int (v : value) : Z :=
  match v with
  | VInt n => n
  | VStr s => int_of_digits s
  | _ => 0
  end.

(** [lst[i] = x] for an index in range. *)
Fixpoint set_item (lst : row) (i : nat) (x : value) : row :=
  match lst, i with
  | [], _ => []
  | _ :: rest, O => x :: rest
  | v :: rest, S i' => v :: set_item rest i' x
  end.

(** [range(start, stop, step)] for a positive step; [stop] iterations are
    more than the loop can make. *)
Fixpoint range_from (fuel start stop step : nat) : list nat :=
  match fuel with
  | O => []
  | S fuel' =>
      if (start <? stop)%nat
      then start :: range_from fuel' (start + step) stop step
      else []
  end.

Definition range (start stop step : nat) : list nat :=
  range_from stop start stop step.

(** [rows[i:j]] *)
Definition slice {A} (l : list A) (i j : nat) : list A :=
  firstn (j - i) (skipn i l).

(** ** The target store *)

(** The connection to MariaDB: the statements sent with [cursor.execute],
    the statements sent with [cursor.executemany], each with its batch, the
    rows written by the open transaction, and the rows of the committed
    ones. *)
Record mysql_conn : Type := mk_mysql_conn {
  executed : list string;
  sent : list (string * list row);
  pending : list row;
  committed : list row
}.

Definition commit (conn : mysql_conn) : mysql_conn :=
  mk_mysql_conn (executed conn) (sent conn) []
                (committed conn ++ pending conn).

Definition rollback (conn : mysql_conn) : mysql_conn :=
  mk_mysql_conn (executed conn) (sent conn) [] (committed conn).

(** What the target does with a bulk insert: the rows it writes, and the
    message of the [mysql.connector.Error] it raises, when it raises one.
    With INSERT IGNORE a row that conflicts with a unique key is skipped
    and is no error, so the rows written can be fewer than the batch. *)
Record insert_answer : Type := mk_insert_answer {
  written : list row;
  insert_error : option string
}.

Definition is_ValueError_or_OSError (e : exn) : bool :=
  match e with
  | ValueError _ | OSError _ => true
  | _ => false
  end.

Section Platform.

(** The local time zone: seconds east of UTC at an instant. *)
Variable utcoffset : Z -> Z.

(** The target's answer to a statement: [Some msg] when executing it
    raises [mysql.connector.Error]. *)
Variable execute_error : string -> option string.

(** The target's answer to a bulk statement and its batch.  The row [i]
    at which the batch starts tells the calls apart: what the target
    answers can depend on what the batches before have written. *)
Variable bulk_insert : string -> nat -> list row -> insert_answer.

(** [datetime.fromtimestamp(t)] for an integer [t]: [OverflowError] outside
    the platform's [time_t] (64 bits), [ValueError] outside the years
    1..9999.  (Whether a year out of range shows as [ValueError] or as
    [OSError], and with which text, is the C library's choice; the caller
    treats both alike.) *)
Definition fromtimestamp (t : Z) : M datetime :=
  if (t <? - 2 ^ 63) || (2 ^ 63 <=? t)
  then raise (OverflowError "timestamp out of range for platform time_t")
  else
    let local := t + utcoffset t in
    let '(y, m, d) := civil_from_days (local / 86400) in
    let s := local mod 86400 in
    if (y <? 1) || (9999 <? y)
    then raise (ValueError ("year " ++ str_Z y ++ " is out of range"))
    else ret (mk_datetime y m d (s / 3600) (s mod 3600 / 60) (s mod 60)).

(** The body of the loop of [knex_timestamp_conversion]. *)
Definition convert_row (row_data : row) : M row :=
  let new_row := row_data in
  if (4 <=? List.length new_row)%nat then
    let migration_time := nth 3 new_row VNone in
    match (if truthy migration_time then digit_text migration_time
           else None) with
    | Some text =>
        let timestamp_val := py_int migration_time in
        let timestamp_val :=
          if 4000000000 <? timestamp_val then timestamp_val / 1000
          else timestamp_val in
        try_except
          (dt <- fromtimestamp timestamp_val ;;
           ret (set_item new_row 3 (VStr (strftime dt))))
          is_ValueError_or_OSError
          (fun e =>
             print ("Warning: Could not convert timestamp " ++ text ++ ": "
                    ++ exn_msg e) ;;;
             ret (set_item new_row 3 VNone))
    | None => ret new_row
    end
  else ret new_row.

Fixpoint knex_loop (rows processed_rows : list row) : M (list row) :=
  match rows with
  | [] => ret processed_rows
  | row_data :: rest =>
      new_row <- convert_row row_data ;;
      knex_loop rest (append_item processed_rows new_row)
  end.

Definition knex_timestamp_conversion (rows : list row) : M (list row) :=
  knex_loop rows [].

(** [cursor.executemany(insert_stmt, batch)] *)
Definition executemany (insert_stmt : string) (i : nat) (batch : list row)
    (conn : mysql_conn) : result unit * mysql_conn :=
  let answer := bulk_insert insert_stmt i batch in
  let conn :=
    mk_mysql_conn (executed conn)
                  (append_item (sent conn) (insert_stmt, batch))
                  (pending conn ++ written answer) (committed conn) in
  match insert_error answer with
  | Some msg => (Raise (MySQLError msg), conn)
  | None => (Ok tt, conn)
  end.

Definition batch_size : nat := 1000.

(** [for i in range(0, len(rows), batch_size)]: [starts] are the values of
    [i] still to come. *)
Fixpoint copy_batches (insert_stmt table_name : string) (rows : list row)
    (starts : list nat) (conn : mysql_conn) (successful_batches : nat)
  : M (mysql_conn * nat) :=
  match starts with
  | [] => ret (conn, successful_batches)
  | i :: rest =>
      let batch := slice rows i (i + batch_size) in
      match executemany insert_stmt i batch conn with
      | (Ok _, conn1) =>
          copy_batches insert_stmt table_name rows rest (commit conn1)
                       (S successful_batches)
      | (Raise err, conn1) =>
          print ("Error inserting data into `" ++ table_name ++ "` (batch "
                 ++ str_Z (Z.of_nat (i / batch_size)) ++ ", starting row "
                 ++ str_Z (Z.of_nat i) ++ "): " ++ exn_msg err) ;;;
          copy_batches insert_stmt table_name rows rest (rollback conn1)
                       successful_batches
      end
  end.

(** [copy_rows] from the construction of the INSERT statement to its last
    [print]: [rows] are the rows to copy, [original_col_names] the column
    names of the source table. *)
Definition copy_prepared (table_name escaped_table_name : string)
    (original_col_names : list string) (rows : list row)
    (conn : mysql_conn) : M mysql_conn :=
  let placeholders := join "," (map (fun _ => "%s") original_col_names) in
  let insert_stmt :=
    "INSERT IGNORE INTO " ++ escaped_table_name ++ " ("
    ++ join "," (map (fun col => "`" ++ col ++ "`") original_col_names)
    ++ ") VALUES (" ++ placeholders ++ ")" in
  print ("Copying " ++ str_Z (Z.of_nat (List.length rows)) ++ " rows to `"
         ++ table_name ++ "` using: " ++ insert_stmt) ;;;
  done <- copy_batches insert_stmt table_name rows
            (range 0 (List.length rows) batch_size) conn 0%nat ;;
  let (conn, successful_batches) := done in
  print ("Successfully processed " ++ str_Z (Z.of_nat successful_batches)
         ++ " batches out of "
         ++ str_Z (Z.of_nat ((List.length rows + batch_size - 1) / batch_size))
         ++ " for table `" ++ table_name ++ "`") ;;;
  print ("Data copied to `" ++ table_name ++ "`.") ;;;
  ret conn.

(** [rows] is what [fetchall] returns for the SELECT that the caller has
    executed on the source cursor. *)
Definition copy_rows (db : sqlite_db) (table_name escaped_table_name : string)
    (rows : list row) (conn : mysql_conn) : M mysql_conn :=
  match rows with
  | [] => print ("No data to copy for table `" ++ table_name ++ "`.") ;;;
          ret conn
  | _ =>
      (if is_reserved table_name
       then sqlite_execute db ("PRAGMA table_info(`" ++ table_name ++ "`);")
       else sqlite_execute db ("PRAGMA table_info(" ++ table_name ++ ");")) ;;;
      let original_col_names := map name (table_info db table_name) in
      rows <- (if String.eqb table_name "knex_migrations"
               then knex_timestamp_conversion rows else ret rows) ;;
      copy_prepared table_name escaped_table_name original_col_names rows conn
  end.

(** [cursor.execute(stmt)] on the target. *)
Definition execute (stmt : string) (conn : mysql_conn)
  : result unit * mysql_conn :=
  match execute_error stmt with
  | Some msg => (Raise (MySQLError msg), conn)
  | None =>
      (Ok tt, mk_mysql_conn (append_item (executed conn) stmt) (sent conn)
                            (pending conn) (committed conn))
  end.

Definition migrate_table (db : sqlite_db) (table_name : string)
    (conn : mysql_conn) : M mysql_conn :=
  if String.eqb table_name "sqlite_sequence" then
    print ("Skipping internal SQLite table: " ++ table_name) ;;; ret conn
  else if prefix "sqlite_autoindex_" table_name then
    print ("Skipping internal SQLite autoindex table: " ++ table_name) ;;;
    ret conn
  else
    print (nl ++ "Processing table: `" ++ table_name ++ "`") ;;;
    let escaped_table_name := "`" ++ table_name ++ "`" in
    create_stmt <- create_table_stmt db table_name ;;
    print ("Generated CREATE TABLE statement:" ++ nl ++ create_stmt) ;;;
    let created :=
      match execute ("DROP TABLE IF EXISTS " ++ escaped_table_name ++ ";")
                    conn with
      | (Ok _, conn1) => execute create_stmt conn1
      | failed => failed
      end in
    match created with
    | (Raise err, conn2) =>
        print ("Error creating table `" ++ table_name ++ "`: "
               ++ exn_msg err) ;;;
        ret conn2
    | (Ok _, conn2) =>
        print ("Table `" ++ table_name ++ "` created in MySQL.") ;;;
        (if is_reserved table_name
         then sqlite_execute db ("SELECT * FROM `" ++ table_name ++ "`")
         else sqlite_execute db ("SELECT * FROM " ++ table_name)) ;;;
        copy_rows db table_name escaped_table_name
                  (select_all db table_name) conn2
    end.

End Platform.


(** ** The tables of the source, one after the other *)

Section Driver.

Variable utcoffset : Z -> Z.
Variable execute_error : string -> option string.
Variable bulk_insert : string -> nat -> list row -> insert_answer.

(** [for table_name_tuple in tables: migrate_table(table_name_tuple[0])],
    the loop of [migrate_sqlite_to_mysql]; [tables] are the names that the
    query on [sqlite_master] returned.  An exception of [migrate_table]
    leaves the loop. *)
Fixpoint migrate_tables (db : sqlite_db) (tables : list string)
    (conn : mysql_conn) : M mysql_conn :=
  match tables with
  | [] => ret conn
  | table_name :: rest =>
      conn <- migrate_table utcoffset execute_error bulk_insert db
                table_name conn ;;
      migrate_tables db rest conn
  end.

End Driver.

(** * Definitions used by the statements *)

(** Characters of a string all satisfy a test. *)
Fixpoint all_chars (P : ascii -> bool) (s : string) : bool :=
  match s with
  | EmptyString => true
  | String c s' => P c && all_chars P s'
  end.

Definition integer_keyword_target (sqlite_type_upper : string) : string :=
  if contains "TINYINT" sqlite_type_upper then "TINYINT"
  else if contains "SMALLINT" sqlite_type_upper then "SMALLINT"
  else if contains "MEDIUMINT" sqlite_type_upper then "MEDIUMINT"
  else if contains "BIGINT" sqlite_type_upper then "BIGINT UNSIGNED"
  else "INT UNSIGNED".

Definition indexed_text_warning (sqlite_type_raw : string) : string :=
  "Warning: Indexed text column '" ++ sqlite_type_raw
  ++ "' mapped to VARCHAR(191) for index compatibility.".

(** The warnings of the type mapper. *)
Definition indexed_blob_warning (sqlite_type_raw : string) : string :=
  "Warning: Indexed BLOB column '" ++ sqlite_type_raw
  ++ "' mapped to VARBINARY(191) for index compatibility.".

Definition unknown_type_warning (sqlite_type_raw : string) : string :=
  "Warning: Unknown SQLite type '" ++ sqlite_type_raw
  ++ "'. Defaulting to VARCHAR(255).".

(** [s] with every character replaced by a string. *)
Fixpoint subst_chars (f : ascii -> string) (s : string) : string :=
  match s with
  | EmptyString => EmptyString
  | String c s' => f c ++ subst_chars f s'
  end.

(** The text that stands for one character after [replace(old, new)] with a
    one-character [old]. *)
Definition char_for (old : ascii) (new : string) (c : ascii) : string :=
  if Ascii.eqb c old then new else String c EmptyString.

(** The form in which [build_default_sql] compares a default: upper case,
    with each double quote replaced by a single quote. *)
Definition default_str (default_text : string) : string :=
  replace (String dquote EmptyString) "'" (upper default_text).

(** The spellings of the current time stamp: the keyword in any letter case,
    bare or between quote characters of either kind, and any text in which
    the call DATETIME('now') occurs, in any letter case and with either kind
    of quote. *)
Definition quote_marks : list string := ["'"; String dquote EmptyString].

Definition quoted_variants (keyword : string) : list string :=
  keyword
  :: flat_map (fun l => map (fun r => l ++ keyword ++ r) quote_marks)
              quote_marks.

Definition timestamp_keywords : list string :=
  quoted_variants "CURRENT_TIMESTAMP".

(** The null literal: NULL in any letter case, bare or between quotes. *)
Definition recognized_null (default_text : string) : bool :=
  existsb (String.eqb (upper default_text)) (quoted_variants "NULL").

(** The texts that [replace] with a double quote for [old] and a single
    quote for [new] turns into [s]. *)
Fixpoint unquoted_sources (s : string) : list string :=
  match s with
  | EmptyString => [EmptyString]
  | String c s' =>
      let tails := unquoted_sources s' in
      if Ascii.eqb c squote
      then (map (String squote) tails ++ map (String dquote) tails)%list
      else map (String c) tails
  end.

Definition tinyint_promotion_warning (default_text table_name col_name : string)
  : string :=
  "Warning: Default value " ++ default_text ++ " for TINYINT column '"
  ++ table_name ++ "." ++ col_name
  ++ "' exceeds range. Promoting column to SMALLINT.".

Definition is_quote (c : ascii) : bool :=
  mem_char c (String squote (String dquote EmptyString)).

(** One layer of quotes taken off: the first character when it is a quote,
    and the last one when it is a quote. *)
Fixpoint drop_last_quote (s : string) : string :=
  match s with
  | EmptyString => EmptyString
  | String c EmptyString => if is_quote c then EmptyString else s
  | String c s' => String c (drop_last_quote s')
  end.

Definition spec_strip_one_layer (s : string) : string :=
  drop_last_quote
    match s with
    | String c s' => if is_quote c then s' else s
    | EmptyString => EmptyString
    end.

(** The default that SQLite hands over for a column declared with the
    value 'x', quotes included, written between double quotes: a double
    quote, the three characters of the value, a double quote. *)
Definition quoted_x_default : string :=
  String dquote ("'x'" ++ String dquote EmptyString).

(** Every single quote doubled. *)
Definition double_single_quotes (s : string) : string :=
  subst_chars (char_for squote "''") s.

Definition now_calls : list string :=
  flat_map (fun l => map (fun r => "DATETIME(" ++ l ++ "NOW" ++ r ++ ")")
                         quote_marks)
           quote_marks.

Definition recognized_timestamp_spelling (default_text : string) : bool :=
  let u := upper default_text in
  existsb (String.eqb u) timestamp_keywords
  || existsb (fun call => contains call u) now_calls.

(** The characters [float] can accept in a string: white space, digits, the
    signs, the point, the exponent mark, the underscore, and the letters of
    inf, infinity and nan. *)
Definition float_char (c : ascii) : bool :=
  is_c_space c || is_digit c || mem_char c "+-._eE"
  || mem_char (upper_char c) "INFTYA".

(** No letter of the set C, D, U: such a text is none of the keywords
    CURRENT_TIMESTAMP, DATETIME and NULL. *)
Definition not_CDU (c : ascii) : bool := negb (mem_char c "CDU").

Definition unquote : ascii -> string := char_for dquote "'".

Definition nullable_pk_warning (col_name table_name : string) : string :=
  "Warning: Primary key '" ++ col_name ++ "' in table '" ++ table_name
  ++ "' is NULLABLE                 in SQLite. "
  ++ "MySQL AUTO_INCREMENT implies NOT NULL.".

(** [`name`] *)
Definition backticked (n : string) : string := "`" ++ n ++ "`".

Definition unique_entry (col_name : string) : string :=
  "UNIQUE (`" ++ col_name ++ "`)".

(** The queries that the code sends to the source for a table: the name is
    put between backticks when it is one of five reserved words (in any
    letter case), and otherwise between single quotes or bare. *)
Definition index_list_query (table_name : string) : string :=
  if is_reserved table_name
  then "PRAGMA index_list(`" ++ table_name ++ "`);"
  else "PRAGMA index_list('" ++ table_name ++ "');".

Definition index_info_query (index_name : string) : string :=
  "PRAGMA index_info('" ++ index_name ++ "');".

Definition table_info_query (table_name : string) : string :=
  if is_reserved table_name
  then "PRAGMA table_info(`" ++ table_name ++ "`);"
  else "PRAGMA table_info(" ++ table_name ++ ");".

Definition select_query (table_name : string) : string :=
  if is_reserved table_name
  then "SELECT * FROM `" ++ table_name ++ "`"
  else "SELECT * FROM " ++ table_name.

(** The source answers the query for the indexes of a table and the query
    for the columns of each of its unique indexes. *)
Definition answers_index_queries (db : sqlite_db) (table_name : string)
  : Prop :=
  query_error db (index_list_query table_name) = None
  /\ forall idx : index_row,
       In idx (index_list db table_name) -> idx_unique idx = 1 ->
       query_error db (index_info_query (idx_name idx)) = None.

(** What the loop over the indexes computes when its queries are answered:
    some unique index of the table is on the column alone. *)
Definition is_unique_col (db : sqlite_db) (table_name col_name : string)
  : bool :=
  existsb (fun idx =>
             (idx_unique idx =? 1)
             && single_column_index_on (index_info db (idx_name idx)) col_name)
          (index_list db table_name).

(** The members of the primary key of a table: the columns whose ordinal in
    the key, the last field of [PRAGMA table_info], is not 0. *)
Definition key_members (columns : list column) : list column :=
  filter (fun col => negb (pk col =? 0)) columns.

(** SQLite numbers the members of a key 1, 2, ...: no ordinal is above the
    number of members. *)
Definition ordinals_numbered (columns : list column) : Prop :=
  forall col : column,
    In col columns ->
    0 <= pk col <= Z.of_nat (List.length (key_members columns)).

(** A table whose only column is a nullable text primary key. *)
Definition text_pk_column : column := mk_column 0 "slug" "TEXT" 0 None 1.

Definition text_pk_db : sqlite_db :=
  mk_sqlite_db (fun _ => [text_pk_column]) (fun _ => []) (fun _ => [])
               (fun _ => []) (fun _ => None).

(** A table whose key is a nullable integer column. *)
Definition nullable_id_column : column := mk_column 0 "id" "INTEGER" 0 None 1.

Definition nullable_id_db : sqlite_db :=
  mk_sqlite_db
    (fun _ => [ nullable_id_column;
                mk_column 1 "title" "VARCHAR(64)" 1 None 0 ])
    (fun _ => []) (fun _ => []) (fun _ => []) (fun _ => None).

(** A table with a two-column primary key, as [PRAGMA table_info] shows it:
    the members carry the ordinals 1 and 2. *)
Definition composite_pk_db : sqlite_db :=
  mk_sqlite_db
    (fun _ => [ mk_column 0 "monitor_id" "INTEGER" 1 None 1;
                mk_column 1 "tag_id" "INTEGER" 1 None 2;
                mk_column 2 "value" "TEXT" 0 None 0 ])
    (fun _ => []) (fun _ => []) (fun _ => []) (fun _ => None).

(** The statement generated for it. *)
Definition composite_pk_stmt : string :=
  "CREATE TABLE IF NOT EXISTS `monitor_tag` (" ++ nl
  ++ "    `monitor_id` INT UNSIGNED NOT NULL AUTO_INCREMENT," ++ nl
  ++ "    `tag_id` INT UNSIGNED NOT NULL," ++ nl
  ++ "    `value` LONGTEXT," ++ nl
  ++ "    PRIMARY KEY (`monitor_id`)" ++ nl
  ++ ") ENGINE=InnoDB DEFAULT CHARSET=utf8mb4 COLLATE=utf8mb4_unicode_ci;".

(** A row of the migrations log whose time stamp, a text of digits, is in
    milliseconds and exceeds the 64-bit [time_t] once divided by 1000. *)
Definition overflowing_row : row :=
  [VInt 7; VStr "2023-10-08-0000-mqtt-query.js"; VInt 3;
   VStr "9223372036854775808000"].

Definition time_t_overflow : exn :=
  OverflowError "timestamp out of range for platform time_t".

(** What [knex_timestamp_conversion] may do to a row: the length and every
    field but the fourth are kept. *)
Definition frame_of (r r' : row) : Prop :=
  List.length r' = List.length r
  /\ forall j : nat, j <> 3%nat -> nth_error r' j = nth_error r j.

(** The field [f] is read as the epoch value [t]: it is true, its text is
    all digits, and [int] gives [t]. *)
Definition reads_as_epoch (f : value) (t : Z) : Prop :=
  truthy f = true /\ digit_text f <> None /\ py_int f = t.

(** [rows[i:i + batch_size]] *)
Definition batch_at (rows : list row) (i : nat) : list row :=
  slice rows i (i + batch_size).

(** The INSERT statement of [copy_rows]. *)
Definition insert_ignore_stmt (escaped_table_name : string)
    (original_col_names : list string) : string :=
  "INSERT IGNORE INTO " ++ escaped_table_name ++ " ("
  ++ join "," (map (fun col => "`" ++ col ++ "`") original_col_names)
  ++ ") VALUES (" ++ join "," (map (fun _ => "%s") original_col_names) ++ ")".

Definition copying_line (table_name escaped_table_name : string)
    (original_col_names : list string) (n : nat) : string :=
  "Copying " ++ str_Z (Z.of_nat n) ++ " rows to `" ++ table_name
  ++ "` using: " ++ insert_ignore_stmt escaped_table_name original_col_names.

Definition batch_error_line (table_name : string) (i : nat) (msg : string)
  : string :=
  "Error inserting data into `" ++ table_name ++ "` (batch "
  ++ str_Z (Z.of_nat (i / batch_size)) ++ ", starting row "
  ++ str_Z (Z.of_nat i) ++ "): " ++ msg.

Definition summary_line (table_name : string) (successful total : nat)
  : string :=
  "Successfully processed " ++ str_Z (Z.of_nat successful)
  ++ " batches out of " ++ str_Z (Z.of_nat total)
  ++ " for table `" ++ table_name ++ "`".

(** The rows that a run commits when the batch starting at [j] is the one
    that fails and the target writes every row of the others: the rows
    before it and the rows after it. *)
Definition rows_without_batch (rows : list row) (j : nat) : list row :=
  (firstn j rows ++ skipn (j + batch_size) rows)%list.

(** The values of [i] in the loop of [copy_rows]. *)
Definition batch_starts (rows : list row) : list nat :=
  range 0 (List.length rows) batch_size.

(** The batches other than the one that starts at row [j]. *)
Definition other_starts (rows : list row) (j : nat) : list nat :=
  filter (fun i => negb (i =? j)%nat) (batch_starts rows).

(** A target on which the bulk insert fails for the batch that starts at
    row 1000, after having written two rows of it, and which writes every
    row of any other batch. *)
Definition fails_at_1000 (stmt : string) (i : nat) (batch : list row)
  : insert_answer :=
  if (i =? 1000)%nat
  then mk_insert_answer (firstn 2 batch) (Some "1205 (HY000): Lock wait timeout")
  else mk_insert_answer batch None.

Definition numbered_rows (n : nat) : list row :=
  map (fun k => [VInt (Z.of_nat k)]) (seq 0 n).

Definition empty_conn : mysql_conn := mk_mysql_conn [] [] [] [].

(** Whether the bulk insert of the batch that starts at row [i] succeeds. *)
Definition batch_succeeds
    (bulk_insert : string -> nat -> list row -> insert_answer)
    (stmt : string) (rows : list row) (i : nat) : bool :=
  match insert_error (bulk_insert stmt i (batch_at rows i)) with
  | None => true
  | Some _ => false
  end.

(** The rows that the target writes for the batch that starts at row [i]. *)
Definition batch_written
    (bulk_insert : string -> nat -> list row -> insert_answer)
    (stmt : string) (rows : list row) (i : nat) : list row :=
  written (bulk_insert stmt i (batch_at rows i)).

(** What the loop prints for the batch that starts at row [i]. *)
Definition batch_failure_lines
    (bulk_insert : string -> nat -> list row -> insert_answer)
    (stmt table_name : string) (rows : list row) (i : nat) : list string :=
  match insert_error (bulk_insert stmt i (batch_at rows i)) with
  | None => []
  | Some msg => [batch_error_line table_name i msg]
  end.

(** The text is one that [int] converts: it has no more digits than the
    interpreter allows. *)
Definition within_int_limit (digits : string) : bool :=
  (String.length digits <=? int_max_str_digits)%nat.

(** The length that a declaration carries in parentheses, if it carries
    one, is a text that [int] converts. *)
Definition declared_length_within_limit (declared : string) : bool :=
  match search_paren_digits declared with
  | Some group1 => within_int_limit group1
  | None => true
  end.

(** The target types that do not depend on a declared length. *)
Definition fixed_target_types : list string :=
  [ "TINYINT"; "SMALLINT"; "MEDIUMINT"; "BIGINT UNSIGNED"; "INT UNSIGNED";
    "VARCHAR(191)"; "LONGTEXT"; "VARBINARY(191)"; "BLOB";
    "DOUBLE"; "DECIMAL(10,2)"; "TINYINT(1)"; "TIME"; "DATETIME";
    "VARCHAR(255)" ].

(** None of the keywords of the five families occurs in the upper-cased
    declaration. *)
Definition no_family_keyword (u : string) : bool :=
  negb (contains "INT" u) && negb (contains_any TEXT_TYPES u)
  && negb (contains "BLOB" u)
  && negb (contains_any ["REAL"; "FLOA"; "DOUB"; "NUM"; "DEC"; "BOOL"] u)
  && negb (String.eqb u "TIME") && negb (contains "DATE" u).

(** The body of a single-quoted SQL string literal read back: two single
    quotes stand for one, and a single quote on its own does not occur
    inside a literal. *)
Fixpoint read_sql_string_body (body : string) : option string :=
  match body with
  | EmptyString => Some EmptyString
  | String c rest =>
      if Ascii.eqb c squote
      then match rest with
           | String c' rest' =>
               if Ascii.eqb c' squote
               then option_map (String squote) (read_sql_string_body rest')
               else None
           | EmptyString => None
           end
      else option_map (String c) (read_sql_string_body rest)
  end.

Definition primary_key_entry (keys : list string) : string :=
  "PRIMARY KEY (" ++ join ", " keys ++ ")".

(** The columns that the code takes for key members: those whose [pk]
    field is 1. *)
Definition pk_columns (columns : list column) : list column :=
  filter (fun col => pk col =? 1) columns.

(** The CREATE TABLE statement around its entries. *)
Definition create_table_text (table_name : string) (entries : list string)
  : string :=
  "CREATE TABLE IF NOT EXISTS " ++ ("`" ++ table_name ++ "`") ++ " (" ++ nl
  ++ "    " ++ join ("," ++ nl ++ "    ") entries ++ nl ++ ") "
  ++ "ENGINE=InnoDB DEFAULT CHARSET=utf8mb4 COLLATE=utf8mb4_unicode_ci;".

(** The entries of one column: its definition, which starts with the name
    between backticks, and after it a UNIQUE entry when the column has a
    unique index of its own and is not among the key columns. *)
Definition column_entries (db : sqlite_db) (table_name : string)
    (pk_col_names : list string) (col : column) (entries : list string)
  : Prop :=
  exists rendered : string,
    prefix (backticked (name col)) rendered = true
    /\ entries
       = rendered
         :: (if is_unique_col db table_name (name col)
                && negb (in_names (name col) pk_col_names)
             then [unique_entry (name col)] else []).

(** A table with a unique text column beside its integer key. *)
Definition api_key_db : sqlite_db :=
  mk_sqlite_db
    (fun _ => [ mk_column 0 "id" "INTEGER" 1 None 1;
                mk_column 1 "key" "VARCHAR(255)" 1 None 0 ])
    (fun _ => [ mk_index_row 0 "sqlite_autoindex_api_key_1" 1 ])
    (fun _ => [ mk_index_col 0 1 (Some "key") ])
    (fun _ => []) (fun _ => None).

(** A row whose time stamp, if the normalizer converts one, is below
    2^63 seconds once the milliseconds are divided by 1000: the value that
    [datetime.fromtimestamp] can take as a [time_t]. *)
Definition fits_time_t (r : row) : bool :=
  if (4 <=? List.length r)%nat then
    let migration_time := nth 3 r VNone in
    if truthy migration_time then
      match digit_text migration_time with
      | Some _ => py_int migration_time <? 2 ^ 63 * 1000
      | None => true
      end
    else true
  else true.

(** The text that the normalizer hands to [int], if it reads a time stamp
    in the row, has no more digits than [int] converts. *)
Definition time_stamp_within_limit (r : row) : bool :=
  if (4 <=? List.length r)%nat then
    let migration_time := nth 3 r VNone in
    if truthy migration_time then
      match digit_text migration_time with
      | Some text => within_int_limit text
      | None => true
      end
    else true
  else true.

(** The rows the normalizer hands back as they came. *)
Definition not_converted (r : row) : Prop :=
  (List.length r < 4)%nat
  \/ truthy (nth 3 r VNone) = false
  \/ digit_text (nth 3 r VNone) = None.

(** The statements and lines of [migrate_table]. *)
Definition drop_stmt (table_name : string) : string :=
  "DROP TABLE IF EXISTS " ++ ("`" ++ table_name ++ "`") ++ ";".

Definition is_internal_table (table_name : string) : bool :=
  String.eqb table_name "sqlite_sequence"
  || prefix "sqlite_autoindex_" table_name.

Definition skipping_line (table_name : string) : string :=
  if String.eqb table_name "sqlite_sequence"
  then "Skipping internal SQLite table: " ++ table_name
  else "Skipping internal SQLite autoindex table: " ++ table_name.

Definition processing_line (table_name : string) : string :=
  nl ++ "Processing table: `" ++ table_name ++ "`".

Definition generated_line (create_stmt : string) : string :=
  "Generated CREATE TABLE statement:" ++ nl ++ create_stmt.


Definition create_error_line (table_name msg : string) : string :=
  "Error creating table `" ++ table_name ++ "`: " ++ msg.

Definition data_copied_line (table_name : string) : string :=
  "Data copied to `" ++ table_name ++ "`.".

(** A target that refuses every CREATE TABLE statement. *)
Definition refuses_create (stmt : string) : option string :=
  if prefix "CREATE TABLE" stmt
  then Some "1071 (42000): Specified key was too long"
  else None.

(** A target that accepts everything and skips no row. *)
Definition accepts_statement (stmt : string) : option string := None.

Definition accepts_batch (stmt : string) (i : nat) (batch : list row)
  : insert_answer := mk_insert_answer batch None.

(** The INSERT statement that [copy_rows] builds for a table of the
    source. *)
Definition insert_stmt_of (db : sqlite_db) (table_name : string) : string :=
  insert_ignore_stmt ("`" ++ table_name ++ "`")
                     (map name (table_info db table_name)).

(** The bulk inserts that [copy_rows] sends for the rows of a table: one
    per batch, in order, each with the statement and the rows of the
    batch. *)
Definition bulk_inserts (stmt : string) (rows : list row)
  : list (string * list row) :=
  map (fun i => (stmt, batch_at rows i)) (batch_starts rows).

(** No declared length of the table has more digits than [int] converts. *)
Definition lengths_within_limit (db : sqlite_db) (table_name : string)
  : Prop :=
  forall col : column,
    In col (table_info db table_name) ->
    declared_length_within_limit (ctype col) = true.

(** A source with one table of three rows. *)
Definition tag_db : sqlite_db :=
  mk_sqlite_db
    (fun _ => [ mk_column 0 "id" "INTEGER" 1 None 1;
                mk_column 1 "name" "VARCHAR(255)" 1 None 0 ])
    (fun _ => []) (fun _ => [])
    (fun _ => [ [VInt 1; VStr "prod"]; [VInt 2; VStr "staging"];
                [VInt 3; VStr "dev"] ])
    (fun _ => None).

(** A migrations log whose time stamps are kept as text, with a time stamp
    beyond [time_t]. *)
Definition knex_overflow_db : sqlite_db :=
  mk_sqlite_db
    (fun _ => [ mk_column 0 "id" "INTEGER" 1 None 1;
                mk_column 1 "name" "VARCHAR(255)" 0 None 0;
                mk_column 2 "batch" "INTEGER" 0 None 0;
                mk_column 3 "migration_time" "TEXT" 0 None 0 ])
    (fun _ => []) (fun _ => [])
    (fun _ => [ [VInt 1; VStr "init.js"; VInt 1; VStr "1700000000000"];
                overflowing_row ])
    (fun _ => None).

(** The tables that are migrated: all but those SQLite keeps for itself. *)
Definition user_tables (tables : list string) : list string :=
  filter (fun table_name => negb (is_internal_table table_name)) tables.

(** The CREATE TABLE statement of a table. *)
Definition create_stmt_of (db : sqlite_db) (table_name : string) : string :=
  match create_table_stmt db table_name with
  | (Ok create_stmt, _) => create_stmt
  | (Raise _, _) => EmptyString
  end.

(** A source with the migrations log, whose second row has a time stamp
    beyond [time_t], and two other tables of three rows each. *)
Definition kuma_db : sqlite_db :=
  mk_sqlite_db
    (fun table_name =>
       if String.eqb table_name "knex_migrations"
       then table_info knex_overflow_db table_name
       else table_info tag_db table_name)
    (fun _ => []) (fun _ => [])
    (fun table_name =>
       if String.eqb table_name "knex_migrations"
       then select_all knex_overflow_db table_name
       else select_all tag_db table_name)
    (fun _ => None).

(** The source hands a table over: it answers the queries for its columns,
    its indexes and its rows, and no declared length of the table has more
    digits than [int] converts. *)
Definition hands_over (db : sqlite_db) (table_name : string) : Prop :=
  query_error db (table_info_query table_name) = None
  /\ answers_index_queries db table_name
  /\ query_error db (select_query table_name) = None
  /\ lengths_within_limit db table_name.

(** The form of a MySQL DATETIME literal: YYYY-MM-DD HH:MM:SS. *)
Definition is_datetime_text (s : string) : bool :=
  match list_ascii_of_string s with
  | [y1; y2; y3; y4; d1; m1; m2; d2; a1; a2; sp; h1; h2; c1; n1; n2; c2;
     s1; s2] =>
      forallb is_digit [y1; y2; y3; y4; m1; m2; a1; a2; h1; h2; n1; n2; s1; s2]
      && forallb (Ascii.eqb "-"%char) [d1; d2]
      && Ascii.eqb sp " "%char
      && forallb (Ascii.eqb ":"%char) [c1; c2]
  | _ => false
  end.

(** [p] holds for the [fuel] integers from [z] on. *)
Fixpoint all_from (p : Z -> bool) (fuel : nat) (z : Z) : bool :=
  match fuel with
  | O => true
  | S fuel' => if p z then all_from p fuel' (z + 1) else false
  end.

Definition two_digits (n : Z) : bool :=
  match zero_padded 2 n with
  | String a (String b EmptyString) => is_digit a && is_digit b
  | _ => false
  end.

Definition four_digits (n : Z) : bool :=
  match str_Z n with
  | String a (String b (String c (String d EmptyString))) =>
      is_digit a && is_digit b && is_digit c && is_digit d
  | _ => false
  end.

(** The month and the day that [civil_from_days] gives for the day [doe]
    of a 400-year era, and the year of the era. *)
Definition date_in_range (doe : Z) : bool :=
  let '(y, m, d) := civil_from_days (doe - 719468) in
  (0 <=? y) && (y <=? 400) && (1 <=? m) && (m <=? 12)
  && (1 <=? d) && (d <=? 31).

(** * Theorems *)

(** * Facts about strings *)

Section StringFacts.

Lemma append_assoc (a b c : string) : (a ++ b) ++ c = a ++ (b ++ c).
Proof. induction a as [|x a IH]; simpl; [reflexivity | now rewrite IH]. Qed.

Lemma append_nil_r (a : string) : a ++ EmptyString = a.
Proof. induction a as [|x a IH]; simpl; [reflexivity | now rewrite IH]. Qed.

Lemma prefix_app (n b : string) : prefix n (n ++ b) = true.
Proof.
  induction n as [|x n IH]; simpl.
  - now destruct b.
  - destruct (ascii_dec x x) as [_|ne]; [exact IH | now elim ne].
Qed.

Lemma prefix_split (n h : string) :
  prefix n h = true -> exists b, h = n ++ b.
Proof.
  revert h; induction n as [|x n IH]; intros h H.
  - now exists h.
  - destruct h as [|y h]; simpl in H; [discriminate|].
    destruct (ascii_dec x y) as [->|]; [|discriminate].
    destruct (IH _ H) as [b ->]. now exists b.
Qed.

Lemma contains_prefix (n h : string) :
  prefix n h = true -> contains n h = true.
Proof. intros H. destruct h; cbn [contains]; now rewrite H. Qed.

Lemma contains_app (a n b : string) : contains n (a ++ n ++ b) = true.
Proof.
  induction a as [|x a IH].
  - change (EmptyString ++ n ++ b) with (n ++ b). apply contains_prefix, prefix_app.
  - cbn [append contains]. rewrite IH. apply orb_true_r.
Qed.

Lemma contains_split (n h : string) :
  contains n h = true -> exists a b, h = a ++ n ++ b.
Proof.
  induction h as [|y h IH]; cbn [contains]; intros H.
  - rewrite orb_false_r in H. destruct (prefix_split _ _ H) as [b E].
    now exists EmptyString, b.
  - apply orb_true_iff in H as [H|H].
    + destruct (prefix_split _ _ H) as [b E]. now exists EmptyString, b.
    + destruct (IH H) as (a & b & ->). now exists (String y a), b.
Qed.

Lemma contains_trans (a b c : string) :
  contains a b = true -> contains b c = true -> contains a c = true.
Proof.
  intros Hab Hbc.
  destruct (contains_split _ _ Hab) as (l & r & ->).
  destruct (contains_split _ _ Hbc) as (l' & r' & ->).
  rewrite !append_assoc, <- (append_assoc l' l).
  apply contains_app.
Qed.

Lemma contains_refl (n : string) : contains n n = true.
Proof.
  rewrite <- (append_nil_r n) at 2. apply (contains_app EmptyString n EmptyString).
Qed.

Lemma contains_app_l (n a b : string) :
  contains n a = true -> contains n (a ++ b) = true.
Proof.
  intros H. destruct (contains_split _ _ H) as (l & r & ->).
  rewrite !append_assoc. apply contains_app.
Qed.

Lemma contains_app_r (n a b : string) :
  contains n b = true -> contains n (a ++ b) = true.
Proof.
  intros H. destruct (contains_split _ _ H) as (l & r & ->).
  rewrite <- append_assoc. apply contains_app.
Qed.

End StringFacts.

(** * The type mapper *)

Section TypeMapper.

Lemma integer_key_has_INT (key target : string) :
  In (key, target) INTEGER_TYPES -> contains "INT" key = true.
Proof.
  unfold INTEGER_TYPES; simpl; intros H.
  repeat (destruct H as [H|H]; [inversion H; subst; reflexivity|]).
  contradiction.
Qed.

Lemma map_integer_type_target (u : string) :
  contains "INT" u = true ->
  map_integer_type u = Some (integer_keyword_target u).
Proof.
  intros H. unfold map_integer_type, integer_keyword_target, INTEGER_TYPES.
  cbn [first_match].
  repeat match goal with
         | |- context [if contains ?k u then _ else _] =>
             destruct (contains k u) eqn:?; try reflexivity; try discriminate
         end.
Qed.

Lemma map_integer_type_none (u : string) :
  contains "INT" u = false -> map_integer_type u = None.
Proof.
  intros H. unfold map_integer_type, INTEGER_TYPES. cbn [first_match].
  assert (K : forall k, contains "INT" k = true -> contains k u = false).
  { intros k Hk. destruct (contains k u) eqn:E; [|reflexivity].
    now rewrite (contains_trans _ _ _ Hk E) in H. }
  rewrite !K by reflexivity. reflexivity.
Qed.

Lemma integer_keyword_target_in_table (u : string) :
  contains "INT" u = true ->
  exists key, In (key, integer_keyword_target u) INTEGER_TYPES
              /\ contains key u = true.
Proof.
  intros H. unfold integer_keyword_target, INTEGER_TYPES.
  destruct (contains "TINYINT" u) eqn:E1;
    [exists "TINYINT"; split; [simpl; tauto | exact E1]|].
  destruct (contains "SMALLINT" u) eqn:E2;
    [exists "SMALLINT"; split; [simpl; tauto | exact E2]|].
  destruct (contains "MEDIUMINT" u) eqn:E3;
    [exists "MEDIUMINT"; split; [simpl; tauto | exact E3]|].
  destruct (contains "BIGINT" u) eqn:E4;
    [exists "BIGINT"; split; [simpl; tauto | exact E4]|].
  exists "INT"; split; [simpl; tauto | exact H].
Qed.

Lemma integer_keyword_target_nonempty (u : string) :
  truthy_type (Some (integer_keyword_target u))
  = Some (integer_keyword_target u).
Proof.
  unfold integer_keyword_target.
  repeat match goal with
         | |- context [if ?b then _ else _] => destruct b
         end; reflexivity.
Qed.

(** C4.  A declared type in which an integer keyword occurs is mapped to
    the integer type of the first keyword of [INTEGER_TYPES] that occurs in
    it, whatever the primary-key and unique flags are and whatever text,
    blob, numeric or temporal keyword it also contains; nothing is printed.
    Each keyword contains INT, so INT occurs as well, and when none of the
    four width keywords occurs the answer is INT UNSIGNED. *)
Theorem map_type_integer_family :
  forall (declared : string) (is_primary_key is_unique : bool)
         (key target : string),
    In (key, target) INTEGER_TYPES ->
    contains key (upper declared) = true ->
    map_sqlite_to_mysql_type declared is_primary_key is_unique
      = (Ok (integer_keyword_target (upper declared)), [])
    /\ (exists key', In (key', integer_keyword_target (upper declared))
                        INTEGER_TYPES
                     /\ contains key' (upper declared) = true)
    /\ contains "INT" (upper declared) = true
    /\ (contains "TINYINT" (upper declared) = false ->
        contains "SMALLINT" (upper declared) = false ->
        contains "MEDIUMINT" (upper declared) = false ->
        contains "BIGINT" (upper declared) = false ->
        map_sqlite_to_mysql_type declared is_primary_key is_unique
          = (Ok "INT UNSIGNED", [])).
Proof.
  intros declared is_pk is_uq key target Hin Hkey.
  assert (HINT : contains "INT" (upper declared) = true)
    by (eapply contains_trans; [eapply integer_key_has_INT|]; eassumption).
  assert (Hmap : map_sqlite_to_mysql_type declared is_pk is_uq
                 = (Ok (integer_keyword_target (upper declared)), [])).
  { unfold map_sqlite_to_mysql_type. cbn [first_mapper].
    rewrite (map_integer_type_target _ HINT).
    unfold bind at 1. cbn [ret].
    rewrite integer_keyword_target_nonempty. reflexivity. }
  repeat split.
  - exact Hmap.
  - now apply integer_keyword_target_in_table.
  - exact HINT.
  - intros E1 E2 E3 E4. rewrite Hmap. unfold integer_keyword_target.
    now rewrite E1, E2, E3, E4.
Qed.

Lemma map_type_integer_family_witness :
  In ("BIGINT", "BIGINT UNSIGNED") INTEGER_TYPES
  /\ contains "BIGINT" (upper "unsigned bigint") = true
  /\ map_sqlite_to_mysql_type "unsigned bigint" true false
     = (Ok "BIGINT UNSIGNED", []).
Proof.
  assert (Hin : In ("BIGINT", "BIGINT UNSIGNED") INTEGER_TYPES)
    by (simpl; tauto).
  assert (Hc : contains "BIGINT" (upper "unsigned bigint") = true)
    by reflexivity.
  split; [exact Hin | split; [exact Hc|]].
  exact (proj1 (map_type_integer_family "unsigned bigint" true false
                  "BIGINT" "BIGINT UNSIGNED" Hin Hc)).
Defined.

(** C3.  A declared type of the text family (a CHAR, CLOB or TEXT keyword
    and, the integer family being matched first, no INT) that is a primary
    key or unique is mapped to VARCHAR(191), never to LONGTEXT, whatever
    length the declaration carries, and the warning is printed; the text
    mapper itself answers so for every declaration with a text keyword.
    The index-safe maximum 191 is smaller than the general bound 255. *)
Theorem map_type_indexed_text :
  forall (declared : string) (is_primary_key is_unique : bool),
    contains_any TEXT_TYPES (upper declared) = true ->
    is_primary_key || is_unique = true ->
    map_text_type declared is_primary_key is_unique
      = (Ok (Some "VARCHAR(191)"), [indexed_text_warning declared])
    /\ (contains "INT" (upper declared) = false ->
        map_sqlite_to_mysql_type declared is_primary_key is_unique
          = (Ok "VARCHAR(191)", [indexed_text_warning declared]))
    /\ "VARCHAR(191)" <> "LONGTEXT"
    /\ "VARCHAR(191)" = "VARCHAR(" ++ str_Z INDEXED_VARCHAR_MAX ++ ")"
    /\ INDEXED_VARCHAR_MAX = 191
    /\ INDEXED_VARCHAR_MAX < DEFAULT_VARCHAR_MAX.
Proof.
  intros declared is_pk is_uq Htext Hflag.
  assert (Htxt : map_text_type declared is_pk is_uq
                 = (Ok (Some "VARCHAR(191)"), [indexed_text_warning declared])).
  { unfold map_text_type. rewrite Htext, Hflag. reflexivity. }
  repeat split; try reflexivity; try discriminate.
  - exact Htxt.
  - intros Hint. unfold map_sqlite_to_mysql_type. cbn [first_mapper].
    rewrite (map_integer_type_none _ Hint).
    unfold bind at 1. cbn [ret truthy_type].
    rewrite Htxt. reflexivity.
Qed.

Lemma map_type_indexed_text_witness :
  contains_any TEXT_TYPES (upper "varchar(64)") = true
  /\ false || true = true
  /\ map_sqlite_to_mysql_type "varchar(64)" false true
     = (Ok "VARCHAR(191)", [indexed_text_warning "varchar(64)"]).
Proof.
  assert (Ht : contains_any TEXT_TYPES (upper "varchar(64)") = true)
    by reflexivity.
  assert (Hf : false || true = true) by reflexivity.
  split; [exact Ht | split; [exact Hf|]].
  exact (proj1 (proj2 (map_type_indexed_text "varchar(64)" false true Ht Hf))
               eq_refl).
Defined.

(** The mapper of a declaration, with the tests of the five families
    written out. *)
Lemma map_type_by_family (raw : string) (is_pk is_uq : bool) :
  map_sqlite_to_mysql_type raw is_pk is_uq
  = if contains "INT" (upper raw)
    then (Ok (integer_keyword_target (upper raw)), [])
    else if contains_any TEXT_TYPES (upper raw)
    then if is_pk || is_uq
         then (Ok "VARCHAR(191)", [indexed_text_warning raw])
         else match search_paren_digits raw with
              | Some group1 =>
                  (Ok ("VARCHAR("
                       ++ str_Z (Z.min (int_of_digits group1) 255) ++ ")"),
                   [])
              | None => (Ok "LONGTEXT", [])
              end
    else if contains "BLOB" (upper raw)
    then if is_pk || is_uq
         then (Ok "VARBINARY(191)", [indexed_blob_warning raw])
         else (Ok "BLOB", [])
    else match map_numeric_type (upper raw) with
         | Some t => (Ok t, [])
         | None =>
             match map_datetime_type (upper raw) with
             | Some t => (Ok t, [])
             | None => (Ok "VARCHAR(255)", [unknown_type_warning raw])
             end
         end.
Proof.
  unfold map_sqlite_to_mysql_type. cbn [first_mapper].
  destruct (contains "INT" (upper raw)) eqn:HINT.
  - rewrite (map_integer_type_target _ HINT).
    unfold bind at 1. cbn [ret].
    now rewrite integer_keyword_target_nonempty.
  - rewrite (map_integer_type_none _ HINT).
    unfold bind at 1. cbn [ret truthy_type].
    unfold map_text_type.
    destruct (contains_any TEXT_TYPES (upper raw)); cbn [negb].
    + destruct (is_pk || is_uq); [reflexivity|].
      destruct (search_paren_digits raw); reflexivity.
    + unfold bind at 1. cbn [ret truthy_type]. unfold map_blob_type.
      destruct (contains "BLOB" (upper raw)); cbn [negb].
      * destruct (is_pk || is_uq); reflexivity.
      * unfold bind at 1. cbn [ret truthy_type].
        unfold bind at 1. cbn [ret].
        assert (N : forall t, map_numeric_type (upper raw) = Some t ->
                              truthy_type (Some t) = Some t).
        { unfold map_numeric_type, NUMERIC_TYPES. cbn [first_match].
          intros t.
          repeat match goal with
                 | |- context [if ?b then _ else _] => destruct b
                 end; intros E; inversion E; reflexivity. }
        destruct (map_numeric_type (upper raw)) as [t|] eqn:En.
        -- rewrite (N t eq_refl). reflexivity.
        -- cbn [truthy_type app]. unfold bind at 1. cbn [ret].
           unfold map_datetime_type.
           destruct (String.eqb (upper raw) "TIME"); [reflexivity|].
           destruct (contains "DATE" (upper raw)); reflexivity.
Qed.

End TypeMapper.

(** * The default translator *)

Section DefaultTranslator.

Lemma subst_chars_app (f : ascii -> string) (a b : string) :
  subst_chars f (a ++ b) = subst_chars f a ++ subst_chars f b.
Proof.
  induction a as [|x a IH]; cbn [append subst_chars]; [reflexivity|].
  now rewrite IH, append_assoc.
Qed.

(** [replace] with a one-character [old] works character by character. *)
Lemma replace_char (old : ascii) (new s : string) :
  replace (String old EmptyString) new s = subst_chars (char_for old new) s.
Proof.
  unfold replace. induction s as [|c s IH]; [reflexivity|].
  cbn [replace_from prefix subst_chars String.length Nat.sub].
  unfold char_for at 1.
  destruct (ascii_dec old c) as [->|ne].
  - rewrite Ascii.eqb_refl.
    replace (prefix EmptyString s) with true by (now destruct s).
    now rewrite IH.
  - replace (Ascii.eqb c old) with false
      by (symmetry; apply Ascii.eqb_neq; congruence).
    cbn [append]. now rewrite IH.
Qed.

Lemma contains_subst_chars (f : ascii -> string) (n h : string) :
  contains n h = true ->
  contains (subst_chars f n) (subst_chars f h) = true.
Proof.
  intros H. destruct (contains_split _ _ H) as (l & r & ->).
  rewrite !subst_chars_app. apply contains_app.
Qed.

Lemma default_str_subst (d : string) :
  default_str d = subst_chars (char_for dquote "'") (upper d).
Proof. apply replace_char. Qed.

Lemma recognized_timestamp_default_str (d : string) :
  recognized_timestamp_spelling d = true ->
  String.eqb (default_str d) "CURRENT_TIMESTAMP"
  || String.eqb (default_str d) "'CURRENT_TIMESTAMP'"
  || contains "DATETIME('NOW')" (default_str d) = true.
Proof.
  unfold recognized_timestamp_spelling. rewrite default_str_subst.
  intros H. apply orb_true_iff in H as [H|H];
    apply existsb_exists in H as (k & Hin & Hk).
  - apply String.eqb_eq in Hk. rewrite Hk.
    cbn in Hin.
    repeat (destruct Hin as [<-|Hin]; [reflexivity|]). contradiction.
  - apply (contains_subst_chars (char_for dquote "'")) in Hk.
    cbn in Hin.
    repeat (destruct Hin as [<-|Hin];
            [apply orb_true_iff; right; exact Hk|]).
    contradiction.
Qed.

(** C7.  A default written as one of the spellings of the current time
    stamp (the keyword in any letter case, bare or quoted, or a text that
    contains the call DATETIME('now')) gives the clause
    DEFAULT CURRENT_TIMESTAMP, the type is handed back as it came and
    nothing is printed. *)
Theorem build_default_sql_current_timestamp :
  forall (default_text mysql_type table_name col_name : string),
    recognized_timestamp_spelling default_text = true ->
    build_default_sql (Some default_text) mysql_type table_name col_name
      = (Ok (" DEFAULT CURRENT_TIMESTAMP", mysql_type), []).
Proof.
  intros d ty tbl col H. unfold build_default_sql.
  fold (default_str d).
  rewrite (recognized_timestamp_default_str _ H). reflexivity.
Qed.

Lemma build_default_sql_current_timestamp_witness :
  recognized_timestamp_spelling "(datetime('now'))" = true
  /\ build_default_sql (Some "(datetime('now'))") "DATETIME" "heartbeat" "time"
     = (Ok (" DEFAULT CURRENT_TIMESTAMP", "DATETIME"), []).
Proof.
  assert (H : recognized_timestamp_spelling "(datetime('now'))" = true)
    by reflexivity.
  split; [exact H|].
  exact (build_default_sql_current_timestamp
           "(datetime('now'))" "DATETIME" "heartbeat" "time" H).
Defined.

Lemma all_chars_app (P : ascii -> bool) (a b : string) :
  all_chars P (a ++ b) = all_chars P a && all_chars P b.
Proof.
  induction a as [|x a IH]; cbn [append all_chars]; [reflexivity|].
  now rewrite IH, andb_assoc.
Qed.

Lemma all_chars_impl (P P' : ascii -> bool) (s : string) :
  (forall c, P c = true -> P' c = true) ->
  all_chars P s = true -> all_chars P' s = true.
Proof.
  intros HP. induction s as [|c s IH]; cbn [all_chars]; [reflexivity|].
  intros H. apply andb_true_iff in H as [Hc Hs].
  now rewrite (HP _ Hc), (IH Hs).
Qed.

Lemma all_chars_lstrip (P p : ascii -> bool) (s : string) :
  (forall c, p c = true -> P c = true) ->
  all_chars P (lstrip_by p s) = true -> all_chars P s = true.
Proof.
  intros Hp. induction s as [|c s IH]; cbn [lstrip_by all_chars];
    [reflexivity|].
  destruct (p c) eqn:E; [|now cbn [all_chars]].
  intros H. now rewrite (Hp _ E), (IH H).
Qed.

Lemma all_chars_rstrip (P p : ascii -> bool) (s : string) :
  (forall c, p c = true -> P c = true) ->
  all_chars P (rstrip_by p s) = true -> all_chars P s = true.
Proof.
  intros Hp. induction s as [|c s IH]; cbn [rstrip_by all_chars];
    [reflexivity|].
  destruct (rstrip_by p s) as [|y r] eqn:E.
  - destruct (p c) eqn:Ec; cbn [all_chars]; intros H.
    + now rewrite (Hp _ Ec), IH.
    + apply andb_true_iff in H as [-> _]. now rewrite IH.
  - cbn [all_chars]. intros H.
    apply andb_true_iff in H as [-> H]. now rewrite IH.
Qed.

Lemma all_chars_strip (P p : ascii -> bool) (s : string) :
  (forall c, p c = true -> P c = true) ->
  all_chars P (strip_by p s) = true -> all_chars P s = true.
Proof.
  intros Hp H. apply (all_chars_lstrip P p); [assumption|].
  now apply (all_chars_rstrip P p).
Qed.

Lemma all_chars_drop_underscores (P : ascii -> bool) (s t : string)
    (prev : ascii) :
  P "_"%char = true ->
  drop_underscores prev s = Some t ->
  all_chars P t = true -> all_chars P s = true.
Proof.
  intros Hu. revert prev t.
  induction s as [|c s IH]; intros prev t; cbn [drop_underscores all_chars];
    [reflexivity|].
  destruct (Ascii.eqb c "_"%char) eqn:Ec.
  - apply Ascii.eqb_eq in Ec. subst c.
    destruct (is_digit prev); [|discriminate].
    intros H Ht. rewrite Hu. exact (IH _ _ H Ht).
  - destruct (Ascii.eqb prev "_"%char && negb (is_digit c)); [discriminate|].
    destruct (drop_underscores c s) as [t'|] eqn:E; [|discriminate].
    cbn [option_map]. intros [= <-]. cbn [all_chars]. intros H.
    apply andb_true_iff in H as [-> H]. exact (IH _ _ E H).
Qed.

Lemma all_chars_split_sign (P : ascii -> bool) (t body : string)
    (negative : bool) :
  P "-"%char = true -> P "+"%char = true ->
  split_sign t = (negative, body) ->
  all_chars P body = true -> all_chars P t = true.
Proof.
  intros Hm Hp. unfold split_sign. destruct t as [|c t].
  - now intros [= _ <-].
  - destruct (Ascii.eqb c "-"%char) eqn:E1.
    { apply Ascii.eqb_eq in E1. subst c. intros [= _ <-] H.
      cbn [all_chars]. now rewrite Hm. }
    destruct (Ascii.eqb c "+"%char) eqn:E2.
    { apply Ascii.eqb_eq in E2. subst c. intros [= _ <-] H.
      cbn [all_chars]. now rewrite Hp. }
    now intros [= _ <-].
Qed.

Lemma span_digits_split (s d r : string) :
  span_digits s = (d, r) -> s = d ++ r /\ all_chars is_digit d = true.
Proof.
  revert d r. induction s as [|c s IH]; intros d r; cbn [span_digits].
  - now intros [= <- <-].
  - destruct (is_digit c) eqn:E.
    + destruct (span_digits s) as [d' r'] eqn:Es. intros [= <- <-].
      destruct (IH _ _ eq_refl) as [-> Hd]. cbn [append all_chars].
      now rewrite E, Hd.
    + now intros [= <- <-].
Qed.

Lemma mem_char_upper (body key : string) :
  upper body = key ->
  all_chars (fun c => mem_char (upper_char c) key) body = true.
Proof.
  revert key. induction body as [|c body IH]; intros key;
    cbn [upper all_chars]; [reflexivity|].
  intros <-. cbn [mem_char]. rewrite Ascii.eqb_refl. cbn [orb andb].
  eapply all_chars_impl; [|exact (IH _ eq_refl)].
  cbn beta. intros x ->. apply orb_true_r.
Qed.

Lemma float_char_digit (c : ascii) : is_digit c = true -> float_char c = true.
Proof.
  unfold float_char. intros ->. now rewrite orb_true_r.
Qed.

Lemma float_char_letter (c : ascii) :
  mem_char (upper_char c) "INFINITY" || mem_char (upper_char c) "NAN" = true ->
  float_char c = true.
Proof.
  destruct c as [[] [] [] [] [] [] [] []]; vm_compute; intros H;
    first [exact H | reflexivity].
Qed.

Lemma float_char_c_space (c : ascii) :
  is_c_space c = true -> float_char c = true.
Proof. unfold float_char. now intros ->. Qed.

Lemma parse_decimal_chars (negative : bool) (body : string) (x : pyfloat) :
  parse_decimal negative body = Some x ->
  all_chars float_char body = true.
Proof.
  unfold parse_decimal.
  destruct (span_digits body) as [ip r1] eqn:E1.
  destruct (span_digits_split _ _ _ E1) as [-> Hip].
  assert (Hdig : forall s, all_chars is_digit s = true ->
                           all_chars float_char s = true)
    by (intros s; apply all_chars_impl, float_char_digit).
  rewrite all_chars_app, (Hdig _ Hip). cbn [andb].
  assert (Hfrac : forall fp r2 : string,
    (let (frac_part, r2') :=
       match r1 with
       | String c r => if Ascii.eqb c "."%char then span_digits r
                       else (EmptyString, r1)
       | EmptyString => (EmptyString, r1)
       end in (frac_part, r2')) = (fp, r2) ->
    all_chars float_char r2 = true -> all_chars float_char r1 = true).
  { intros fp r2. destruct r1 as [|c r].
    - now intros [= <- <-].
    - destruct (Ascii.eqb c "."%char) eqn:Ec.
      + apply Ascii.eqb_eq in Ec. subst c.
        destruct (span_digits r) as [fp' r2'] eqn:E2. intros [= <- <-].
        destruct (span_digits_split _ _ _ E2) as [-> Hfp].
        cbn [all_chars]. rewrite !all_chars_app, (Hdig _ Hfp).
        now intros ->.
      + now intros [= <- <-]. }
  destruct (match r1 with
            | String c r => if Ascii.eqb c "."%char then span_digits r
                            else (EmptyString, r1)
            | EmptyString => (EmptyString, r1)
            end) as [fp r2] eqn:E2.
  specialize (Hfrac fp r2 eq_refl).
  destruct (ip ++ fp)%string; [discriminate|].
  destruct r2 as [|c r3]; [intros _; now apply Hfrac|].
  destruct (Ascii.eqb c "e"%char || Ascii.eqb c "E"%char) eqn:Ec;
    [|discriminate].
  destruct (split_sign r3) as [exp_negative r4] eqn:E3.
  destruct (span_digits r4) as [ed r5] eqn:E4.
  destruct ed as [|d ds]; [discriminate|].
  destruct r5; [|discriminate]. intros _.
  destruct (span_digits_split _ _ _ E4) as [E5 Hed].
  rewrite append_nil_r in E5. subst r4.
  apply Hfrac. cbn [all_chars].
  assert (Hc : float_char c = true).
  { apply orb_true_iff in Ec as [Ec|Ec]; apply Ascii.eqb_eq in Ec;
      subst c; reflexivity. }
  rewrite Hc. cbn [andb].
  eapply all_chars_split_sign; [reflexivity | reflexivity | exact E3|].
  now apply Hdig.
Qed.

Lemma float_of_string_chars (s : string) (x : pyfloat) :
  float_of_string s = Some x -> all_chars float_char s = true.
Proof.
  unfold float_of_string.
  destruct (drop_underscores zero (strip_by is_c_space s)) as [t|] eqn:Et;
    [|discriminate].
  destruct (split_sign t) as [negative body] eqn:Eb.
  intros H.
  apply (all_chars_strip float_char is_c_space);
    [exact float_char_c_space|].
  eapply all_chars_drop_underscores; [reflexivity | exact Et|].
  eapply all_chars_split_sign; [reflexivity | reflexivity | exact Eb|].
  destruct (String.eqb (upper body) "INF" || String.eqb (upper body) "INFINITY")
    eqn:Einf.
  { apply orb_true_iff in Einf as [E|E]; apply String.eqb_eq in E;
      apply mem_char_upper in E;
      (eapply all_chars_impl; [|exact E]); cbn beta; intros c Hc;
      apply float_char_letter; revert Hc;
      destruct c as [[] [] [] [] [] [] [] []]; vm_compute; intros Hc;
      first [exact Hc | reflexivity]. }
  destruct (String.eqb (upper body) "NAN") eqn:Enan.
  { apply String.eqb_eq in Enan. apply mem_char_upper in Enan.
    eapply all_chars_impl; [|exact Enan]. cbn beta. intros c Hc.
    apply float_char_letter. rewrite Hc. apply orb_true_r. }
  exact (parse_decimal_chars _ _ _ H).
Qed.

End DefaultTranslator.

Section DefaultBranches.

Lemma all_chars_subst_upper (P Q : ascii -> bool) (f : ascii -> string)
    (s : string) :
  (forall c, P c = true -> all_chars Q (f (upper_char c)) = true) ->
  all_chars P s = true ->
  all_chars Q (subst_chars f (upper s)) = true.
Proof.
  intros HPQ. induction s as [|c s IH];
    cbn [upper subst_chars all_chars]; [reflexivity|].
  intros H. apply andb_true_iff in H as [Hc Hs].
  now rewrite all_chars_app, (HPQ _ Hc), (IH Hs).
Qed.

Lemma all_chars_contains (Q : ascii -> bool) (n h : string) :
  all_chars Q h = true -> contains n h = true -> all_chars Q n = true.
Proof.
  intros Hh Hc. destruct (contains_split _ _ Hc) as (a & b & ->).
  rewrite !all_chars_app in Hh.
  apply andb_true_iff in Hh as [_ Hh].
  now apply andb_true_iff in Hh as [Hh _].
Qed.

Lemma float_text_not_CDU (d : string) (x : pyfloat) :
  float_of_string d = Some x -> all_chars not_CDU (default_str d) = true.
Proof.
  intros H. rewrite default_str_subst.
  apply (all_chars_subst_upper float_char);
    [|exact (float_of_string_chars _ _ H)].
  intros c. destruct c as [[] [] [] [] [] [] [] []]; vm_compute; intros Hc;
    first [reflexivity | exact Hc].
Qed.

Lemma not_CDU_excludes (h key : string) :
  all_chars not_CDU h = true -> all_chars not_CDU key = false ->
  String.eqb h key = false /\ contains key h = false.
Proof.
  intros Hh Hk. split.
  - destruct (String.eqb h key) eqn:E; [|reflexivity].
    apply String.eqb_eq in E. congruence.
  - destruct (contains key h) eqn:E; [|reflexivity].
    rewrite (all_chars_contains _ _ _ Hh E) in Hk. discriminate.
Qed.

(** A text that [float] accepts is no spelling of the time stamp and no
    null literal, so the numeric branch decides on it. *)
Lemma float_text_not_keyword (d : string) (x : pyfloat) :
  float_of_string d = Some x ->
  String.eqb (default_str d) "CURRENT_TIMESTAMP"
  || String.eqb (default_str d) "'CURRENT_TIMESTAMP'"
  || contains "DATETIME('NOW')" (default_str d) = false
  /\ String.eqb (default_str d) "NULL"
     || String.eqb (default_str d) "'NULL'" = false.
Proof.
  intros H. pose proof (float_text_not_CDU _ _ H) as Hq.
  destruct (not_CDU_excludes _ "CURRENT_TIMESTAMP" Hq eq_refl) as [-> _].
  destruct (not_CDU_excludes _ "'CURRENT_TIMESTAMP'" Hq eq_refl) as [-> _].
  destruct (not_CDU_excludes _ "DATETIME('NOW')" Hq eq_refl) as [_ ->].
  destruct (not_CDU_excludes _ "NULL" Hq eq_refl) as [-> _].
  destruct (not_CDU_excludes _ "'NULL'" Hq eq_refl) as [-> _].
  split; reflexivity.
Qed.

(** C5.  A default that [float] accepts gives the clause DEFAULT followed
    by the text of the default, unchanged.  When TINYINT occurs in the type
    and the number is below -128 or above 127, TINYINT becomes SMALLINT and
    the warning is printed; otherwise the type stays and nothing is
    printed.  For the type TINYINT and the default 200 this gives SMALLINT
    and DEFAULT 200. *)
Theorem build_default_sql_numeric :
  forall (default_text mysql_type table_name col_name : string) (x : pyfloat),
    float_of_string default_text = Some x ->
    build_default_sql (Some default_text) mysql_type table_name col_name
      = (if contains "TINYINT" mysql_type
            && (ltb_Z x (-128) || gtb_Z x 127)
         then (Ok (" DEFAULT " ++ default_text,
                   replace "TINYINT" "SMALLINT" mysql_type),
               [tinyint_promotion_warning default_text table_name col_name])
         else (Ok (" DEFAULT " ++ default_text, mysql_type), []))
    /\ (mysql_type = "TINYINT" ->
        ltb_Z x (-128) || gtb_Z x 127 = true ->
        build_default_sql (Some default_text) mysql_type table_name col_name
          = (Ok (" DEFAULT " ++ default_text, "SMALLINT"),
             [tinyint_promotion_warning default_text table_name col_name]))
    /\ build_default_sql (Some "200") "TINYINT" table_name col_name
         = (Ok (" DEFAULT 200", "SMALLINT"),
            [tinyint_promotion_warning "200" table_name col_name]).
Proof.
  intros d ty tbl col x Hx.
  assert (Hgen : forall d' ty' x', float_of_string d' = Some x' ->
    build_default_sql (Some d') ty' tbl col
      = (if contains "TINYINT" ty' && (ltb_Z x' (-128) || gtb_Z x' 127)
         then (Ok (" DEFAULT " ++ d', replace "TINYINT" "SMALLINT" ty'),
               [tinyint_promotion_warning d' tbl col])
         else (Ok (" DEFAULT " ++ d', ty'), []))).
  { intros d' ty' x' H'. unfold build_default_sql. fold (default_str d').
    destruct (float_text_not_keyword _ _ H') as [-> ->].
    unfold py_float. rewrite H'.
    cbv beta iota delta [bind ret try_except print app].
    destruct (contains "TINYINT" ty');
      [destruct (ltb_Z x' (-128) || gtb_Z x' 127)|]; reflexivity. }
  split; [exact (Hgen _ _ _ Hx)|]. split.
  - intros -> Hout. rewrite (Hgen _ _ _ Hx), Hout. reflexivity.
  - rewrite (Hgen "200" "TINYINT" (FFinite false 7036874417766400 (-45)))
      by (vm_compute; reflexivity).
    reflexivity.
Qed.

Lemma build_default_sql_numeric_witness :
  float_of_string "-129" = Some (FFinite true 4538783999459328 (-45))
  /\ build_default_sql (Some "-129") "TINYINT" "monitor" "weight"
     = (Ok (" DEFAULT -129", "SMALLINT"),
        [tinyint_promotion_warning "-129" "monitor" "weight"]).
Proof.
  assert (H : float_of_string "-129"
              = Some (FFinite true 4538783999459328 (-45)))
    by (vm_compute; reflexivity).
  split; [exact H|].
  exact (proj1 (proj2 (build_default_sql_numeric
                         "-129" "TINYINT" "monitor" "weight" _ H))
               eq_refl eq_refl).
Defined.

End DefaultBranches.

Section Spellings.

Lemma unquote_one (c : ascii) :
  unquote c = String (if Ascii.eqb c dquote then squote else c) EmptyString.
Proof. unfold unquote, char_for. now destruct (Ascii.eqb c dquote). Qed.

Lemma subst_unquote_sources (u key : string) :
  subst_chars unquote u = key -> In u (unquoted_sources key).
Proof.
  revert key. induction u as [|c u IH]; intros key; cbn [subst_chars].
  - intros <-. now left.
  - rewrite unquote_one. cbn [append]. intros <-. cbn [unquoted_sources].
    specialize (IH _ eq_refl).
    destruct (Ascii.eqb c dquote) eqn:Ec.
    + apply Ascii.eqb_eq in Ec. subst c. rewrite Ascii.eqb_refl.
      apply in_or_app. right. now apply in_map.
    + destruct (Ascii.eqb c squote) eqn:Es.
      * apply Ascii.eqb_eq in Es. subst c.
        apply in_or_app. left. now apply in_map.
      * now apply in_map.
Qed.

Lemma subst_unquote_split (u a b : string) :
  subst_chars unquote u = a ++ b ->
  exists u1 u2, u = u1 ++ u2 /\ subst_chars unquote u1 = a
                /\ subst_chars unquote u2 = b.
Proof.
  revert u. induction a as [|x a IH]; intros u H.
  - now exists EmptyString, u.
  - destruct u as [|c u]; [discriminate|].
    cbn [subst_chars] in H. rewrite unquote_one in H. cbn [append] in H.
    injection H as Hx Hu.
    destruct (IH _ Hu) as (u1 & u2 & -> & H1 & H2).
    exists (String c u1), u2. repeat split; [|exact H2].
    cbn [subst_chars]. rewrite unquote_one. cbn [append]. now rewrite Hx, H1.
Qed.

Lemma existsb_eqb_In (u : string) (l : list string) :
  In u l -> existsb (String.eqb u) l = true.
Proof.
  intros H. apply existsb_exists. exists u. split; [exact H|].
  apply String.eqb_refl.
Qed.

Lemma default_str_eq_sources (d key : string) :
  String.eqb (default_str d) key = true ->
  In (upper d) (unquoted_sources key).
Proof.
  intros H. apply String.eqb_eq in H. rewrite default_str_subst in H.
  exact (subst_unquote_sources _ _ H).
Qed.

Lemma default_str_contains_sources (d key : string) :
  contains key (default_str d) = true ->
  exists k, In k (unquoted_sources key) /\ contains k (upper d) = true.
Proof.
  intros H. rewrite default_str_subst in H.
  destruct (contains_split _ _ H) as (a & b & E).
  destruct (subst_unquote_split _ _ _ E) as (u1 & u2 & Eu & _ & E2).
  destruct (subst_unquote_split _ _ _ E2) as (u3 & u4 & Eu2 & E3 & _).
  exists u3. split; [exact (subst_unquote_sources _ _ E3)|].
  rewrite Eu, Eu2. apply contains_app.
Qed.

(** The spellings are exactly what the test of [build_default_sql]
    accepts. *)
Lemma recognized_timestamp_exact (d : string) :
  recognized_timestamp_spelling d
  = (String.eqb (default_str d) "CURRENT_TIMESTAMP"
     || String.eqb (default_str d) "'CURRENT_TIMESTAMP'"
     || contains "DATETIME('NOW')" (default_str d)).
Proof.
  apply eq_true_iff_eq. split; [apply recognized_timestamp_default_str|].
  intros H. unfold recognized_timestamp_spelling.
  apply orb_true_iff. apply orb_true_iff in H as [H|H].
  - left. apply existsb_eqb_In.
    apply orb_true_iff in H as [H|H]; apply default_str_eq_sources in H;
      cbn in H; cbn; tauto.
  - right. destruct (default_str_contains_sources _ _ H) as (k & Hk & Hc).
    apply existsb_exists. exists k. split; [|exact Hc].
    cbn in Hk; cbn; tauto.
Qed.

Lemma recognized_null_exact (d : string) :
  recognized_null d
  = (String.eqb (default_str d) "NULL"
     || String.eqb (default_str d) "'NULL'").
Proof.
  apply eq_true_iff_eq. unfold recognized_null. split; intros H.
  - apply existsb_exists in H as (k & Hin & Hk).
    apply String.eqb_eq in Hk. rewrite default_str_subst, Hk.
    cbn in Hin.
    repeat (destruct Hin as [<-|Hin]; [reflexivity|]). contradiction.
  - apply existsb_eqb_In.
    apply orb_true_iff in H as [H|H]; apply default_str_eq_sources in H;
      cbn in H; cbn; tauto.
Qed.

End Spellings.

Section StringLiteralDefault.

Lemma lstrip_split (p : ascii -> bool) (s : string) :
  exists l, s = l ++ lstrip_by p s /\ all_chars p l = true.
Proof.
  induction s as [|c s (l & E & Hl)]; cbn [lstrip_by].
  - now exists EmptyString.
  - destruct (p c) eqn:Ec.
    + exists (String c l). cbn [append all_chars]. now rewrite Ec, Hl, <- E.
    + now exists EmptyString.
Qed.

Lemma lstrip_head (p : ascii -> bool) (s t : string) (c : ascii) :
  lstrip_by p s = String c t -> p c = false.
Proof.
  induction s as [|x s IH]; cbn [lstrip_by]; [discriminate|].
  destruct (p x) eqn:Ex; [exact IH|]. now intros [= <- _].
Qed.

Lemma rstrip_split (p : ascii -> bool) (s : string) :
  exists r, s = rstrip_by p s ++ r /\ all_chars p r = true.
Proof.
  induction s as [|c s (r & E & Hr)]; cbn [rstrip_by].
  - now exists EmptyString.
  - destruct (rstrip_by p s) as [|y t] eqn:Et.
    + cbn [append] in E. subst r. destruct (p c) eqn:Ec.
      * exists (String c s). cbn [append all_chars]. now rewrite Ec, Hr.
      * now exists s.
    + exists r. split; [|exact Hr]. cbn [append] in *. congruence.
Qed.

Lemma rstrip_last (p : ascii -> bool) (s i : string) (c : ascii) :
  rstrip_by p s = i ++ String c EmptyString -> p c = false.
Proof.
  revert i. induction s as [|x s IH]; intros i; cbn [rstrip_by].
  - destruct i; discriminate.
  - destruct (rstrip_by p s) as [|y t] eqn:Et.
    + destruct (p x) eqn:Ex; [destruct i; discriminate|].
      destruct i as [|z [|? ?]]; cbn [append]; intros [= E]; congruence.
    + destruct i as [|z i]; cbn [append]; [discriminate|].
      intros [= _ E]. exact (IH _ E).
Qed.

Lemma rstrip_head (p : ascii -> bool) (s t : string) (c : ascii) :
  rstrip_by p s = String c t -> exists s', s = String c s'.
Proof.
  destruct s as [|x s]; cbn [rstrip_by]; [discriminate|].
  destruct (rstrip_by p s); [destruct (p x)|];
    intros [= <- _]; now exists s.
Qed.

(** What [strip] with a set of characters leaves: the text between a run
    of such characters at each end, itself not starting and not ending
    with one. *)
Lemma strip_by_spec (p : ascii -> bool) (s : string) :
  exists l r,
    s = l ++ strip_by p s ++ r
    /\ all_chars p l = true /\ all_chars p r = true
    /\ (forall c t, strip_by p s = String c t -> p c = false)
    /\ (forall i c, strip_by p s = i ++ String c EmptyString -> p c = false).
Proof.
  unfold strip_by.
  destruct (lstrip_split p s) as (l & El & Hl).
  destruct (rstrip_split p (lstrip_by p s)) as (r & Er & Hr).
  exists l, r. repeat split; try assumption.
  - now rewrite <- Er.
  - intros c t E. destruct (rstrip_head _ _ _ _ E) as [s' E'].
    exact (lstrip_head _ _ _ _ E').
  - intros i c. apply rstrip_last.
Qed.

Lemma build_default_sql_total (default_value : option string)
    (mysql_type table_name col_name : string) :
  exists clause_and_type lines,
    build_default_sql default_value mysql_type table_name col_name
    = (Ok clause_and_type, lines).
Proof.
  unfold build_default_sql. destruct default_value as [d|]; [|now eexists _, _].
  destruct (_ || _ || _); [now eexists _, _|].
  destruct (_ || _); [now eexists _, _|].
  unfold py_float. destruct (float_of_string d) as [x|].
  - cbv beta iota delta [bind ret try_except print app].
    destruct (contains "TINYINT" mysql_type);
      [destruct (ltb_Z x (-128) || gtb_Z x 127)|]; now eexists _, _.
  - now eexists _, _.
Qed.

(** What the code does with a default that is rendered as a string
    literal.  [build_default_sql] returns for every input.  A default that
    is present, is no spelling of the current time stamp, is no null
    literal and is not accepted by [float] loses every quote character,
    single or double, at either end; each single quote left is doubled,
    the result is put between single quotes after DEFAULT, the type is
    handed back as it came and nothing is printed. *)
Lemma build_default_sql_string_literal :
  forall (default_value : option string)
         (mysql_type table_name col_name : string),
    (exists clause_and_type lines,
       build_default_sql default_value mysql_type table_name col_name
       = (Ok clause_and_type, lines))
    /\ forall default_text : string,
         default_value = Some default_text ->
         recognized_timestamp_spelling default_text = false ->
         recognized_null default_text = false ->
         float_of_string default_text = None ->
         let cleaned :=
           strip_chars (String squote (String dquote EmptyString)) default_text in
         build_default_sql default_value mysql_type table_name col_name
           = (Ok (" DEFAULT '" ++ double_single_quotes cleaned ++ "'",
                  mysql_type), [])
         /\ exists l r,
              default_text = l ++ cleaned ++ r
              /\ all_chars is_quote l = true /\ all_chars is_quote r = true
              /\ (forall c t, cleaned = String c t -> is_quote c = false)
              /\ (forall i c, cleaned = i ++ String c EmptyString ->
                              is_quote c = false).
Proof.
  intros dv ty tbl col. split; [apply build_default_sql_total|].
  intros d -> Hts Hnull Hfloat cleaned. split.
  - unfold build_default_sql. fold (default_str d).
    rewrite <- recognized_timestamp_exact, Hts.
    rewrite <- recognized_null_exact, Hnull.
    unfold py_float. rewrite Hfloat.
    cbv beta iota delta [bind ret try_except raise is_TypeError_or_ValueError
                         app].
    unfold double_single_quotes, cleaned.
    now rewrite <- replace_char.
  - exact (strip_by_spec _ d).
Qed.

(** C6 on a default whose value has quotes of its own.  For a column
    declared with the value 'x', quotes included, written between double
    quotes, SQLite hands over the five characters of [quoted_x_default].
    It is a string literal for [build_default_sql] (no time stamp, no
    null, no number).  With one layer of surrounding quotes taken off and
    the single quotes left doubled, the clause keeps the value:
    DEFAULT '''x'''.  The code takes off the quotes of the value as well
    and returns DEFAULT 'x', which is another value. *)
Theorem quotes_of_the_value_are_stripped :
  recognized_timestamp_spelling quoted_x_default = false
  /\ recognized_null quoted_x_default = false
  /\ float_of_string quoted_x_default = None
  /\ spec_strip_one_layer quoted_x_default = "'x'"
  /\ " DEFAULT '"
       ++ double_single_quotes (spec_strip_one_layer quoted_x_default) ++ "'"
     = " DEFAULT '''x'''"
  /\ (forall mysql_type table_name col_name : string,
        build_default_sql (Some quoted_x_default) mysql_type table_name
                          col_name
        = (Ok (" DEFAULT 'x'", mysql_type), []))
  /\ " DEFAULT 'x'" <> " DEFAULT '''x'''".
Proof.
  repeat split; try reflexivity. discriminate.
Qed.

End StringLiteralDefault.

Section ColumnDefinitions.

Lemma rstrip_app_keep (p : ascii -> bool) (x y : string) (c : ascii) :
  p c = false ->
  rstrip_by p (x ++ String c y) = x ++ String c (rstrip_by p y).
Proof.
  intros Hc. induction x as [|z x IH]; cbn [append rstrip_by].
  - rewrite Hc. now destruct (rstrip_by p y).
  - rewrite IH. now destruct x.
Qed.

(** ** The queries to the source *)

Lemma sqlite_execute_answered (db : sqlite_db) (query : string) :
  query_error db query = None -> sqlite_execute db query = (Ok tt, []).
Proof. intros H. unfold sqlite_execute. now rewrite H. Qed.

Lemma sqlite_execute_refused (db : sqlite_db) (query msg : string) :
  query_error db query = Some msg ->
  sqlite_execute db query = (Raise (SQLiteError msg), []).
Proof. intros H. unfold sqlite_execute. now rewrite H. Qed.

Lemma index_list_query_sent (db : sqlite_db) (table_name : string) :
  (if is_reserved table_name
   then sqlite_execute db ("PRAGMA index_list(`" ++ table_name ++ "`);")
   else sqlite_execute db ("PRAGMA index_list('" ++ table_name ++ "');"))
  = sqlite_execute db (index_list_query table_name).
Proof. unfold index_list_query. now destruct (is_reserved table_name). Qed.

Lemma table_info_query_sent (db : sqlite_db) (table_name : string) :
  (if is_reserved table_name
   then sqlite_execute db ("PRAGMA table_info(`" ++ table_name ++ "`);")
   else sqlite_execute db ("PRAGMA table_info(" ++ table_name ++ ");"))
  = sqlite_execute db (table_info_query table_name).
Proof. unfold table_info_query. now destruct (is_reserved table_name). Qed.

Lemma select_query_sent (db : sqlite_db) (table_name : string) :
  (if is_reserved table_name
   then sqlite_execute db ("SELECT * FROM `" ++ table_name ++ "`")
   else sqlite_execute db ("SELECT * FROM " ++ table_name))
  = sqlite_execute db (select_query table_name).
Proof. unfold select_query. now destruct (is_reserved table_name). Qed.

(** The loop over the indexes, when the source answers for each unique
    one. *)
Lemma unique_index_loop_answered (db : sqlite_db) (indexes : list index_row)
    (col_name : string) :
  (forall idx, In idx indexes -> idx_unique idx = 1 ->
               query_error db (index_info_query (idx_name idx)) = None) ->
  unique_index_loop db indexes col_name
  = (Ok (existsb (fun idx =>
                    (idx_unique idx =? 1)
                    && single_column_index_on
                         (index_info db (idx_name idx)) col_name)
                 indexes), []).
Proof.
  induction indexes as [|idx rest IH]; intros H; [reflexivity|].
  cbn [unique_index_loop existsb].
  assert (Hrest : forall i, In i rest -> idx_unique i = 1 ->
                    query_error db (index_info_query (idx_name i)) = None)
    by (intros i Hi; apply H; now right).
  destruct (Z.eqb_spec (idx_unique idx) 1) as [Hu|Hu]; cbn [andb orb].
  - pose proof (sqlite_execute_answered db _ (H idx (or_introl eq_refl) Hu))
      as Hq.
    unfold index_info_query in Hq. rewrite Hq.
    cbv beta iota delta [bind].
    destruct (single_column_index_on _ _); cbn [orb app].
    + reflexivity.
    + rewrite (IH Hrest). reflexivity.
  - exact (IH Hrest).
Qed.

(** One call of [process_columns] on a source that answers the index
    queries, from what its three helpers return. *)
Lemma process_columns_run (db : sqlite_db) (col : column)
    (table_name : string) (col_defs pk_col_names primary_keys : list string)
    (mysql_type auto_increment not_null_sql default_sql mysql_type' : string)
    (type_lines constraint_lines default_lines : list string) :
  answers_index_queries db table_name ->
  map_sqlite_to_mysql_type (ctype col) (in_names (name col) pk_col_names)
    (is_unique_col db table_name (name col)) = (Ok mysql_type, type_lines) ->
  set_ai_nns (pk col) mysql_type (notnull col) (name col) table_name
    = (Ok (auto_increment, not_null_sql), constraint_lines) ->
  build_default_sql (dflt_value col) mysql_type table_name (name col)
    = (Ok (default_sql, mysql_type'), default_lines) ->
  process_columns db col table_name col_defs pk_col_names primary_keys
  = (Ok ((col_defs
          ++ strip ("`" ++ name col ++ "` " ++ mysql_type' ++ not_null_sql
                    ++ default_sql ++ auto_increment)
             :: (if is_unique_col db table_name (name col)
                    && negb (in_names (name col) pk_col_names)
                 then [unique_entry (name col)] else []))%list,
         (primary_keys
          ++ (if pk col =? 1 then [backticked (name col)] else []))%list),
     (type_lines ++ constraint_lines ++ default_lines)%list).
Proof.
  intros [Hlist Hinfo] Hmap Hset Hdef. unfold process_columns.
  rewrite index_list_query_sent, (sqlite_execute_answered db _ Hlist).
  cbv beta iota delta [bind].
  rewrite (unique_index_loop_answered db _ (name col) Hinfo).
  fold (is_unique_col db table_name (name col)).
  cbv beta iota. rewrite Hmap. cbv beta iota. rewrite Hset.
  cbv beta iota. rewrite Hdef. cbv beta iota delta [ret].
  unfold append_item, unique_entry, backticked.
  destruct (pk col =? 1);
    destruct (is_unique_col db table_name (name col)
              && negb (in_names (name col) pk_col_names));
    cbn [app]; rewrite <- ?app_assoc, ?app_nil_r; reflexivity.
Qed.

(** ** The helpers on a key column *)

(** For a key column the mapper never reads a declared length. *)
Lemma map_type_of_key_column (raw : string) (is_uq : bool) :
  exists mysql_type lines,
    map_sqlite_to_mysql_type raw true is_uq = (Ok mysql_type, lines)
    /\ (lines = [] \/ lines = [indexed_text_warning raw]
        \/ lines = [indexed_blob_warning raw]
        \/ lines = [unknown_type_warning raw]).
Proof.
  rewrite map_type_by_family. cbn [orb].
  repeat match goal with
         | |- context [if ?b then _ else _] => destruct b
         | |- context [match ?o with Some _ => _ | None => _ end] =>
             destruct o
         end; eexists _, _; (split; [reflexivity|]); tauto.
Qed.

Lemma build_default_sql_lines (default_value : option string)
    (mysql_type table_name col_name : string) :
  exists default_sql mysql_type' lines,
    build_default_sql default_value mysql_type table_name col_name
    = (Ok (default_sql, mysql_type'), lines)
    /\ (lines = []
        \/ exists default_text,
             lines = [tinyint_promotion_warning default_text table_name
                        col_name]).
Proof.
  unfold build_default_sql.
  destruct default_value as [d|]; [|eexists _, _, _; split; [reflexivity|now left]].
  destruct (_ || _ || _); [eexists _, _, _; split; [reflexivity|now left]|].
  destruct (_ || _); [eexists _, _, _; split; [reflexivity|now left]|].
  unfold py_float. destruct (float_of_string d) as [x|].
  - cbv beta iota delta [bind ret try_except print app].
    destruct (contains "TINYINT" mysql_type);
      [destruct (ltb_Z x (-128) || gtb_Z x 127)|];
      eexists _, _, _; (split; [reflexivity|]);
      first [now left | right; exists d; reflexivity].
  - eexists _, _, _; split; [reflexivity|now left].
Qed.

(** The warning about a nullable key is none of the other warnings. *)
Lemma nullable_pk_warning_apart (col_name table_name : string)
    (lines lines' : list string) (raw : string) :
  (lines = [] \/ lines = [indexed_text_warning raw]
   \/ lines = [indexed_blob_warning raw]
   \/ lines = [unknown_type_warning raw]) ->
  (lines' = []
   \/ exists default_text col_name' table_name',
        lines' = [tinyint_promotion_warning default_text table_name'
                    col_name']) ->
  ~ In (nullable_pk_warning col_name table_name) (lines ++ lines')%list.
Proof.
  intros H H' Hin. apply in_app_or in Hin as [Hin|Hin].
  - destruct H as [->|[->|[->| ->]]]; [exact Hin| | |];
      destruct Hin as [E|[]]; discriminate E.
  - destruct H' as [->|(d & c & t & ->)]; [exact Hin|].
    destruct Hin as [E|[]]. discriminate E.
Qed.

Lemma INT_in_BIGINT (t : string) :
  contains "BIGINT" t = true -> contains "INT" t = true.
Proof. apply contains_trans. reflexivity. Qed.

Lemma set_ai_nns_key_column (mysql_type col_name table_name : string)
    (not_null : Z) :
  set_ai_nns 1 mysql_type not_null col_name table_name
  = if contains "INT" mysql_type
    then (Ok (" AUTO_INCREMENT", " NOT NULL"),
          if not_null =? 0 then [nullable_pk_warning col_name table_name]
          else [])
    else (Ok (EmptyString,
              if not_null =? 1 then " NOT NULL" else EmptyString), []).
Proof.
  unfold set_ai_nns.
  assert (B : contains "INT" mysql_type || contains "BIGINT" mysql_type
              = contains "INT" mysql_type).
  { destruct (contains "INT" mysql_type) eqn:E; [reflexivity|].
    destruct (contains "BIGINT" mysql_type) eqn:E'; [|reflexivity].
    now rewrite (INT_in_BIGINT _ E') in E. }
  rewrite B. cbn [Z.eqb Pos.eqb andb].
  destruct (contains "INT" mysql_type).
  - now destruct (not_null =? 0).
  - now destruct (not_null =? 1).
Qed.

(** The one member of a key that is not composite has the ordinal 1, and
    its name is among the names that [migrate_table] collects. *)
Lemma single_key_member (columns : list column) (col : column) :
  ordinals_numbered columns ->
  List.length (key_members columns) = 1%nat ->
  In col columns -> pk col <> 0 ->
  pk col = 1
  /\ in_names (name col)
              (map name (filter (fun c => pk c =? 1) columns)) = true.
Proof.
  intros Hnum Hone Hin Hpk.
  assert (H1 : pk col = 1).
  { specialize (Hnum col Hin). rewrite Hone in Hnum. cbn in Hnum. lia. }
  split; [exact H1|].
  unfold in_names. apply existsb_exists. exists (name col).
  split; [|apply String.eqb_refl].
  apply in_map. apply filter_In. split; [exact Hin|].
  rewrite H1. reflexivity.
Qed.

(** C1, as the code has it, for a table whose primary key is one column.
    The definition of the key column is made of its name between
    backticks, the mapped type, the NOT NULL clause, the DEFAULT clause
    and AUTO_INCREMENT, with the white space at its ends removed.  When
    INT occurs in the mapped type, NOT NULL and AUTO_INCREMENT are both
    put in, whatever the source declares, and the warning about a nullable
    key is printed exactly when the source allowed null.  When INT does
    not occur in the mapped type, NOT NULL is put in exactly when the
    source declares the column NOT NULL, AUTO_INCREMENT is left out, and
    no line is printed between those of the type mapper and those of the
    default translator.  In both cases the column is added to the key, no
    UNIQUE entry is added, and neither the type mapper nor the default
    translator prints the warning about a nullable key. *)
Theorem primary_key_renders_not_null :
  forall (db : sqlite_db) (table_name : string) (col : column)
         (col_defs primary_keys : list string),
    let columns := table_info db table_name in
    let pk_col_names := map name (filter (fun c => pk c =? 1) columns) in
    answers_index_queries db table_name ->
    ordinals_numbered columns ->
    List.length (key_members columns) = 1%nat ->
    In col columns ->
    pk col <> 0 ->
    exists (mysql_type default_sql mysql_type' : string)
           (type_lines default_lines : list string),
      map_sqlite_to_mysql_type (ctype col) true
        (is_unique_col db table_name (name col)) = (Ok mysql_type, type_lines)
      /\ build_default_sql (dflt_value col) mysql_type table_name (name col)
         = (Ok (default_sql, mysql_type'), default_lines)
      /\ ~ In (nullable_pk_warning (name col) table_name)
              (type_lines ++ default_lines)%list
      /\ (contains "INT" mysql_type = true ->
          process_columns db col table_name col_defs pk_col_names
                          primary_keys
          = (Ok ((col_defs
                  ++ [strip ("`" ++ name col ++ "` " ++ mysql_type'
                             ++ " NOT NULL" ++ default_sql
                             ++ " AUTO_INCREMENT")])%list,
                 (primary_keys ++ [backticked (name col)])%list),
             (type_lines
              ++ (if notnull col =? 0
                  then [nullable_pk_warning (name col) table_name]
                  else [])
              ++ default_lines)%list))
      /\ (contains "INT" mysql_type = false ->
          process_columns db col table_name col_defs pk_col_names
                          primary_keys
          = (Ok ((col_defs
                  ++ [strip ("`" ++ name col ++ "` " ++ mysql_type'
                             ++ (if notnull col =? 1 then " NOT NULL"
                                 else EmptyString)
                             ++ default_sql)])%list,
                 (primary_keys ++ [backticked (name col)])%list),
             (type_lines ++ default_lines)%list)).
Proof.
  intros db tbl col col_defs pks columns pk_names Hq Hnum Hone Hin Hpk.
  destruct (single_key_member columns col Hnum Hone Hin Hpk) as [H1 Hname].
  fold pk_names in Hname.
  destruct (map_type_of_key_column (ctype col)
              (is_unique_col db tbl (name col))) as (ty & l1 & Hmap & Hl1).
  destruct (build_default_sql_lines (dflt_value col) ty tbl (name col))
    as (dsql & ty' & l3 & Hdef & Hl3).
  exists ty, dsql, ty', l1, l3.
  split; [exact Hmap|]. split; [exact Hdef|].
  split.
  { apply (nullable_pk_warning_apart _ _ _ _ (ctype col) Hl1).
    destruct Hl3 as [->|[d ->]]; [now left|right; now exists d, (name col), tbl]. }
  pose proof (set_ai_nns_key_column ty (name col) tbl (notnull col)) as Hset.
  rewrite <- H1 in Hset at 1.
  assert (Hmap' : map_sqlite_to_mysql_type (ctype col)
                    (in_names (name col) pk_names)
                    (is_unique_col db tbl (name col)) = (Ok ty, l1))
    by (rewrite Hname; exact Hmap).
  split; intros Hint; rewrite Hint in Hset;
    rewrite (process_columns_run db col tbl col_defs pk_names pks
               _ _ _ _ _ _ _ _ Hq Hmap' Hset Hdef);
    rewrite Hname, andb_false_r, H1; cbn [Z.eqb Pos.eqb app];
    rewrite ?append_nil_r; reflexivity.
Qed.

Lemma primary_key_renders_not_null_witness :
  answers_index_queries nullable_id_db "user"
  /\ ordinals_numbered (table_info nullable_id_db "user")
  /\ List.length (key_members (table_info nullable_id_db "user")) = 1%nat
  /\ In nullable_id_column (table_info nullable_id_db "user")
  /\ pk nullable_id_column <> 0
  /\ exists (mysql_type default_sql mysql_type' : string)
            (type_lines default_lines : list string),
       map_sqlite_to_mysql_type "INTEGER" true
         (is_unique_col nullable_id_db "user" "id")
       = (Ok mysql_type, type_lines)
       /\ build_default_sql None mysql_type "user" "id"
          = (Ok (default_sql, mysql_type'), default_lines)
       /\ ~ In (nullable_pk_warning "id" "user")
               (type_lines ++ default_lines)%list
       /\ (contains "INT" mysql_type = true ->
           process_columns nullable_id_db nullable_id_column "user" []
                           ["id"] []
           = (Ok (([] ++ [strip ("`" ++ "id" ++ "` " ++ mysql_type'
                                 ++ " NOT NULL" ++ default_sql
                                 ++ " AUTO_INCREMENT")])%list,
                  ([] ++ [backticked "id"])%list),
              (type_lines ++ [nullable_pk_warning "id" "user"]
               ++ default_lines)%list))
       /\ (contains "INT" mysql_type = false ->
           process_columns nullable_id_db nullable_id_column "user" []
                           ["id"] []
           = (Ok (([] ++ [strip ("`" ++ "id" ++ "` " ++ mysql_type'
                                 ++ EmptyString ++ default_sql)])%list,
                  ([] ++ [backticked "id"])%list),
              (type_lines ++ default_lines)%list)).
Proof.
  assert (Hq : answers_index_queries nullable_id_db "user")
    by (split; [reflexivity | intros idx []]).
  assert (Hnum : ordinals_numbered (table_info nullable_id_db "user")).
  { intros c [<-|[<-|[]]]; vm_compute; split; discriminate. }
  assert (Hone : List.length (key_members (table_info nullable_id_db "user"))
                 = 1%nat) by reflexivity.
  assert (Hin : In nullable_id_column (table_info nullable_id_db "user"))
    by (left; reflexivity).
  assert (Hpk : pk nullable_id_column <> 0) by discriminate.
  repeat (split; [assumption|]).
  exact (primary_key_renders_not_null nullable_id_db "user"
           nullable_id_column [] [] Hq Hnum Hone Hin Hpk).
Defined.

(** What the code renders for that key column. *)
Example nullable_id_rendering :
  process_columns nullable_id_db nullable_id_column "user" [] ["id"] []
  = (Ok (["`id` INT UNSIGNED NOT NULL AUTO_INCREMENT"], ["`id`"]),
     [nullable_pk_warning "id" "user"]).
Proof. vm_compute. reflexivity. Qed.

(** C1 as it is worded fails: a nullable TEXT primary key is rendered
    without NOT NULL, and no warning about its nullability is printed. *)
Lemma text_primary_key_stays_nullable :
  ~ (forall (db : sqlite_db) (col : column) (table_name : string)
            (pk_col_names : list string),
       pk col <> 0 ->
       exists rendered rest primary_keys lines,
         process_columns db col table_name [] pk_col_names []
         = (Ok (rendered :: rest, primary_keys), lines)
         /\ contains " NOT NULL" rendered = true
         /\ (notnull col = 0 ->
             In (nullable_pk_warning (name col) table_name) lines)).
Proof.
  intros H.
  destruct (H text_pk_db text_pk_column "tag" ["slug"])
    as (rendered & rest & pks & lines & E & Hnn & _); [discriminate|].
  vm_compute in E. injection E as <- _ _ _.
  vm_compute in Hnn. discriminate Hnn.
Qed.

(** What the code renders for that column. *)
Example text_primary_key_rendering :
  process_columns text_pk_db text_pk_column "tag" [] ["slug"] []
  = (Ok (["`slug` VARCHAR(191)"], ["`slug`"]),
     [indexed_text_warning "TEXT"]).
Proof. vm_compute. reflexivity. Qed.

(** C2 on a composite key.  The members of the primary key of the source
    table are monitor_id (ordinal 1) and tag_id (ordinal 2); the generated
    statement names monitor_id alone in its PRIMARY KEY clause, because
    only the ordinal 1 is taken for a key member. *)
Theorem composite_primary_key_keeps_first_member_only :
  map pk (table_info composite_pk_db "monitor_tag") = [1; 2; 0]
  /\ create_table_stmt composite_pk_db "monitor_tag"
     = (Ok composite_pk_stmt, [])
  /\ contains "PRIMARY KEY (`monitor_id`, `tag_id`)" composite_pk_stmt
     = false
  /\ contains "PRIMARY KEY (`monitor_id`)" composite_pk_stmt = true.
Proof. repeat split; vm_compute; reflexivity. Qed.

End ColumnDefinitions.

Section TimestampNormalizer.

Variable utcoffset : Z -> Z.

Lemma set_item_length (l : row) (i : nat) (x : value) :
  List.length (set_item l i x) = List.length l.
Proof.
  revert i. induction l as [|v l IH]; intros [|i]; cbn [set_item List.length];
    auto.
Qed.

Lemma set_item_other (l : row) (i j : nat) (x : value) :
  j <> i -> nth_error (set_item l i x) j = nth_error l j.
Proof.
  revert i j. induction l as [|v l IH]; intros [|i] [|j] H;
    cbn [set_item nth_error]; auto; try contradiction.
Qed.

Lemma set_item_frame (l : row) (x : value) : frame_of l (set_item l 3 x).
Proof.
  split; [apply set_item_length | intros j Hj; now apply set_item_other].
Qed.

Lemma frame_of_refl (l : row) : frame_of l l.
Proof. now split. Qed.

(** [fromtimestamp] raises nothing but the three exceptions below. *)
Lemma fromtimestamp_cases (t : Z) :
  (exists dt, fromtimestamp utcoffset t = (Ok dt, []))
  \/ (exists msg, fromtimestamp utcoffset t = (Raise (ValueError msg), []))
  \/ fromtimestamp utcoffset t = (Raise time_t_overflow, []).
Proof.
  unfold fromtimestamp.
  destruct ((t <? - 2 ^ 63) || (2 ^ 63 <=? t)); [now right; right|].
  destruct (civil_from_days ((t + utcoffset t) / 86400)) as [[y m] d].
  destruct ((y <? 1) || (9999 <? y)); [right; left | left]; now eexists.
Qed.

(** A row is converted, or the conversion stops on the overflow of
    [time_t]; a converted row keeps its frame, and a row with fewer than
    four fields, or whose fourth field is false or is not all digits as a
    text, is returned as it is, with nothing printed. *)
Lemma convert_row_cases (r : row) :
  (exists r' lines, convert_row utcoffset r = (Ok r', lines)
                    /\ frame_of r r'
                    /\ ((List.length r < 4)%nat
                        \/ truthy (nth 3 r VNone) = false
                        \/ digit_text (nth 3 r VNone) = None ->
                        r' = r /\ lines = []))
  \/ convert_row utcoffset r = (Raise time_t_overflow, []).
Proof.
  unfold convert_row.
  destruct (4 <=? List.length r)%nat eqn:Hlen.
  2:{ left. exists r, []. repeat split; auto. }
  apply Nat.leb_le in Hlen.
  destruct (truthy (nth 3 r VNone)) eqn:Ht.
  2:{ left. exists r, []. repeat split; auto. }
  destruct (digit_text (nth 3 r VNone)) as [text|] eqn:Hd.
  2:{ left. exists r, []. repeat split; auto. }
  set (t := if 4000000000 <? py_int (nth 3 r VNone)
            then py_int (nth 3 r VNone) / 1000
            else py_int (nth 3 r VNone)).
  destruct (fromtimestamp_cases t) as [[dt E]|[[msg E]|E]]; rewrite E.
  - left. eexists _, _. split; [reflexivity|].
    split; [apply set_item_frame|].
    intros [H|[H|H]]; [lia | discriminate | discriminate].
  - left. eexists _, _. split; [reflexivity|].
    split; [apply set_item_frame|].
    intros [H|[H|H]]; [lia | discriminate | discriminate].
  - now right.
Qed.

Lemma knex_loop_cases (rows acc : list row) :
  (exists out lines,
     knex_loop utcoffset rows acc = (Ok (acc ++ out)%list, lines)
     /\ Forall2 frame_of rows out
     /\ Forall2 (fun r r' =>
                   (List.length r < 4)%nat
                   \/ truthy (nth 3 r VNone) = false
                   \/ digit_text (nth 3 r VNone) = None -> r' = r)
                rows out)
  \/ exists lines,
       knex_loop utcoffset rows acc = (Raise time_t_overflow, lines).
Proof.
  revert acc. induction rows as [|r rows IH]; intros acc; cbn [knex_loop].
  - left. exists [], []. rewrite app_nil_r. now repeat split.
  - destruct (convert_row_cases r) as [(r' & l1 & E & Hf & Hsame)|E];
      rewrite E; unfold bind.
    + destruct (IH (append_item acc r')) as [(out & l2 & E2 & HF & HS)|[l2 E2]];
        rewrite E2.
      * left. exists (r' :: out), (l1 ++ l2)%list.
        unfold append_item. rewrite <- app_assoc. cbn [app].
        repeat split; constructor; auto. intros H. now apply Hsame.
      * right. now eexists.
    + right. now eexists.
Qed.

(** The part of C10 that the code keeps: whenever the normalizer returns,
    it returns one row per input row, in the same order; each row keeps its
    length and every field other than the fourth; and a row with fewer than
    four fields, or whose fourth field is false or has a text that is not
    all digits, is returned unchanged. *)
Lemma knex_timestamp_conversion_frame (rows out : list row)
    (lines : list string) :
  knex_timestamp_conversion utcoffset rows = (Ok out, lines) ->
  List.length out = List.length rows
  /\ Forall2 frame_of rows out
  /\ Forall2 (fun r r' =>
                (List.length r < 4)%nat
                \/ truthy (nth 3 r VNone) = false
                \/ digit_text (nth 3 r VNone) = None -> r' = r)
             rows out.
Proof.
  unfold knex_timestamp_conversion. intros E.
  destruct (knex_loop_cases rows []) as [(out' & l & E' & HF & HS)|[l E']];
    rewrite E' in E; [|discriminate].
  cbn [app] in E. injection E as <- <-.
  split; [symmetry; exact (Forall2_length HF) | now split].
Qed.

(** C10 on a value beyond [time_t].  When a row of the migrations log
    carries, as a text of digits, a time stamp whose value in seconds does
    not fit the platform's [time_t], [fromtimestamp] raises OverflowError,
    which the [except] clause does not list: the normalizer raises and
    returns no row at all, whatever the other rows are. *)
Theorem normalizer_returns_no_row_on_overflow :
  forall before after : list row,
  exists lines,
    knex_timestamp_conversion utcoffset (before ++ overflowing_row :: after)
    = (Raise time_t_overflow, lines).
Proof.
  intros before after. unfold knex_timestamp_conversion.
  generalize (@nil row) as acc.
  induction before as [|r before IH]; intros acc; cbn [app knex_loop].
  - exists []. reflexivity.
  - destruct (convert_row_cases r) as [(r' & l1 & E & _)|E]; rewrite E;
      unfold bind.
    + destruct (IH (append_item acc r')) as [l2 E2].
      rewrite E2. now eexists.
    + now eexists.
Qed.

(** C8 on a value beyond [time_t].  The conversion of such a time stamp
    fails, but the field is not set to null, no warning is printed and the
    row is not kept: the exception leaves the normalizer. *)
Theorem failed_conversion_is_not_nulled :
  convert_row utcoffset overflowing_row = (Raise time_t_overflow, [])
  /\ knex_timestamp_conversion utcoffset [overflowing_row]
     = (Raise time_t_overflow, []).
Proof. split; reflexivity. Qed.

(** The part of C8 that the code keeps.  A value above 4,000,000,000 is
    divided by 1000, so a row with the seconds [s] and the same row with
    the milliseconds [1000 * s] are converted to the same row whenever [s]
    is read as seconds and [1000 * s] as milliseconds. *)
Lemma seconds_and_milliseconds_agree (a b c f1 f2 : value) (rest : row)
    (s : Z) :
  reads_as_epoch f1 s -> reads_as_epoch f2 (1000 * s) ->
  s <= 4000000000 < 1000 * s ->
  value_of (convert_row utcoffset (a :: b :: c :: f1 :: rest))
  = value_of (convert_row utcoffset (a :: b :: c :: f2 :: rest)).
Proof.
  intros (T1 & D1 & I1) (T2 & D2 & I2) [Hs Hms].
  unfold convert_row. cbn [List.length Nat.leb nth].
  rewrite T1, T2, I1, I2.
  destruct (digit_text f1) as [t1|]; [|contradiction].
  destruct (digit_text f2) as [t2|]; [|contradiction].
  replace (4000000000 <? s) with false by (symmetry; apply Z.ltb_ge; lia).
  replace (4000000000 <? 1000 * s) with true
    by (symmetry; apply Z.ltb_lt; lia).
  replace (1000 * s / 1000) with s
    by (rewrite Z.mul_comm, Z.div_mul; lia).
  destruct (fromtimestamp_cases s) as [[dt E]|[[msg E]|E]]; rewrite E;
    reflexivity.
Qed.

(** 1700000000 falls on a day of November 2023 in every time zone. *)
Lemma epoch_1700000000_in_2023 :
  - 86400 <= utcoffset 1700000000 <= 86400 ->
  exists dt, fromtimestamp utcoffset 1700000000 = (Ok dt, [])
             /\ year dt = 2023 /\ month dt = 11.
Proof.
  intros H. unfold fromtimestamp. cbn [orb Z.ltb Z.leb Z.compare Z.pow].
  replace ((1700000000 <? - 2 ^ 63) || (2 ^ 63 <=? 1700000000)) with false
    by reflexivity.
  assert (D : (1700000000 + utcoffset 1700000000) / 86400 = 19674
              \/ (1700000000 + utcoffset 1700000000) / 86400 = 19675
              \/ (1700000000 + utcoffset 1700000000) / 86400 = 19676).
  { pose proof (Z.div_le_mono (1700000000 - 86400)
                  (1700000000 + utcoffset 1700000000) 86400
                  ltac:(lia) ltac:(lia)) as L.
    pose proof (Z.div_le_mono (1700000000 + utcoffset 1700000000)
                  (1700000000 + 86400) 86400 ltac:(lia) ltac:(lia)) as U.
    change ((1700000000 - 86400) / 86400) with 19674 in L.
    change ((1700000000 + 86400) / 86400) with 19676 in U. lia. }
  destruct D as [D|[D|D]]; rewrite D;
    match goal with
    | |- context [civil_from_days ?n] =>
        let c := eval vm_compute in (civil_from_days n) in
        change (civil_from_days n) with c
    end;
    cbv beta iota zeta;
    change ((2023 <? 1) || (9999 <? 2023)) with false;
    cbv beta iota delta [ret]; eexists; repeat split.
Qed.

End TimestampNormalizer.

(** In UTC the seconds and the milliseconds of the instant 1700000000 both
    give the date-time 2023-11-14 22:13:20, as an integer or as a text. *)
Example knex_timestamp_conversion_2023 :
  knex_timestamp_conversion (fun _ => 0)
    [ [VInt 1; VStr "a.js"; VInt 1; VInt 1700000000];
      [VInt 2; VStr "b.js"; VInt 1; VInt 1700000000000];
      [VInt 3; VStr "c.js"; VInt 1; VStr "1700000000000"];
      [VInt 4; VStr "d.js"; VInt 1; VStr "2023-11-14 22:13:20"];
      [VInt 5; VStr "e.js"; VInt 1; VInt (-5)];
      [VInt 6; VStr "f.js"; VInt 1; VNone];
      [VInt 7; VStr "g.js"] ]
  = (Ok [ [VInt 1; VStr "a.js"; VInt 1; VStr "2023-11-14 22:13:20"];
          [VInt 2; VStr "b.js"; VInt 1; VStr "2023-11-14 22:13:20"];
          [VInt 3; VStr "c.js"; VInt 1; VStr "2023-11-14 22:13:20"];
          [VInt 4; VStr "d.js"; VInt 1; VStr "2023-11-14 22:13:20"];
          [VInt 5; VStr "e.js"; VInt 1; VInt (-5)];
          [VInt 6; VStr "f.js"; VInt 1; VNone];
          [VInt 7; VStr "g.js"] ], []).
Proof. vm_compute. reflexivity. Qed.

(** A time stamp beyond the year 9999 that still fits [time_t] is the
    failure the code handles: the field becomes NULL and the row is kept. *)
Example knex_timestamp_conversion_year_out_of_range :
  knex_timestamp_conversion (fun _ => 0)
    [ [VInt 1; VStr "a.js"; VInt 1; VInt 1000000000000000] ]
  = (Ok [ [VInt 1; VStr "a.js"; VInt 1; VNone] ],
     ["Warning: Could not convert timestamp 1000000000000000: "
      ++ "year 33658 is out of range"]).
Proof. vm_compute. reflexivity. Qed.

Section Ranges.

Local Open Scope nat_scope.

Lemma ceil_step (d step : nat) :
  0 < d -> 0 < step ->
  (d + step - 1) / step = S ((d - step + step - 1) / step).
Proof.
  intros Hd Hs. destruct (Nat.le_gt_cases step d) as [H|H].
  - replace (d + step - 1) with ((d - 1) + 1 * step) by lia.
    rewrite Nat.div_add by lia.
    replace (d - step + step - 1) with (d - 1) by lia. lia.
  - replace (d - step + step - 1) with (step - 1) by lia.
    rewrite (Nat.div_small (step - 1)) by lia.
    replace (d + step - 1) with ((d - 1) + 1 * step) by lia.
    rewrite Nat.div_add by lia. rewrite Nat.div_small by lia. reflexivity.
Qed.

(** [range] counts from [start] in steps of [step] while below [stop]. *)
Lemma range_from_spec (step fuel start stop : nat) :
  0 < step -> stop - start <= fuel ->
  range_from fuel start stop step
  = map (fun k => start + k * step)
        (seq 0 ((stop - start + step - 1) / step)).
Proof.
  intros Hs. revert start. induction fuel as [|fuel IH]; intros start Hf.
  - replace (stop - start) with 0 by lia. cbn [range_from Nat.add].
    now rewrite Nat.div_small by lia.
  - cbn [range_from]. destruct (start <? stop) eqn:E.
    + apply Nat.ltb_lt in E. rewrite IH by lia.
      rewrite (ceil_step (stop - start) step) by lia.
      replace (stop - (start + step)) with (stop - start - step) by lia.
      cbn [seq map]. f_equal; [lia|].
      rewrite <- seq_shift, map_map. apply map_ext. intros k. cbn. lia.
    + apply Nat.ltb_ge in E. replace (stop - start) with 0 by lia.
      cbn [Nat.add]. now rewrite Nat.div_small by lia.
Qed.

Lemma range_spec (n step : nat) :
  0 < step ->
  range 0 n step = map (fun k => k * step) (seq 0 ((n + step - 1) / step)).
Proof.
  intros Hs. unfold range. rewrite range_from_spec by lia.
  now rewrite Nat.sub_0_r.
Qed.

Lemma range_length (n step : nat) :
  0 < step -> List.length (range 0 n step) = (n + step - 1) / step.
Proof.
  intros Hs. now rewrite range_spec, length_map, length_seq.
Qed.

Lemma range_NoDup (n step : nat) : 0 < step -> NoDup (range 0 n step).
Proof.
  intros Hs. rewrite range_spec by assumption.
  apply Injective_map_NoDup; [|apply seq_NoDup].
  intros a b H. nia.
Qed.

Lemma firstn_add {A} (a b : nat) (l : list A) :
  firstn (a + b) l = (firstn a l ++ firstn b (skipn a l))%list.
Proof.
  revert l. induction a as [|a IH]; intros [|x l]; cbn [Nat.add firstn skipn app];
    try reflexivity.
  - now rewrite firstn_nil.
  - now rewrite IH.
Qed.

Lemma chunks_concat {A} (s n : nat) (l : list A) :
  List.concat (map (fun i => firstn s (skipn i l))
              (map (fun k => k * s) (seq 0 n)))
  = firstn (n * s) l.
Proof.
  induction n as [|n IH]; [reflexivity|].
  rewrite seq_S, !map_app, List.concat_app, IH. cbn [map List.concat Nat.add].
  rewrite app_nil_r. replace (S n * s) with (n * s + s) by lia.
  now rewrite firstn_add.
Qed.

Lemma slice_chunk {A} (l : list A) (i s : nat) :
  slice l i (i + s) = firstn s (skipn i l).
Proof. unfold slice. now replace (i + s - i) with s by lia. Qed.

(** The batches are consecutive pieces of the rows: put end to end in the
    order of the loop they give the rows back. *)
Lemma batches_partition (rows : list row) :
  List.concat (map (batch_at rows) (range 0 (List.length rows) batch_size)) = rows.
Proof.
  rewrite range_spec by (unfold batch_size; lia).
  rewrite (map_ext (batch_at rows)
                   (fun i => firstn batch_size (skipn i rows)))
    by (intros i; apply slice_chunk).
  rewrite chunks_concat. apply firstn_all2.
  pose proof (Nat.div_mod_eq (List.length rows + batch_size - 1) batch_size).
  pose proof (Nat.mod_upper_bound (List.length rows + batch_size - 1)
                batch_size ltac:(unfold batch_size; lia)).
  unfold batch_size in *. lia.
Qed.

Lemma batch_at_length (rows : list row) (i : nat) :
  List.length (batch_at rows i) <= batch_size.
Proof.
  unfold batch_at. rewrite slice_chunk. apply firstn_le_length.
Qed.

End Ranges.

Section BatchCopy.

Local Open Scope nat_scope.

Variable bulk_insert : string -> nat -> list row -> insert_answer.

(** The loop, batch by batch: every batch is sent with the statement;
    what the target writes for a batch whose insert succeeds is committed
    and the batch is counted; every other batch leaves a line in the log
    and nothing in the store. *)
Lemma copy_batches_spec (stmt table_name : string) (rows : list row)
    (starts : list nat) (conn : mysql_conn) (k : nat) :
  pending conn = [] ->
  copy_batches bulk_insert stmt table_name rows starts conn k
  = (Ok (mk_mysql_conn (executed conn)
           (sent conn ++ map (fun i => (stmt, batch_at rows i)) starts)
           []
           (committed conn
            ++ List.concat
                 (map (batch_written bulk_insert stmt rows)
                      (filter (batch_succeeds bulk_insert stmt rows) starts))),
         k + List.length (filter (batch_succeeds bulk_insert stmt rows) starts)),
     flat_map (batch_failure_lines bulk_insert stmt table_name rows) starts).
Proof.
  revert conn k. induction starts as [|i rest IH]; intros conn k Hp.
  - cbn [copy_batches filter flat_map map List.concat List.length].
    rewrite !app_nil_r, Nat.add_0_r. destruct conn; cbn in *.
    now subst.
  - cbn [copy_batches filter flat_map]. unfold executemany, batch_succeeds,
      batch_failure_lines. fold (batch_at rows i).
    destruct (bulk_insert stmt i (batch_at rows i)) as [w [msg|]] eqn:E;
      cbn [insert_error written].
    + cbv beta iota delta [bind print]. rewrite IH by reflexivity.
      cbn [rollback executed sent pending committed exn_msg app map].
      unfold append_item. rewrite <- app_assoc. reflexivity.
    + rewrite IH by reflexivity.
      cbn [commit executed sent pending committed List.length map
           List.concat app].
      unfold append_item, batch_written at 2. rewrite E, Hp.
      cbn [written app]. rewrite <- !app_assoc. cbn [app].
      replace (S k + List.length
                       (filter (batch_succeeds bulk_insert stmt rows) rest))
        with (k + S (List.length
                       (filter (batch_succeeds bulk_insert stmt rows) rest)))
        by lia.
      reflexivity.
Qed.

Lemma filter_all {A} (p : A -> bool) (l : list A) :
  (forall x, In x l -> p x = true) -> filter p l = l.
Proof.
  induction l as [|x l IH]; intros H; [reflexivity|]. cbn.
  rewrite H by (now left). f_equal. apply IH. intros y Hy. apply H.
  now right.
Qed.

Lemma flat_map_none {A B} (f : A -> list B) (l : list A) :
  (forall x, In x l -> f x = []) -> flat_map f l = [].
Proof.
  induction l as [|x l IH]; intros H; [reflexivity|]. cbn.
  rewrite H by (now left). apply IH. intros y Hy. apply H. now right.
Qed.

Lemma chunks_concat_from {A} (s m a : nat) (l : list A) :
  List.concat (map (fun i => firstn s (skipn i l))
                   (map (fun k => k * s) (seq a m)))
  = firstn (m * s) (skipn (a * s) l).
Proof.
  revert a. induction m as [|m IH]; intros a; [reflexivity|].
  cbn [seq map List.concat]. rewrite IH.
  replace (S m * s) with (s + m * s) by lia.
  rewrite firstn_add, skipn_skipn.
  now replace (s + a * s) with (S a * s) by lia.
Qed.

(** The batches on either side of the one that starts at row [j]. *)
Lemma starts_split (rows : list row) (j : nat) :
  In j (batch_starts rows) ->
  exists l1 l2 : list nat,
    batch_starts rows = (l1 ++ j :: l2)%list
    /\ other_starts rows j = (l1 ++ l2)%list
    /\ List.length (l1 ++ l2)
       = (List.length rows + batch_size - 1) / batch_size - 1
    /\ List.concat (map (batch_at rows) (l1 ++ l2))
       = rows_without_batch rows j.
Proof.
  intros Hin. unfold other_starts. unfold batch_starts in *.
  assert (Hs : 0 < batch_size) by (unfold batch_size; lia).
  pose proof (range_NoDup (List.length rows) batch_size Hs) as Hnd.
  revert Hin Hnd. rewrite range_spec by exact Hs.
  set (n := (List.length rows + batch_size - 1) / batch_size).
  intros Hin Hnd.
  apply in_map_iff in Hin as (k0 & Hk0 & Hk).
  apply in_seq in Hk. cbn [Nat.add] in Hk.
  set (l1 := map (fun k => k * batch_size) (seq 0 k0)).
  set (l2 := map (fun k => k * batch_size) (seq (S k0) (n - S k0))).
  assert (Hsplit : map (fun k => k * batch_size) (seq 0 n)
                   = (l1 ++ j :: l2)%list).
  { replace n with (k0 + S (n - S k0)) at 1 by lia.
    rewrite seq_app, map_app. cbn [seq map Nat.add]. now rewrite Hk0. }
  rewrite Hsplit in *.
  apply NoDup_remove_2 in Hnd.
  exists l1, l2. split; [reflexivity|]. split; [|split].
  - rewrite filter_app. cbn [filter]. rewrite Nat.eqb_refl. cbn [negb].
    rewrite !filter_all; [reflexivity| |].
    + intros i Hi. destruct (Nat.eqb_spec i j) as [->|]; [|reflexivity].
      exfalso. apply Hnd, in_or_app. now right.
    + intros i Hi. destruct (Nat.eqb_spec i j) as [->|]; [|reflexivity].
      exfalso. apply Hnd, in_or_app. now left.
  - rewrite length_app. unfold l1, l2. rewrite !length_map, !length_seq. lia.
  - rewrite map_app, List.concat_app. unfold l1, l2, rows_without_batch.
    rewrite !(map_ext (batch_at rows)
                (fun i => firstn batch_size (skipn i rows)))
      by (intros i; apply slice_chunk).
    rewrite !chunks_concat_from. change (0 * batch_size) with 0.
    cbn [skipn]. rewrite Hk0.
    replace (S k0 * batch_size) with (j + batch_size) by lia.
    f_equal. apply firstn_all2. rewrite length_skipn.
    pose proof (Nat.div_mod_eq (List.length rows + batch_size - 1) batch_size).
    pose proof (Nat.mod_upper_bound (List.length rows + batch_size - 1)
                  batch_size ltac:(lia)).
    fold n in H. nia.
Qed.

(** A run in which the batch at [j] fails and every other one succeeds:
    the batches that are counted, and what the loop prints. *)
Lemma one_failing_batch (stmt table_name : string) (rows : list row)
    (j : nat) (msg : string) :
  In j (batch_starts rows) ->
  insert_error (bulk_insert stmt j (batch_at rows j)) = Some msg ->
  (forall i, In i (batch_starts rows) -> i <> j ->
             insert_error (bulk_insert stmt i (batch_at rows i)) = None) ->
  filter (batch_succeeds bulk_insert stmt rows) (batch_starts rows)
  = other_starts rows j
  /\ flat_map (batch_failure_lines bulk_insert stmt table_name rows)
              (batch_starts rows)
     = [batch_error_line table_name j msg].
Proof.
  intros Hin Hj Hothers. split.
  - unfold other_starts. apply filter_ext_in. intros i Hi.
    unfold batch_succeeds. destruct (Nat.eqb_spec i j) as [->|Hne].
    + now rewrite Hj.
    + now rewrite (Hothers i Hi Hne).
  - destruct (starts_split rows j Hin) as (l1 & l2 & Hsplit & _).
    rewrite Hsplit in *. pose proof (range_NoDup (List.length rows)
      batch_size ltac:(unfold batch_size; lia)) as Hnd.
    fold (batch_starts rows) in Hnd. rewrite Hsplit in Hnd.
    apply NoDup_remove_2 in Hnd.
    rewrite flat_map_app. cbn [flat_map].
    rewrite !flat_map_none.
    + unfold batch_failure_lines. now rewrite Hj.
    + intros i Hi. unfold batch_failure_lines. rewrite Hothers;
        [reflexivity | apply in_or_app; right; now right |].
      intros ->. apply Hnd, in_or_app. now right.
    + intros i Hi. unfold batch_failure_lines. rewrite Hothers;
        [reflexivity | apply in_or_app; now left |].
      intros ->. apply Hnd, in_or_app. now left.
Qed.

(** C9.  The rows are cut into consecutive batches of 1000, and for each
    batch, in order, the target is sent one bulk insert with the INSERT
    IGNORE statement of the table and the rows of the batch.  A batch whose
    insert fails is rolled back and skipped while the loop goes on.  When
    exactly one batch fails, at row [j], on a connection with no open
    transaction: the log reports the N rows, the error of that batch, and
    [total_batches - 1] successful batches out of
    [total_batches = ceiling (N / 1000)]; what the target has written for
    every other batch is committed, in order, and nothing of the failed
    batch is, whatever the target had written of it; no transaction is
    left open.  The other batches make up the rows before and after the
    failed batch, so that when the target skips no row of them, those are
    the rows committed. *)
Theorem copy_with_one_failing_batch
    (table_name escaped_table_name : string)
    (original_col_names : list string) (rows : list row)
    (conn : mysql_conn) (j : nat) (msg : string) :
  let insert_stmt :=
    insert_ignore_stmt escaped_table_name original_col_names in
  pending conn = [] ->
  In j (batch_starts rows) ->
  insert_error (bulk_insert insert_stmt j (batch_at rows j)) = Some msg ->
  (forall i, In i (batch_starts rows) -> i <> j ->
             insert_error (bulk_insert insert_stmt i (batch_at rows i))
             = None) ->
  let total_batches := (List.length rows + batch_size - 1) / batch_size in
  batch_size = 1000
  /\ List.concat (map (batch_at rows) (batch_starts rows)) = rows
  /\ List.length (batch_starts rows) = total_batches
  /\ List.length (other_starts rows j) = total_batches - 1
  /\ List.concat (map (batch_at rows) (other_starts rows j))
     = rows_without_batch rows j
  /\ prefix "INSERT IGNORE INTO " insert_stmt = true
  /\ copy_prepared bulk_insert table_name escaped_table_name
                   original_col_names rows conn
     = (Ok (mk_mysql_conn
              (executed conn)
              (sent conn
               ++ map (fun i => (insert_stmt, batch_at rows i))
                      (batch_starts rows))
              []
              (committed conn
               ++ List.concat (map (batch_written bulk_insert insert_stmt rows)
                                   (other_starts rows j)))),
        [copying_line table_name escaped_table_name original_col_names
                      (List.length rows);
         batch_error_line table_name j msg;
         summary_line table_name (total_batches - 1) total_batches;
         "Data copied to `" ++ table_name ++ "`."])
  /\ ((forall i, In i (other_starts rows j) ->
                 batch_written bulk_insert insert_stmt rows i
                 = batch_at rows i) ->
      List.concat (map (batch_written bulk_insert insert_stmt rows)
                       (other_starts rows j))
      = rows_without_batch rows j).
Proof.
  intros stmt Hp Hin Hj Hothers total_batches.
  destruct (starts_split rows j Hin) as (l1 & l2 & Hsplit & Ho & Hlen & Hrows).
  destruct (one_failing_batch stmt table_name rows j msg Hin Hj Hothers)
    as (Hfilter & Hlines).
  split; [reflexivity|]. split; [apply batches_partition|].
  split; [apply range_length; unfold batch_size; lia|].
  split; [now rewrite Ho|]. split; [now rewrite Ho|].
  split; [unfold stmt, insert_ignore_stmt; apply prefix_app|].
  split.
  - unfold copy_prepared. cbv beta iota zeta delta [bind print ret].
    fold (insert_ignore_stmt escaped_table_name original_col_names).
    fold stmt. fold (batch_starts rows).
    rewrite copy_batches_spec by exact Hp.
    rewrite Hfilter, Hlines, Ho, Hlen. cbn [app Nat.add]. reflexivity.
  - intros Hall. rewrite <- Hrows, <- Ho. f_equal.
    apply map_ext_in. exact Hall.
Qed.

End BatchCopy.

(** 2500 rows, three batches, the second of which fails after the target
    has written two of its rows. *)
Lemma copy_with_one_failing_batch_witness :
  value_of (copy_prepared fails_at_1000 "heartbeat" "`heartbeat`" ["id"]
              (numbered_rows 2500) empty_conn)
  = Ok (mk_mysql_conn []
          [ ("INSERT IGNORE INTO `heartbeat` (`id`) VALUES (%s)",
             numbered_rows 1000);
            ("INSERT IGNORE INTO `heartbeat` (`id`) VALUES (%s)",
             firstn 1000 (skipn 1000 (numbered_rows 2500)));
            ("INSERT IGNORE INTO `heartbeat` (`id`) VALUES (%s)",
             skipn 2000 (numbered_rows 2500)) ]
          []
          (numbered_rows 1000 ++ skipn 2000 (numbered_rows 2500)))
  /\ printed (copy_prepared fails_at_1000 "heartbeat" "`heartbeat`" ["id"]
                (numbered_rows 2500) empty_conn)
     = ["Copying 2500 rows to `heartbeat` using: "
        ++ "INSERT IGNORE INTO `heartbeat` (`id`) VALUES (%s)";
        "Error inserting data into `heartbeat` (batch 1, starting row 1000): "
        ++ "1205 (HY000): Lock wait timeout";
        "Successfully processed 2 batches out of 3 for table `heartbeat`";
        "Data copied to `heartbeat`."].
Proof.
  assert (Hp : pending empty_conn = []) by reflexivity.
  assert (Hin : In 1000%nat (batch_starts (numbered_rows 2500)))
    by (vm_compute; tauto).
  assert (Hj : insert_error
                 (fails_at_1000
                    (insert_ignore_stmt "`heartbeat`" ["id"]) 1000
                    (batch_at (numbered_rows 2500) 1000))
               = Some "1205 (HY000): Lock wait timeout")
    by reflexivity.
  assert (Hothers : forall i : nat,
             In i (batch_starts (numbered_rows 2500)) ->
             i <> 1000%nat ->
             insert_error
               (fails_at_1000 (insert_ignore_stmt "`heartbeat`" ["id"]) i
                  (batch_at (numbered_rows 2500) i)) = None).
  { intros i _ Hi. unfold fails_at_1000.
    destruct (Nat.eqb_spec i 1000); [contradiction | reflexivity]. }
  pose proof (proj1 (proj2 (proj2 (proj2 (proj2 (proj2 (proj2
    (copy_with_one_failing_batch fails_at_1000 "heartbeat" "`heartbeat`"
       ["id"] (numbered_rows 2500) empty_conn 1000 _ Hp Hin Hj Hothers))))))))
    as E.
  rewrite E. split; vm_compute; reflexivity.
Defined.

Section TypeMapperRange.

Lemma is_digit_upper_char (c : ascii) : is_digit (upper_char c) = is_digit c.
Proof. destruct c as [[] [] [] [] [] [] [] []]; reflexivity. Qed.

Lemma upper_char_digit (c : ascii) : is_digit c = true -> upper_char c = c.
Proof.
  destruct c as [[] [] [] [] [] [] [] []]; intros H;
    first [reflexivity | discriminate H].
Qed.

Lemma upper_char_idem (c : ascii) : upper_char (upper_char c) = upper_char c.
Proof. destruct c as [[] [] [] [] [] [] [] []]; reflexivity. Qed.

Lemma upper_char_lparen (c : ascii) :
  Ascii.eqb (upper_char c) "("%char = Ascii.eqb c "("%char.
Proof. destruct c as [[] [] [] [] [] [] [] []]; reflexivity. Qed.

Lemma upper_char_rparen (c : ascii) :
  Ascii.eqb (upper_char c) ")"%char = Ascii.eqb c ")"%char.
Proof. destruct c as [[] [] [] [] [] [] [] []]; reflexivity. Qed.

Lemma upper_idem (s : string) : upper (upper s) = upper s.
Proof.
  induction s as [|c s IH]; cbn [upper]; [reflexivity|].
  now rewrite upper_char_idem, IH.
Qed.

Lemma span_digits_upper (s : string) :
  span_digits (upper s)
  = (fst (span_digits s), upper (snd (span_digits s))).
Proof.
  induction s as [|c s IH]; cbn [upper span_digits]; [reflexivity|].
  rewrite is_digit_upper_char. destruct (is_digit c) eqn:E.
  - rewrite IH, (upper_char_digit c E).
    now destruct (span_digits s).
  - reflexivity.
Qed.

(** The length in parentheses is found in the declaration whatever the
    case of its letters. *)
Lemma search_paren_digits_upper (s : string) :
  search_paren_digits (upper s) = search_paren_digits s.
Proof.
  induction s as [|c s IH]; cbn [upper search_paren_digits]; [reflexivity|].
  rewrite upper_char_lparen, span_digits_upper, IH.
  destruct (Ascii.eqb c "("%char); [|reflexivity].
  destruct (span_digits s) as [[|d ds] [|r rest]]; cbn [fst snd upper];
    try reflexivity.
  now rewrite upper_char_rparen.
Qed.

Lemma span_digits_all_digits (s : string) :
  all_digits (fst (span_digits s)) = true.
Proof.
  induction s as [|c s IH]; cbn [span_digits]; [reflexivity|].
  destruct (is_digit c) eqn:E; [|reflexivity].
  destruct (span_digits s) as [d r]. cbn [fst all_digits] in *.
  now rewrite E, IH.
Qed.

Lemma search_paren_digits_all_digits (s group1 : string) :
  search_paren_digits s = Some group1 -> all_digits group1 = true.
Proof.
  induction s as [|c s IH]; cbn [search_paren_digits]; [discriminate|].
  destruct (Ascii.eqb c "("%char); [|exact IH].
  pose proof (span_digits_all_digits s) as D.
  destruct (span_digits s) as [[|d ds] [|r rest]]; try exact IH.
  destruct (Ascii.eqb r ")"%char); [|exact IH].
  intros E. injection E as <-. exact D.
Qed.

Lemma digit_val_range (c : ascii) : is_digit c = true -> 0 <= digit_val c <= 9.
Proof.
  destruct c as [[] [] [] [] [] [] [] []]; intros H;
    first [discriminate H | vm_compute; split; discriminate].
Qed.

Lemma int_of_digits_from_nonneg (s : string) (acc : Z) :
  0 <= acc -> all_digits s = true -> 0 <= int_of_digits_from acc s.
Proof.
  revert acc. induction s as [|c s IH]; intros acc Ha Hd;
    cbn [int_of_digits_from all_digits] in *; [exact Ha|].
  apply andb_true_iff in Hd as [Hc Hs].
  pose proof (digit_val_range c Hc). apply IH; [lia | exact Hs].
Qed.

(** X1.  Two declarations that differ only in the case of their letters are
    mapped to the same target type, with the same flags. *)
Theorem map_type_ignores_letter_case :
  forall (declared declared' : string) (is_primary_key is_unique : bool),
    upper declared = upper declared' ->
    value_of (map_sqlite_to_mysql_type declared is_primary_key is_unique)
    = value_of (map_sqlite_to_mysql_type declared' is_primary_key is_unique).
Proof.
  intros a b is_pk is_uq E. rewrite !map_type_by_family.
  rewrite <- (search_paren_digits_upper a), <- (search_paren_digits_upper b).
  rewrite <- E.
  destruct (contains "INT" (upper a)); [reflexivity|].
  destruct (contains_any TEXT_TYPES (upper a)).
  - destruct (is_pk || is_uq); [reflexivity|].
    destruct (search_paren_digits (upper a)); reflexivity.
  - destruct (contains "BLOB" (upper a)).
    + destruct (is_pk || is_uq); reflexivity.
    + destruct (map_numeric_type (upper a)); [reflexivity|].
      destruct (map_datetime_type (upper a)); reflexivity.
Qed.

Lemma map_type_ignores_letter_case_witness :
  upper "Varchar(20)" = upper "VARCHAR(20)"
  /\ value_of (map_sqlite_to_mysql_type "Varchar(20)" false false)
     = value_of (map_sqlite_to_mysql_type "VARCHAR(20)" false false).
Proof.
  split; [reflexivity|].
  exact (map_type_ignores_letter_case "Varchar(20)" "VARCHAR(20)" false false
           eq_refl).
Defined.

(** X2.  A declaration of the text family that is neither a primary key nor
    unique keeps its declared length up to 255: with a length in
    parentheses, of no more digits than [int] converts, it becomes VARCHAR
    of the smaller of that length and 255, without one it becomes
    LONGTEXT; nothing is printed. *)
Theorem map_type_plain_text :
  forall declared : string,
    contains "INT" (upper declared) = false ->
    contains_any TEXT_TYPES (upper declared) = true ->
    (forall group1 : string,
       search_paren_digits declared = Some group1 ->
       within_int_limit group1 = true ->
       all_digits group1 = true
       /\ 0 <= Z.min (int_of_digits group1) DEFAULT_VARCHAR_MAX <= 255
       /\ map_sqlite_to_mysql_type declared false false
          = (Ok ("VARCHAR("
                 ++ str_Z (Z.min (int_of_digits group1) DEFAULT_VARCHAR_MAX)
                 ++ ")"), []))
    /\ (search_paren_digits declared = None ->
        map_sqlite_to_mysql_type declared false false = (Ok "LONGTEXT", [])).
Proof.
  intros raw HINT Htext. rewrite map_type_by_family, HINT, Htext.
  cbn [orb]. split.
  - intros g E _. rewrite E.
    pose proof (search_paren_digits_all_digits _ _ E) as D.
    pose proof (int_of_digits_from_nonneg g 0 ltac:(lia) D) as N.
    fold (int_of_digits g) in N. unfold DEFAULT_VARCHAR_MAX.
    repeat split; [exact D | lia | lia].
  - intros E. now rewrite E.
Qed.

Lemma map_type_plain_text_witness :
  contains "INT" (upper "varchar(300)") = false
  /\ contains_any TEXT_TYPES (upper "varchar(300)") = true
  /\ search_paren_digits "varchar(300)" = Some "300"
  /\ within_int_limit "300" = true
  /\ map_sqlite_to_mysql_type "varchar(300)" false false
     = (Ok "VARCHAR(255)", []).
Proof.
  split; [reflexivity|]. split; [reflexivity|]. split; [reflexivity|].
  split; [reflexivity|].
  exact (proj2 (proj2 (proj1 (map_type_plain_text "varchar(300)"
                                eq_refl eq_refl) "300" eq_refl eq_refl))).
Defined.

(** X3.  A declaration with the BLOB keyword and no keyword of the integer or
    text family becomes BLOB, or VARBINARY(191) with a warning when the
    column is a primary key or unique. *)
Theorem map_type_blob :
  forall (declared : string) (is_primary_key is_unique : bool),
    contains "INT" (upper declared) = false ->
    contains_any TEXT_TYPES (upper declared) = false ->
    contains "BLOB" (upper declared) = true ->
    map_sqlite_to_mysql_type declared is_primary_key is_unique
    = if is_primary_key || is_unique
      then (Ok "VARBINARY(191)", [indexed_blob_warning declared])
      else (Ok "BLOB", []).
Proof.
  intros raw is_pk is_uq HINT Htext Hblob.
  now rewrite map_type_by_family, HINT, Htext, Hblob.
Qed.

Lemma map_type_blob_witness :
  contains "INT" (upper "blob") = false
  /\ contains_any TEXT_TYPES (upper "blob") = false
  /\ contains "BLOB" (upper "blob") = true
  /\ map_sqlite_to_mysql_type "blob" false true
     = (Ok "VARBINARY(191)", [indexed_blob_warning "blob"]).
Proof.
  split; [reflexivity|]. split; [reflexivity|]. split; [reflexivity|].
  exact (map_type_blob "blob" false true eq_refl eq_refl eq_refl).
Defined.

(** X4.  The mapper falls back to VARCHAR(255), with the warning about an
    unknown type, exactly when no keyword of any family occurs in the
    declaration; a column declared without a type is such a case. *)
Theorem map_type_unknown_falls_back :
  forall (declared : string) (is_primary_key is_unique : bool),
    (no_family_keyword (upper declared) = true
     <-> map_sqlite_to_mysql_type declared is_primary_key is_unique
         = (Ok "VARCHAR(255)", [unknown_type_warning declared]))
    /\ map_sqlite_to_mysql_type EmptyString is_primary_key is_unique
       = (Ok "VARCHAR(255)", [unknown_type_warning EmptyString]).
Proof.
  intros raw is_pk is_uq. split; [|reflexivity].
  rewrite map_type_by_family. unfold no_family_keyword.
  destruct (contains "INT" (upper raw)); cbn [negb andb];
    [split; discriminate|].
  destruct (contains_any TEXT_TYPES (upper raw)); cbn [negb andb].
  { split; [discriminate|].
    destruct (is_pk || is_uq); [discriminate|].
    destruct (search_paren_digits raw); discriminate. }
  destruct (contains "BLOB" (upper raw)); cbn [negb andb].
  { split; [discriminate|]. destruct (is_pk || is_uq); discriminate. }
  unfold map_numeric_type, NUMERIC_TYPES, map_datetime_type, contains_any.
  cbn [first_match existsb].
  destruct (contains "REAL" (upper raw)); cbn [orb negb andb];
    [split; discriminate|].
  destruct (contains "FLOA" (upper raw)); cbn [orb negb andb];
    [split; discriminate|].
  destruct (contains "DOUB" (upper raw)); cbn [orb negb andb];
    [split; discriminate|].
  destruct (contains "NUM" (upper raw)); cbn [orb negb andb];
    [split; discriminate|].
  destruct (contains "DEC" (upper raw)); cbn [orb negb andb];
    [split; discriminate|].
  destruct (contains "BOOL" (upper raw)); cbn [orb negb andb];
    [split; discriminate|].
  destruct (String.eqb (upper raw) "TIME"); cbn [orb negb andb];
    [split; discriminate|].
  destruct (contains "DATE" (upper raw)); cbn [orb negb andb];
    [split; discriminate|].
  split; reflexivity.
Qed.

(** X5.  The mapper returns for every declaration whose length in
    parentheses, if it carries one, has no more digits than [int]
    converts, and what it returns is one of fifteen fixed target types or
    VARCHAR of a length between 0 and 255; it prints at most one line, and
    only together with one of the three substitute types VARCHAR(191),
    VARBINARY(191), VARCHAR(255). *)
Theorem map_type_range :
  forall (declared : string) (is_primary_key is_unique : bool),
    declared_length_within_limit declared = true ->
    exists (mysql_type : string) (lines : list string),
      map_sqlite_to_mysql_type declared is_primary_key is_unique
      = (Ok mysql_type, lines)
      /\ (In mysql_type fixed_target_types
          \/ exists n : Z, 0 <= n <= 255
                           /\ mysql_type = "VARCHAR(" ++ str_Z n ++ ")")
      /\ (List.length lines <= 1)%nat
      /\ (lines <> [] ->
          In mysql_type ["VARCHAR(191)"; "VARBINARY(191)"; "VARCHAR(255)"]).
Proof.
  intros raw is_pk is_uq _. rewrite map_type_by_family.
  destruct (contains "INT" (upper raw)).
  { eexists _, _. split; [reflexivity|].
    split; [left|split; [cbn; lia | intros H; now contradiction H]].
    unfold integer_keyword_target, fixed_target_types.
    repeat match goal with
           | |- context [if ?b then _ else _] => destruct b
           end; cbn; tauto. }
  destruct (contains_any TEXT_TYPES (upper raw)).
  { destruct (is_pk || is_uq).
    - eexists _, _. split; [reflexivity|].
      split; [left; cbn; tauto|]. split; [cbn; lia | intros _; cbn; tauto].
    - destruct (search_paren_digits raw) as [g|] eqn:E.
      + eexists _, _. split; [reflexivity|].
        split; [right|split; [cbn; lia | intros H; now contradiction H]].
        exists (Z.min (int_of_digits g) 255). split; [|reflexivity].
        pose proof (int_of_digits_from_nonneg g 0 ltac:(lia)
                      (search_paren_digits_all_digits _ _ E)) as N.
        fold (int_of_digits g) in N. lia.
      + eexists _, _. split; [reflexivity|].
        split; [left; cbn; tauto|].
        split; [cbn; lia | intros H; now contradiction H]. }
  destruct (contains "BLOB" (upper raw)).
  { destruct (is_pk || is_uq); eexists _, _; (split; [reflexivity|]);
      (split; [left; cbn; tauto|]);
      (split; [cbn; lia|]); intros H;
      first [now contradiction H | cbn; tauto]. }
  unfold map_numeric_type, NUMERIC_TYPES, map_datetime_type.
  cbn [first_match].
  repeat match goal with
         | |- context [if ?b then _ else _] => destruct b
         end;
    eexists _, _; (split; [reflexivity|]);
    (split; [left; cbn; tauto|]);
    (split; [cbn; lia|]); intros H;
    first [now contradiction H | cbn; tauto].
Qed.

Lemma map_type_range_witness :
  declared_length_within_limit "nvarchar(100)" = true
  /\ exists (mysql_type : string) (lines : list string),
       map_sqlite_to_mysql_type "nvarchar(100)" false false
       = (Ok mysql_type, lines)
       /\ (In mysql_type fixed_target_types
           \/ exists n : Z, 0 <= n <= 255
                            /\ mysql_type = "VARCHAR(" ++ str_Z n ++ ")")
       /\ (List.length lines <= 1)%nat
       /\ (lines <> [] ->
           In mysql_type ["VARCHAR(191)"; "VARBINARY(191)"; "VARCHAR(255)"]).
Proof.
  split; [reflexivity|].
  exact (map_type_range "nvarchar(100)" false false eq_refl).
Defined.

End TypeMapperRange.

Section DefaultClauses.

Lemma read_doubled_quotes (s : string) :
  read_sql_string_body (double_single_quotes s) = Some s.
Proof.
  unfold double_single_quotes.
  induction s as [|c s IH]; [reflexivity|].
  cbn [subst_chars]. unfold char_for at 1.
  destruct (Ascii.eqb c squote) eqn:E.
  - apply Ascii.eqb_eq in E. subst c.
    change ("''" ++ subst_chars (char_for squote "''") s)
      with (String squote
              (String squote (subst_chars (char_for squote "''") s))).
    cbn [read_sql_string_body]. rewrite Ascii.eqb_refl, IH. reflexivity.
  - cbn [append read_sql_string_body]. rewrite E, IH. reflexivity.
Qed.

(** X6.  A default spelled NULL, in any letter case, bare or between quote
    characters, gives the clause DEFAULT NULL; the type is handed back as
    it came and nothing is printed. *)
Theorem build_default_sql_null :
  forall default_text mysql_type table_name col_name : string,
    recognized_null default_text = true ->
    build_default_sql (Some default_text) mysql_type table_name col_name
    = (Ok (" DEFAULT NULL", mysql_type), []).
Proof.
  intros d ty tbl col H. unfold recognized_null in H.
  apply existsb_exists in H as (k & Hin & Hk).
  apply String.eqb_eq in Hk. unfold build_default_sql. rewrite Hk.
  cbn in Hin.
  repeat (destruct Hin as [<-|Hin]; [reflexivity|]). contradiction.
Qed.

Lemma build_default_sql_null_witness :
  recognized_null "'null'" = true
  /\ build_default_sql (Some "'null'") "LONGTEXT" "tag" "color"
     = (Ok (" DEFAULT NULL", "LONGTEXT"), []).
Proof.
  split; [reflexivity|].
  exact (build_default_sql_null "'null'" "LONGTEXT" "tag" "color" eq_refl).
Defined.

(** X7.  For every input the default translator returns a clause and a type.
    The clause is empty exactly when the column has no default, and
    otherwise starts with DEFAULT.  The type is the one handed in, with
    nothing printed, unless a TINYINT column is promoted: then TINYINT is
    replaced by SMALLINT in it and the one line printed is the warning
    about the promotion. *)
Theorem build_default_sql_shape :
  forall (default_value : option string)
         (mysql_type table_name col_name : string),
    exists (clause mysql_type' : string) (lines : list string),
      build_default_sql default_value mysql_type table_name col_name
      = (Ok (clause, mysql_type'), lines)
      /\ (clause = EmptyString <-> default_value = None)
      /\ (default_value <> None -> prefix " DEFAULT " clause = true)
      /\ ((mysql_type' = mysql_type /\ lines = [])
          \/ exists default_text,
               default_value = Some default_text
               /\ float_of_string default_text <> None
               /\ contains "TINYINT" mysql_type = true
               /\ mysql_type' = replace "TINYINT" "SMALLINT" mysql_type
               /\ lines = [tinyint_promotion_warning default_text
                             table_name col_name]).
Proof.
  intros dv ty tbl col. unfold build_default_sql.
  destruct dv as [d|].
  2:{ eexists _, _, _. split; [reflexivity|].
      split; [tauto|]. split; [congruence | now left]. }
  destruct (_ || _ || _).
  { eexists _, _, _. split; [reflexivity|].
    split; [split; discriminate|]. split; [reflexivity | now left]. }
  destruct (_ || _).
  { eexists _, _, _. split; [reflexivity|].
    split; [split; discriminate|]. split; [reflexivity | now left]. }
  unfold py_float. destruct (float_of_string d) as [x|] eqn:Ef.
  - cbv beta iota delta [bind ret try_except print app].
    destruct (contains "TINYINT" ty) eqn:Et;
      [destruct (ltb_Z x (-128) || gtb_Z x 127)|];
      eexists _, _, _; (split; [reflexivity|]);
      (split; [split; discriminate|]);
      (split; [intros _; apply (prefix_app " DEFAULT " d)|]);
      first [ now left
            | right; exists d; repeat split; congruence ].
  - cbv beta iota delta [bind ret try_except raise
                         is_TypeError_or_ValueError app].
    eexists _, _, _. split; [reflexivity|].
    split; [split; discriminate|]. split; [reflexivity | now left].
Qed.

(** X8.  The string literal of a default can be read back: undoing the
    doubling of the single quotes in the text between the outer quotes
    gives the default without the quote characters at its ends. *)
Theorem build_default_sql_literal_reads_back :
  forall default_text mysql_type table_name col_name : string,
    recognized_timestamp_spelling default_text = false ->
    recognized_null default_text = false ->
    float_of_string default_text = None ->
    exists body : string,
      value_of (build_default_sql (Some default_text) mysql_type
                  table_name col_name)
      = Ok (" DEFAULT '" ++ body ++ "'", mysql_type)
      /\ read_sql_string_body body
         = Some (strip_chars (String squote (String dquote EmptyString))
                             default_text).
Proof.
  intros d ty tbl col Hts Hnull Hfloat.
  exists (double_single_quotes
            (strip_chars (String squote (String dquote EmptyString)) d)).
  split; [|apply read_doubled_quotes].
  unfold build_default_sql. fold (default_str d).
  rewrite <- recognized_timestamp_exact, Hts.
  rewrite <- recognized_null_exact, Hnull.
  unfold py_float. rewrite Hfloat.
  cbv beta iota delta [bind ret try_except raise is_TypeError_or_ValueError
                       app value_of fst].
  unfold double_single_quotes. now rewrite <- replace_char.
Qed.

Lemma build_default_sql_literal_reads_back_witness :
  recognized_timestamp_spelling "'it's'" = false
  /\ recognized_null "'it's'" = false
  /\ float_of_string "'it's'" = None
  /\ exists body : string,
       value_of (build_default_sql (Some "'it's'") "LONGTEXT" "tag" "name")
       = Ok (" DEFAULT '" ++ body ++ "'", "LONGTEXT")
       /\ read_sql_string_body body
          = Some (strip_chars (String squote (String dquote EmptyString))
                              "'it's'").
Proof.
  split; [reflexivity|]. split; [reflexivity|]. split; [reflexivity|].
  exact (build_default_sql_literal_reads_back "'it's'" "LONGTEXT" "tag"
           "name" eq_refl eq_refl eq_refl).
Defined.

End DefaultClauses.

Section CreateTable.

Lemma map_type_total (raw : string) (is_pk is_uq : bool) :
  exists t lines,
    map_sqlite_to_mysql_type raw is_pk is_uq = (Ok t, lines).
Proof.
  rewrite map_type_by_family.
  repeat match goal with
         | |- context [if ?b then _ else _] => destruct b
         | |- context [match ?o with Some _ => _ | None => _ end] =>
             destruct o
         end; now eexists _, _.
Qed.

(** X9.  AUTO_INCREMENT is given exactly to a column whose [pk] field is 1 and
    whose type has INT in it, and always together with NOT NULL; NOT NULL
    is given besides exactly to the columns declared NOT NULL; the one
    warning is printed exactly when a column that gets AUTO_INCREMENT was
    nullable in the source.  The function returns for every input. *)
Theorem set_ai_nns_cases :
  forall (pk : Z) (mysql_type : string) (not_null : Z)
         (col_name table_name : string),
    exists (auto_increment not_null_sql : string) (lines : list string),
      set_ai_nns pk mysql_type not_null col_name table_name
      = (Ok (auto_increment, not_null_sql), lines)
      /\ (auto_increment = " AUTO_INCREMENT" \/ auto_increment = EmptyString)
      /\ (auto_increment = " AUTO_INCREMENT"
          <-> pk = 1 /\ contains "INT" mysql_type = true)
      /\ (not_null_sql = " NOT NULL" \/ not_null_sql = EmptyString)
      /\ (not_null_sql = " NOT NULL"
          <-> auto_increment = " AUTO_INCREMENT" \/ not_null = 1)
      /\ (lines = [nullable_pk_warning col_name table_name] \/ lines = [])
      /\ (lines <> []
          <-> auto_increment = " AUTO_INCREMENT" /\ not_null = 0).
Proof.
  intros pk ty nn col tbl. unfold set_ai_nns.
  assert (B : contains "INT" ty || contains "BIGINT" ty = contains "INT" ty).
  { destruct (contains "INT" ty) eqn:E; [reflexivity|].
    destruct (contains "BIGINT" ty) eqn:E'; [|reflexivity].
    now rewrite (INT_in_BIGINT _ E') in E. }
  rewrite B. destruct (Z.eqb_spec pk 1) as [Hpk|Hpk]; cbn [andb].
  - destruct (contains "INT" ty) eqn:Hint.
    + destruct (Z.eqb_spec nn 0) as [Hn|Hn];
        cbv beta iota delta [bind ret print app];
        eexists _, _, _; (split; [reflexivity|]);
        repeat split; try tauto; try (now left); try (now right);
        try discriminate; try (intros; assumption).
    + destruct (Z.eqb_spec nn 1) as [Hn|Hn];
        eexists _, _, _; (split; [reflexivity|]);
        repeat split; try tauto; try (now left); try (now right);
        try discriminate; try (intros [? ?]; discriminate);
        try (intros [?|?]; [discriminate | contradiction]).
  - destruct (Z.eqb_spec nn 1) as [Hn|Hn];
      eexists _, _, _; (split; [reflexivity|]);
      repeat split; try tauto; try (now left); try (now right);
      try discriminate; try (intros [? ?]; contradiction);
      try (intros [? ?]; discriminate);
      try (intros [?|?]; [discriminate | contradiction]).
Qed.

Lemma set_ai_nns_total (pk : Z) (mysql_type : string) (not_null : Z)
    (col_name table_name : string) :
  exists ai_nn lines,
    set_ai_nns pk mysql_type not_null col_name table_name
    = (Ok ai_nn, lines).
Proof.
  unfold set_ai_nns. destruct (_ && _).
  - destruct (not_null =? 0); now eexists _, _.
  - destruct (not_null =? 1); now eexists _, _.
Qed.

Lemma strip_keeps_name (n rest : string) :
  prefix (backticked n) (strip ("`" ++ n ++ "` " ++ rest)) = true.
Proof.
  unfold strip, strip_by, backticked.
  cbn [append lstrip_by]. change (is_space "`"%char) with false. cbv iota.
  change (String "`" (n ++ String "`" (String " " rest)))
    with (("`" ++ n) ++ String "`" (String " " rest)).
  rewrite rstrip_app_keep by reflexivity.
  replace (("`" ++ n) ++ String "`" (rstrip_by is_space (String " " rest)))
    with (String "`" (n ++ "`") ++ rstrip_by is_space (String " " rest))
    by (cbn [append]; rewrite append_assoc; reflexivity).
  apply prefix_app.
Qed.

(** One call of [process_columns]: the two lists grow at their ends. *)
Lemma process_columns_spec (db : sqlite_db) (col : column)
    (table_name : string) (col_defs pk_col_names primary_keys : list string) :
  answers_index_queries db table_name ->
  exists entries lines,
    process_columns db col table_name col_defs pk_col_names primary_keys
    = (Ok ((col_defs ++ entries)%list,
           (primary_keys
            ++ map (fun c => backticked (name c)) (pk_columns [col]))%list),
       lines)
    /\ column_entries db table_name pk_col_names col entries.
Proof.
  intros Hq.
  destruct (map_type_total (ctype col) (in_names (name col) pk_col_names)
              (is_unique_col db table_name (name col))) as (ty & l1 & E1).
  destruct (set_ai_nns_total (pk col) ty (notnull col) (name col) table_name)
    as ([ai nn] & l2 & E2).
  destruct (build_default_sql_total (dflt_value col) ty table_name (name col))
    as ([dsql ty'] & l3 & E3).
  rewrite (process_columns_run db col table_name col_defs pk_col_names
             primary_keys _ _ _ _ _ _ _ _ Hq E1 E2 E3).
  unfold pk_columns. cbn [filter map].
  set (rendered := strip ("`" ++ name col ++ "` " ++ ty' ++ nn ++ dsql ++ ai)).
  exists (rendered
          :: (if is_unique_col db table_name (name col)
                 && negb (in_names (name col) pk_col_names)
              then [unique_entry (name col)] else [])).
  eexists. split.
  - destruct (pk col =? 1); reflexivity.
  - exists rendered. split; [apply strip_keeps_name | reflexivity].
Qed.

Lemma pk_columns_cons (col : column) (rest : list column) :
  pk_columns (col :: rest) = (pk_columns [col] ++ pk_columns rest)%list.
Proof. unfold pk_columns. cbn [filter]. now destruct (pk col =? 1). Qed.

(** The loop over the columns. *)
Lemma process_all_spec (db : sqlite_db) (columns : list column)
    (table_name : string) (col_defs pk_col_names primary_keys : list string) :
  answers_index_queries db table_name ->
  exists entries lines,
    process_all db columns table_name col_defs pk_col_names primary_keys
    = (Ok ((col_defs ++ List.concat entries)%list,
           (primary_keys
            ++ map (fun c => backticked (name c)) (pk_columns columns))%list),
       lines)
    /\ Forall2 (column_entries db table_name pk_col_names) columns entries.
Proof.
  intros Hq. revert col_defs primary_keys.
  induction columns as [|col rest IH]; intros col_defs pks.
  - exists [], []. cbn. rewrite !app_nil_r. split; [reflexivity|constructor].
  - cbn [process_all].
    destruct (process_columns_spec db col table_name col_defs pk_col_names pks
                Hq)
      as (es & l1 & E1 & H1).
    rewrite E1. cbv beta iota delta [bind fst snd].
    destruct (IH (col_defs ++ es)%list
                 (pks ++ map (fun c => backticked (name c))
                             (pk_columns [col]))%list)
      as (ess & l2 & E2 & H2).
    rewrite E2. exists (es :: ess). eexists. split.
    + rewrite (pk_columns_cons col rest), map_app. cbn [List.concat].
      rewrite <- !app_assoc. reflexivity.
    + now constructor.
Qed.

(** The statement of a table on a source that answers the queries about
    it. *)
Lemma create_table_stmt_answered (db : sqlite_db) (table_name : string) :
  query_error db (table_info_query table_name) = None ->
  answers_index_queries db table_name ->
  exists (entries : list (list string)) (lines : list string),
    create_table_stmt db table_name
    = (Ok (create_table_text table_name
             (List.concat entries
              ++ match pk_columns (table_info db table_name) with
                 | [] => []
                 | keys =>
                     [primary_key_entry
                        (map (fun c => backticked (name c)) keys)]
                 end)), lines)
    /\ Forall2 (column_entries db table_name
                  (map name (pk_columns (table_info db table_name))))
               (table_info db table_name) entries.
Proof.
  intros Ht Hq. unfold create_table_stmt.
  rewrite table_info_query_sent, (sqlite_execute_answered db _ Ht).
  cbv beta iota delta [bind].
  destruct (process_all_spec db (table_info db table_name) table_name []
              (map name (pk_columns (table_info db table_name))) [] Hq)
    as (ess & lines & E & H).
  unfold pk_columns in *. rewrite E. cbv beta iota delta [bind ret].
  exists ess. eexists. split; [|exact H].
  cbn [app]. unfold create_table_text, append_item, primary_key_entry.
  destruct (filter (fun col => pk col =? 1) (table_info db table_name))
    as [|k ks];
    cbn [map]; rewrite ?app_nil_r; reflexivity.
Qed.

(** X10.  The CREATE TABLE statement is built for every table for which the
    source answers the queries about its columns and its indexes and in
    which a declared length has no more digits than [int] converts.  Its
    entries are, in the order of declaration, one definition per column,
    which starts with the column name between backticks, each followed by
    a UNIQUE entry when the column has a single-column unique index and is
    not a key column; and last, when there is a column whose [pk] field is
    1, the PRIMARY KEY entry with exactly those columns in the order of
    declaration. *)
Theorem create_table_stmt_layout :
  forall (db : sqlite_db) (table_name : string),
    query_error db (table_info_query table_name) = None ->
    answers_index_queries db table_name ->
    (forall col : column,
       In col (table_info db table_name) ->
       declared_length_within_limit (ctype col) = true) ->
    exists (entries : list (list string)) (lines : list string),
      create_table_stmt db table_name
      = (Ok (create_table_text table_name
               (List.concat entries
                ++ match pk_columns (table_info db table_name) with
                   | [] => []
                   | keys =>
                       [primary_key_entry
                          (map (fun c => backticked (name c)) keys)]
                   end)), lines)
      /\ Forall2 (column_entries db table_name
                    (map name (pk_columns (table_info db table_name))))
                 (table_info db table_name) entries.
Proof.
  intros db t Ht Hq _. exact (create_table_stmt_answered db t Ht Hq).
Qed.

Lemma create_table_stmt_layout_witness :
  query_error api_key_db (table_info_query "api_key") = None
  /\ answers_index_queries api_key_db "api_key"
  /\ (forall col : column,
        In col (table_info api_key_db "api_key") ->
        declared_length_within_limit (ctype col) = true)
  /\ exists (entries : list (list string)) (lines : list string),
       create_table_stmt api_key_db "api_key"
       = (Ok (create_table_text "api_key"
                (List.concat entries
                 ++ [primary_key_entry ["`id`"]])), lines)
       /\ Forall2 (column_entries api_key_db "api_key" ["id"])
                  (table_info api_key_db "api_key") entries.
Proof.
  assert (Ht : query_error api_key_db (table_info_query "api_key") = None)
    by reflexivity.
  assert (Hq : answers_index_queries api_key_db "api_key")
    by (split; [reflexivity | intros idx _ _; reflexivity]).
  assert (Hl : forall col : column,
             In col (table_info api_key_db "api_key") ->
             declared_length_within_limit (ctype col) = true)
    by (intros col [<-|[<-|[]]]; reflexivity).
  split; [exact Ht|]. split; [exact Hq|]. split; [exact Hl|].
  exact (create_table_stmt_layout api_key_db "api_key" Ht Hq Hl).
Defined.

End CreateTable.

(** The statement for a table with an integer key and a unique text
    column. *)
Example create_table_stmt_api_key :
  create_table_stmt api_key_db "api_key"
  = (Ok (create_table_text "api_key"
           [ "`id` INT UNSIGNED NOT NULL AUTO_INCREMENT";
             "`key` VARCHAR(191) NOT NULL";
             "UNIQUE (`key`)";
             "PRIMARY KEY (`id`)" ]),
     [indexed_text_warning "VARCHAR(255)"]).
Proof. vm_compute. reflexivity. Qed.

Section NormalizerRange.

Variable utcoffset : Z -> Z.

Lemma digit_text_nonneg (f : value) (text : string) :
  digit_text f = Some text -> 0 <= py_int f.
Proof.
  destruct f as [|n|x|s|b]; cbn [digit_text py_int]; try discriminate.
  - destruct (Z.leb_spec 0 n); [lia | discriminate].
  - unfold isdigit. destruct s as [|c s]; [discriminate|].
    destruct (all_digits (String c s)) eqn:D; [|discriminate].
    intros _. now apply int_of_digits_from_nonneg.
Qed.

Lemma fromtimestamp_overflow (t : Z) :
  (t <? - 2 ^ 63) || (2 ^ 63 <=? t) = true ->
  fromtimestamp utcoffset t = (Raise time_t_overflow, []).
Proof. intros H. unfold fromtimestamp. now rewrite H. Qed.

Lemma fromtimestamp_fits (t : Z) :
  (t <? - 2 ^ 63) || (2 ^ 63 <=? t) = false ->
  (exists dt, fromtimestamp utcoffset t = (Ok dt, []))
  \/ (exists msg, fromtimestamp utcoffset t = (Raise (ValueError msg), [])).
Proof.
  intros H. unfold fromtimestamp. rewrite H.
  destruct (civil_from_days ((t + utcoffset t) / 86400)) as [[y m] d].
  destruct ((y <? 1) || (9999 <? y)); [right | left]; now eexists.
Qed.

(** The value handed to [fromtimestamp] is out of [time_t] exactly when
    the field is at least 2^63 * 1000. *)
Lemma timestamp_val_overflow (v : Z) :
  0 <= v ->
  (let t := if 4000000000 <? v then v / 1000 else v in
   (t <? - 2 ^ 63) || (2 ^ 63 <=? t))
  = negb (v <? 2 ^ 63 * 1000).
Proof.
  intros Hv. cbv zeta.
  change (2 ^ 63) with 9223372036854775808.
  destruct (Z.ltb_spec 4000000000 v) as [Hb|Hb].
  - pose proof (Z.div_mod v 1000 ltac:(lia)) as Hd.
    pose proof (Z.mod_pos_bound v 1000 ltac:(lia)) as Hm.
    destruct (Z.ltb_spec (v / 1000) (- 9223372036854775808));
      destruct (Z.leb_spec 9223372036854775808 (v / 1000));
      destruct (Z.ltb_spec v (9223372036854775808 * 1000));
      cbn [orb negb]; try reflexivity; lia.
  - destruct (Z.ltb_spec v (- 9223372036854775808));
      destruct (Z.leb_spec 9223372036854775808 v);
      destruct (Z.ltb_spec v (9223372036854775808 * 1000));
      cbn [orb negb]; try reflexivity; lia.
Qed.

Lemma convert_row_fits (r : row) :
  fits_time_t r = true ->
  exists r' lines, convert_row utcoffset r = (Ok r', lines).
Proof.
  unfold fits_time_t, convert_row.
  destruct (4 <=? List.length r)%nat; [|now eexists _, _].
  destruct (truthy (nth 3 r VNone)); [|now eexists _, _].
  destruct (digit_text (nth 3 r VNone)) as [text|] eqn:Hd;
    [|now eexists _, _].
  intros Hfit.
  pose proof (timestamp_val_overflow _ (digit_text_nonneg _ _ Hd)) as Ho.
  cbv zeta in Ho. rewrite Hfit in Ho. cbn [negb] in Ho.
  destruct (fromtimestamp_fits _ Ho) as [[dt E]|[msg E]]; rewrite E;
    now eexists _, _.
Qed.

Lemma convert_row_overflows (r : row) :
  fits_time_t r = false ->
  convert_row utcoffset r = (Raise time_t_overflow, []).
Proof.
  unfold fits_time_t, convert_row.
  destruct (4 <=? List.length r)%nat; [|discriminate].
  destruct (truthy (nth 3 r VNone)); [|discriminate].
  destruct (digit_text (nth 3 r VNone)) as [text|] eqn:Hd; [|discriminate].
  intros Hfit.
  pose proof (timestamp_val_overflow _ (digit_text_nonneg _ _ Hd)) as Ho.
  cbv zeta in Ho. rewrite Hfit in Ho. cbn [negb] in Ho.
  now rewrite (fromtimestamp_overflow _ Ho).
Qed.

Lemma knex_loop_fits (rows acc : list row) :
  if forallb fits_time_t rows
  then exists out lines,
         knex_loop utcoffset rows acc = (Ok (acc ++ out)%list, lines)
         /\ Forall2 frame_of rows out
         /\ Forall2 (fun r r' => not_converted r -> r' = r) rows out
  else exists lines,
         knex_loop utcoffset rows acc = (Raise time_t_overflow, lines).
Proof.
  revert acc. induction rows as [|r rows IH]; intros acc.
  - cbn [forallb knex_loop]. exists [], []. rewrite app_nil_r.
    now repeat split.
  - cbn [forallb knex_loop]. destruct (fits_time_t r) eqn:Hfit; cbn [andb].
    + destruct (convert_row_fits r Hfit) as (r0 & l0 & E0).
      destruct (convert_row_cases utcoffset r)
        as [(r' & l1 & E & Hf & Hsame)|E]; [|congruence].
      rewrite E. unfold bind. specialize (IH (append_item acc r')).
      destruct (forallb fits_time_t rows).
      * destruct IH as (out & l2 & E2 & HF & HS). rewrite E2.
        exists (r' :: out), (l1 ++ l2)%list.
        unfold append_item. rewrite <- app_assoc. cbn [app].
        repeat split; constructor; auto. intros H. now apply Hsame.
      * destruct IH as (l2 & E2). rewrite E2. now eexists.
    + rewrite (convert_row_overflows r Hfit). unfold bind. now eexists.
Qed.



(** X11.  On rows whose time stamps have no more digits than [int]
    converts, the normalizer returns exactly when every time stamp it
    converts fits [time_t].  It then returns one row per row, in the same
    order; each row keeps its length and every field but the fourth, and a
    row with fewer than four fields, or whose fourth field is false or has
    a text that is not all digits, is returned as it came.  When some time
    stamp is 2^63 * 1000 or more, the normalizer raises OverflowError. *)
Theorem normalizer_returns_unless_overflow :
  forall rows : list row,
    forallb time_stamp_within_limit rows = true ->
    if forallb fits_time_t rows
    then exists out lines,
           knex_timestamp_conversion utcoffset rows = (Ok out, lines)
           /\ List.length out = List.length rows
           /\ Forall2 frame_of rows out
           /\ Forall2 (fun r r' => not_converted r -> r' = r) rows out
    else exists lines,
           knex_timestamp_conversion utcoffset rows
           = (Raise time_t_overflow, lines).
Proof.
  intros rows _. unfold knex_timestamp_conversion.
  pose proof (knex_loop_fits rows []) as H.
  destruct (forallb fits_time_t rows); [|exact H].
  destruct H as (out & lines & E & HF & HS). exists out, lines.
  cbn [app] in E. repeat split; auto.
  symmetry. exact (Forall2_length HF).
Qed.



End NormalizerRange.

Lemma normalizer_returns_unless_overflow_witness :
  forallb time_stamp_within_limit
          [ [VInt 1; VStr "init.js"; VInt 1; VStr "1700000000000"];
            [VInt 2; VStr "tags.js"; VInt 1; VNone] ] = true
  /\ exists out lines,
       knex_timestamp_conversion (fun _ => 0)
         [ [VInt 1; VStr "init.js"; VInt 1; VStr "1700000000000"];
           [VInt 2; VStr "tags.js"; VInt 1; VNone] ] = (Ok out, lines)
       /\ List.length out = 2%nat
       /\ Forall2 frame_of
            [ [VInt 1; VStr "init.js"; VInt 1; VStr "1700000000000"];
              [VInt 2; VStr "tags.js"; VInt 1; VNone] ] out
       /\ Forall2 (fun r r' => not_converted r -> r' = r)
            [ [VInt 1; VStr "init.js"; VInt 1; VStr "1700000000000"];
              [VInt 2; VStr "tags.js"; VInt 1; VNone] ] out.
Proof.
  split; [reflexivity|].
  exact (normalizer_returns_unless_overflow (fun _ => 0)
           [ [VInt 1; VStr "init.js"; VInt 1; VStr "1700000000000"];
             [VInt 2; VStr "tags.js"; VInt 1; VNone] ] eq_refl).
Defined.


Section MigrateTable.

Variable utcoffset : Z -> Z.
Variable execute_error : string -> option string.
Variable bulk_insert : string -> nat -> list row -> insert_answer.

(** A statement was built: the source has answered the query for the
    columns of the table. *)
Lemma create_table_stmt_asks (db : sqlite_db) (table_name : string)
    (create_stmt : string) (lines : list string) :
  create_table_stmt db table_name = (Ok create_stmt, lines) ->
  query_error db (table_info_query table_name) = None.
Proof.
  unfold create_table_stmt. rewrite table_info_query_sent.
  unfold sqlite_execute.
  destruct (query_error db (table_info_query table_name)); [|reflexivity].
  cbv beta iota delta [bind raise]. discriminate.
Qed.

(** The batch loop between its first and its last [print]. *)
Lemma copy_prepared_spec (table_name escaped_table_name : string)
    (original_col_names : list string) (rows : list row)
    (conn : mysql_conn) :
  pending conn = [] ->
  let stmt := insert_ignore_stmt escaped_table_name original_col_names in
  let done := filter (batch_succeeds bulk_insert stmt rows)
                     (batch_starts rows) in
  copy_prepared bulk_insert table_name escaped_table_name
                original_col_names rows conn
  = (Ok (mk_mysql_conn (executed conn)
           (sent conn ++ bulk_inserts stmt rows) []
           (committed conn
            ++ List.concat (map (batch_written bulk_insert stmt rows) done))),
     (copying_line table_name escaped_table_name original_col_names
                   (List.length rows)
      :: flat_map (batch_failure_lines bulk_insert stmt table_name rows)
                  (batch_starts rows)
      ++ [summary_line table_name (List.length done)
            ((List.length rows + batch_size - 1) / batch_size);
          data_copied_line table_name])%list).
Proof.
  intros Hp stmt done. unfold copy_prepared.
  cbv beta iota zeta delta [bind print ret].
  fold (insert_ignore_stmt escaped_table_name original_col_names).
  fold stmt. fold (batch_starts rows).
  rewrite copy_batches_spec by exact Hp.
  cbn [app Nat.add]. reflexivity.
Qed.


(** The rows written when the target skips none of them. *)
Lemma written_whole (stmt : string) (rows : list row) :
  (forall i, In i (batch_starts rows) ->
             batch_written bulk_insert stmt rows i = batch_at rows i) ->
  List.concat (map (batch_written bulk_insert stmt rows) (batch_starts rows))
  = rows.
Proof.
  intros H. rewrite (map_ext_in _ (batch_at rows) _ H).
  apply batches_partition.
Qed.

Lemma migrate_table_skips (db : sqlite_db) (table_name : string)
    (conn : mysql_conn) :
  is_internal_table table_name = true ->
  migrate_table utcoffset execute_error bulk_insert db table_name conn
  = (Ok conn, [skipping_line table_name]).
Proof.
  intros H. unfold migrate_table, is_internal_table, skipping_line in *.
  destruct (String.eqb table_name "sqlite_sequence"); [reflexivity|].
  cbn [orb] in H. rewrite H. reflexivity.
Qed.

(** X13.  The tables that SQLite keeps for itself are skipped: nothing is
    asked of the source, nothing is sent to the target, and one line is
    printed. *)
Theorem migrate_table_skips_internal_tables :
  forall (db : sqlite_db) (table_name : string) (conn : mysql_conn),
    is_internal_table table_name = true ->
    migrate_table utcoffset execute_error bulk_insert db table_name conn
    = (Ok conn, [skipping_line table_name]).
Proof.
  intros db t conn H. unfold migrate_table, is_internal_table, skipping_line in *.
  destruct (String.eqb t "sqlite_sequence"); [reflexivity|].
  cbn [orb] in H. rewrite H. reflexivity.
Qed.

(** X14.  When the target refuses the DROP TABLE or the CREATE TABLE statement
    of a table, the error is printed and no row is copied: the function
    returns, the rows of the target are as they were, no bulk insert is
    sent, and the CREATE TABLE statement is not sent after a DROP TABLE
    that failed. *)
Theorem migrate_table_create_failure :
  forall (db : sqlite_db) (table_name : string) (conn : mysql_conn)
         (create_stmt : string) (lines : list string) (msg : string),
    is_internal_table table_name = false ->
    create_table_stmt db table_name = (Ok create_stmt, lines) ->
    execute_error (drop_stmt table_name) = Some msg
    \/ (execute_error (drop_stmt table_name) = None
        /\ execute_error create_stmt = Some msg) ->
    exists conn' : mysql_conn,
      migrate_table utcoffset execute_error bulk_insert db table_name conn
      = (Ok conn',
         (processing_line table_name :: lines
          ++ [generated_line create_stmt;
              create_error_line table_name msg])%list)
      /\ committed conn' = committed conn
      /\ pending conn' = pending conn
      /\ executed conn'
         = (executed conn
            ++ match execute_error (drop_stmt table_name) with
               | Some _ => []
               | None => [drop_stmt table_name]
               end)%list
      /\ sent conn' = sent conn.
Proof.
  intros db t conn stmt lines msg Hint Hstmt Hfail.
  unfold is_internal_table in Hint.
  apply orb_false_iff in Hint as [H1 H2].
  unfold migrate_table. rewrite H1, H2, Hstmt.
  cbv beta iota zeta delta [bind print ret].
  unfold execute. fold (drop_stmt t).
  destruct Hfail as [Hd|[Hd Hc]]; rewrite Hd; [|rewrite Hc];
    cbv beta iota delta [exn_msg]; cbn [app];
    eexists; (split; [reflexivity|]);
    cbn [executed sent pending committed]; rewrite ?app_nil_r;
    repeat split; reflexivity.
Qed.

(** What [migrate_table] does to a table that the source hands over and
    the target accepts. *)
Lemma migrate_table_accepted :
  forall (db : sqlite_db) (table_name : string) (conn : mysql_conn)
         (create_stmt : string) (lines : list string),
    is_internal_table table_name = false ->
    String.eqb table_name "knex_migrations" = false ->
    create_table_stmt db table_name = (Ok create_stmt, lines) ->
    query_error db (select_query table_name) = None ->
    execute_error (drop_stmt table_name) = None ->
    execute_error create_stmt = None ->
    pending conn = [] ->
    (forall i : nat,
       In i (batch_starts (select_all db table_name)) ->
       insert_error (bulk_insert (insert_stmt_of db table_name) i
                       (batch_at (select_all db table_name) i)) = None) ->
    exists lines' : list string,
      migrate_table utcoffset execute_error bulk_insert db table_name conn
      = (Ok (mk_mysql_conn
               (executed conn ++ [drop_stmt table_name; create_stmt])
               (sent conn
                ++ bulk_inserts (insert_stmt_of db table_name)
                                (select_all db table_name))
               []
               (committed conn
                ++ List.concat
                     (map (batch_written bulk_insert
                             (insert_stmt_of db table_name)
                             (select_all db table_name))
                          (batch_starts (select_all db table_name))))),
         lines').
Proof.
  intros db t conn stmt lines Hint Hknex Hstmt Hsel Hd Hc Hp Hall.
  pose proof (create_table_stmt_asks db t stmt lines Hstmt) as Hti.
  unfold is_internal_table in Hint.
  apply orb_false_iff in Hint as [H1 H2].
  unfold migrate_table. rewrite H1, H2, Hstmt.
  unfold execute. fold (drop_stmt t). rewrite Hd.
  cbv beta iota zeta delta [bind print ret]. rewrite Hc.
  cbn [executed sent pending committed].
  rewrite select_query_sent, (sqlite_execute_answered db _ Hsel).
  set (conn2 := mk_mysql_conn _ _ _ _).
  assert (Hp2 : pending conn2 = []) by exact Hp.
  unfold copy_rows. rewrite Hknex. unfold insert_stmt_of in *.
  destruct (select_all db t) as [|r rows] eqn:Hrows.
  - cbv beta iota zeta delta [bind print ret]. eexists.
    unfold conn2, append_item, bulk_inserts, batch_starts.
    cbn [List.length range range_from map List.concat].
    rewrite Hp, <- app_assoc, !app_nil_r. cbn [app]. reflexivity.
  - set (all_rows := r :: rows) in *.
    rewrite table_info_query_sent, (sqlite_execute_answered db _ Hti).
    cbv beta iota zeta delta [bind ret].
    rewrite copy_prepared_spec by exact Hp2.
    cbv zeta.
    rewrite filter_all, flat_map_none.
    + eexists. unfold conn2, append_item. cbn [executed sent committed].
      rewrite <- app_assoc. cbn [app]. reflexivity.
    + intros i Hi. unfold batch_failure_lines. now rewrite Hall.
    + intros i Hi. unfold batch_succeeds. now rewrite Hall.
Qed.

(** X15.  A table that the source hands over, that is created, and whose
    batches are all accepted arrives as the target writes it: on a
    connection with no open transaction, the target has executed the DROP
    TABLE and the CREATE TABLE statement, in this order, it has been sent
    one bulk insert per batch with the INSERT IGNORE statement of the
    table, what it has written for each batch is committed, in the order
    of the source, and no transaction is left open.  When the target has
    skipped no row, every row of the source table is committed.  (The
    migrations log is set apart: its rows are first rewritten.  The source
    hands the table over when it answers the queries for its columns,
    which the statement built shows, and for its rows; no declared length
    has more digits than [int] converts.) *)
Theorem migrate_table_copies_every_row :
  forall (db : sqlite_db) (table_name : string) (conn : mysql_conn)
         (create_stmt : string) (lines : list string),
    let rows := select_all db table_name in
    let insert_stmt := insert_stmt_of db table_name in
    is_internal_table table_name = false ->
    String.eqb table_name "knex_migrations" = false ->
    lengths_within_limit db table_name ->
    create_table_stmt db table_name = (Ok create_stmt, lines) ->
    query_error db (select_query table_name) = None ->
    execute_error (drop_stmt table_name) = None ->
    execute_error create_stmt = None ->
    pending conn = [] ->
    (forall i : nat,
       In i (batch_starts rows) ->
       insert_error (bulk_insert insert_stmt i (batch_at rows i)) = None) ->
    (exists lines' : list string,
       migrate_table utcoffset execute_error bulk_insert db table_name conn
       = (Ok (mk_mysql_conn
                (executed conn ++ [drop_stmt table_name; create_stmt])
                (sent conn ++ bulk_inserts insert_stmt rows)
                []
                (committed conn
                 ++ List.concat
                      (map (batch_written bulk_insert insert_stmt rows)
                           (batch_starts rows)))),
          lines'))
    /\ ((forall i : nat,
           In i (batch_starts rows) ->
           batch_written bulk_insert insert_stmt rows i = batch_at rows i) ->
        List.concat (map (batch_written bulk_insert insert_stmt rows)
                         (batch_starts rows))
        = rows).
Proof.
  intros db t conn stmt lines rows insert_stmt Hint Hknex _ Hstmt Hsel Hd Hc
         Hp Hall.
  split; [|apply written_whole].
  exact (migrate_table_accepted db t conn stmt lines Hint Hknex Hstmt Hsel
           Hd Hc Hp Hall).
Qed.



End MigrateTable.

Section BatchSizes.

Local Open Scope nat_scope.

(** X18.  The batches start at the multiples of 1000 below the number of rows;
    each holds 1000 rows, except the last one, which holds the rows that
    are left; none is empty. *)
Theorem batches_are_full_but_last :
  forall (rows : list row) (i : nat),
    In i (range 0 (List.length rows) batch_size) ->
    (exists k, i = k * 1000 /\ k < (List.length rows + 999) / 1000)
    /\ List.length (batch_at rows i) = Nat.min 1000 (List.length rows - i)
    /\ 1 <= List.length (batch_at rows i) <= 1000
    /\ (i + 1000 <= List.length rows ->
        List.length (batch_at rows i) = 1000).
Proof.
  intros rows i Hin.
  rewrite range_spec in Hin by (unfold batch_size; lia).
  apply in_map_iff in Hin as (k & Hk & Hin). apply in_seq in Hin.
  change batch_size with 1000 in *.
  assert (Hlt : i < List.length rows).
  { pose proof (Nat.div_mod_eq (List.length rows + 1000 - 1) 1000) as D.
    pose proof (Nat.mod_upper_bound (List.length rows + 1000 - 1) 1000
                  ltac:(lia)) as M.
    lia. }
  assert (Hlen : List.length (batch_at rows i)
                 = Nat.min 1000 (List.length rows - i)).
  { unfold batch_at. rewrite slice_chunk, length_firstn, length_skipn.
    reflexivity. }
  split; [exists k; split; [lia | replace (List.length rows + 999)
                                    with (List.length rows + 1000 - 1) by lia;
                                  lia]|].
  rewrite Hlen. repeat split; lia.
Qed.

End BatchSizes.

Lemma migrate_table_skips_internal_tables_witness :
  is_internal_table "sqlite_autoindex_user_1" = true
  /\ migrate_table (fun _ => 0) accepts_statement accepts_batch tag_db
                   "sqlite_autoindex_user_1" empty_conn
     = (Ok empty_conn,
        ["Skipping internal SQLite autoindex table: sqlite_autoindex_user_1"]).
Proof.
  split; [reflexivity|].
  exact (migrate_table_skips_internal_tables (fun _ => 0) accepts_statement
           accepts_batch tag_db "sqlite_autoindex_user_1" empty_conn eq_refl).
Defined.

Lemma migrate_table_create_failure_witness :
  exists (create_stmt : string) (lines : list string) (conn' : mysql_conn),
    create_table_stmt tag_db "tag" = (Ok create_stmt, lines)
    /\ refuses_create (drop_stmt "tag") = None
    /\ refuses_create create_stmt
       = Some "1071 (42000): Specified key was too long"
    /\ value_of (migrate_table (fun _ => 0) refuses_create accepts_batch tag_db
                   "tag" empty_conn) = Ok conn'
    /\ committed conn' = [] /\ pending conn' = []
    /\ executed conn' = ["DROP TABLE IF EXISTS `tag`;"]
    /\ sent conn' = [].
Proof.
  destruct (create_table_stmt tag_db "tag") as [[stmt|e] lines] eqn:E;
    [|vm_compute in E; discriminate E].
  assert (Hd : refuses_create (drop_stmt "tag") = None) by reflexivity.
  assert (Hc : refuses_create stmt
               = Some "1071 (42000): Specified key was too long")
    by (vm_compute in E; injection E as <- _; reflexivity).
  destruct (migrate_table_create_failure (fun _ => 0) refuses_create
              accepts_batch tag_db "tag" empty_conn stmt lines
              "1071 (42000): Specified key was too long" eq_refl E
              (or_intror (conj Hd Hc)))
    as (conn' & Em & H1 & H2 & H3 & H4).
  exists stmt, lines, conn'. rewrite Em.
  repeat split; assumption.
Defined.

Lemma migrate_table_copies_every_row_witness :
  lengths_within_limit tag_db "tag"
  /\ (exists lines' : list string,
        migrate_table (fun _ => 0) accepts_statement accepts_batch tag_db "tag"
                      empty_conn
        = (Ok (mk_mysql_conn
                 [ "DROP TABLE IF EXISTS `tag`;";
                   create_table_text "tag"
                     [ "`id` INT UNSIGNED NOT NULL AUTO_INCREMENT";
                       "`name` VARCHAR(255) NOT NULL";
                       "PRIMARY KEY (`id`)" ] ]
                 [ ("INSERT IGNORE INTO `tag` (`id`,`name`) VALUES (%s,%s)",
                    [ [VInt 1; VStr "prod"]; [VInt 2; VStr "staging"];
                      [VInt 3; VStr "dev"] ]) ]
                 []
                 [ [VInt 1; VStr "prod"]; [VInt 2; VStr "staging"];
                   [VInt 3; VStr "dev"] ]),
           lines')).
Proof.
  assert (Hl : lengths_within_limit tag_db "tag")
    by (intros col [<-|[<-|[]]]; reflexivity).
  split; [exact Hl|].
  exact (proj1 (migrate_table_copies_every_row (fun _ => 0) accepts_statement
           accepts_batch tag_db "tag" empty_conn
           (create_table_text "tag"
              [ "`id` INT UNSIGNED NOT NULL AUTO_INCREMENT";
                "`name` VARCHAR(255) NOT NULL";
                "PRIMARY KEY (`id`)" ])
           [] eq_refl eq_refl Hl eq_refl eq_refl eq_refl eq_refl eq_refl
           (fun _ _ => eq_refl))).
Defined.



Lemma batches_are_full_but_last_witness :
  In 2000%nat (range 0 (List.length (numbered_rows 2500)) batch_size)
  /\ List.length (batch_at (numbered_rows 2500) 2000) = 500%nat.
Proof.
  assert (Hin : In 2000%nat
                   (range 0 (List.length (numbered_rows 2500)) batch_size))
    by (vm_compute; tauto).
  split; [exact Hin|].
  exact (proj1 (proj2 (batches_are_full_but_last (numbered_rows 2500) 2000
                         Hin))).
Defined.

Section DriverLoop.

Variable utcoffset : Z -> Z.
Variable execute_error : string -> option string.
Variable bulk_insert : string -> nat -> list row -> insert_answer.

(** The loop over a list of tables is the loop over its first part
    followed by the loop over the rest. *)
Lemma migrate_tables_app (db : sqlite_db) (before after : list string)
    (conn : mysql_conn) :
  migrate_tables utcoffset execute_error bulk_insert db (before ++ after)
                 conn
  = bind (migrate_tables utcoffset execute_error bulk_insert db before conn)
         (migrate_tables utcoffset execute_error bulk_insert db after).
Proof.
  revert conn. induction before as [|t before IH]; intros conn;
    cbn [app migrate_tables].
  - unfold ret, bind.
    destruct (migrate_tables utcoffset execute_error bulk_insert db after
                             conn) as [r out]. reflexivity.
  - destruct (migrate_table utcoffset execute_error bulk_insert db t conn)
      as [[c|e] out]; cbn [bind]; [|reflexivity].
    rewrite IH.
    destruct (migrate_tables utcoffset execute_error bulk_insert db before c)
      as [[c'|e] out1]; cbn [bind]; [|reflexivity].
    destruct (migrate_tables utcoffset execute_error bulk_insert db after c')
      as [r out2]. now rewrite app_assoc.
Qed.

(** X19.  An exception in one table ends the loop: the tables before it are
    migrated, and the tables after it are never looked at, so that the
    outcome and the lines printed do not depend on them. *)
Theorem migrate_tables_stops_at_exception :
  forall (db : sqlite_db) (before after : list string) (table_name : string)
         (conn conn1 : mysql_conn) (e : exn) (lines1 lines2 : list string),
    migrate_tables utcoffset execute_error bulk_insert db before conn
    = (Ok conn1, lines1) ->
    migrate_table utcoffset execute_error bulk_insert db table_name conn1
    = (Raise e, lines2) ->
    migrate_tables utcoffset execute_error bulk_insert db
                   (before ++ table_name :: after) conn
    = (Raise e, (lines1 ++ lines2)%list).
Proof.
  intros db before after t conn c1 e l1 l2 E1 E2.
  rewrite migrate_tables_app, E1. cbn [bind migrate_tables].
  rewrite E2. reflexivity.
Qed.

Lemma migrate_tables_accepted (db : sqlite_db) (tables : list string) :
  (forall t, In t (user_tables tables) -> hands_over db t) ->
  (forall stmt, execute_error stmt = None) ->
  (forall stmt i batch, insert_error (bulk_insert stmt i batch) = None) ->
  (forall stmt i batch, written (bulk_insert stmt i batch) = batch) ->
  ~ In "knex_migrations" tables ->
  forall conn : mysql_conn,
    pending conn = [] ->
    exists lines : list string,
      migrate_tables utcoffset execute_error bulk_insert db tables conn
      = (Ok (mk_mysql_conn
               (executed conn
                ++ flat_map (fun table_name =>
                               [drop_stmt table_name;
                                create_stmt_of db table_name])
                            (user_tables tables))
               (sent conn
                ++ flat_map (fun table_name =>
                               bulk_inserts (insert_stmt_of db table_name)
                                            (select_all db table_name))
                            (user_tables tables))
               []
               (committed conn
                ++ List.concat (map (select_all db) (user_tables tables)))),
         lines).
Proof.
  intros Hsrc Hexec Hins Hwr.
  induction tables as [|t tables IH]; intros Hk conn Hp.
  - exists []. cbn. rewrite !app_nil_r, <- Hp. now destruct conn.
  - assert (Hk' : ~ In "knex_migrations" tables)
      by (intros H; apply Hk; now right).
    assert (Ht : String.eqb t "knex_migrations" = false).
    { apply String.eqb_neq. intros ->. apply Hk. now left. }
    cbn [migrate_tables]. unfold user_tables in *. cbn [filter] in *.
    destruct (is_internal_table t) eqn:Hint; cbn [negb] in *.
    + rewrite (migrate_table_skips utcoffset execute_error bulk_insert
                 db t conn Hint).
      cbn [bind]. destruct (IH Hsrc Hk' conn Hp) as (lines & E).
      rewrite E. now eexists.
    + destruct (Hsrc t (or_introl eq_refl)) as (Hti & Hidx & Hsel & _).
      destruct (create_table_stmt_answered db t Hti Hidx)
        as (ess & l0 & Hstmt & _).
      destruct (migrate_table_accepted utcoffset execute_error bulk_insert
                  db t conn _ l0 Hint Ht Hstmt Hsel (Hexec _) (Hexec _) Hp
                  (fun i _ => Hins _ i _)) as (l1 & E1).
      rewrite E1. cbn [bind].
      rewrite written_whole
        by (intros i _; unfold batch_written; apply Hwr).
      match goal with
      | |- context [migrate_tables _ _ _ _ tables ?c] =>
          destruct (IH (fun t' H' => Hsrc t' (or_intror H')) Hk' c eq_refl)
            as (l2 & E2)
      end.
      rewrite E2. eexists.
      cbn [executed sent committed flat_map map List.concat].
      unfold create_stmt_of. rewrite Hstmt.
      rewrite <- !app_assoc. reflexivity.
Qed.

(** X20.  From a source that hands over every table, on a target that
    accepts every statement and every batch and skips no row, a database
    without a migrations log arrives whole: for every table but those
    SQLite keeps for itself, in the order of the list, the target has
    executed DROP TABLE and CREATE TABLE and has been sent the bulk
    inserts of the table, and all the rows of these tables are committed,
    table after table, each in the order of the source. *)
Theorem migrate_tables_copies_every_table :
  forall (db : sqlite_db) (tables : list string) (conn : mysql_conn),
    (forall t, In t (user_tables tables) -> hands_over db t) ->
    (forall stmt, execute_error stmt = None) ->
    (forall stmt i batch, insert_error (bulk_insert stmt i batch) = None) ->
    (forall stmt i batch, written (bulk_insert stmt i batch) = batch) ->
    ~ In "knex_migrations" tables ->
    pending conn = [] ->
    exists (conn' : mysql_conn) (lines : list string),
      migrate_tables utcoffset execute_error bulk_insert db tables conn
      = (Ok conn', lines)
      /\ executed conn'
         = (executed conn
            ++ flat_map (fun table_name =>
                           [drop_stmt table_name;
                            create_stmt_of db table_name])
                        (user_tables tables))%list
      /\ sent conn'
         = (sent conn
            ++ flat_map (fun table_name =>
                           bulk_inserts (insert_stmt_of db table_name)
                                        (select_all db table_name))
                        (user_tables tables))%list
      /\ pending conn' = []
      /\ committed conn'
         = (committed conn
            ++ List.concat (map (select_all db) (user_tables tables)))%list.
Proof.
  intros db tables conn Hsrc Hexec Hins Hwr Hk Hp.
  destruct (migrate_tables_accepted db tables Hsrc Hexec Hins Hwr Hk conn Hp)
    as (lines & E).
  eexists _, lines. split; [exact E|]. now repeat split.
Qed.

End DriverLoop.

Lemma migrate_tables_stops_at_exception_witness :
  value_of (migrate_tables (fun _ => 0) accepts_statement accepts_batch kuma_db
              ["tag"; "knex_migrations"; "user"] empty_conn)
  = Raise time_t_overflow
  /\ forallb (fun line => negb (contains "`user`" line))
             (printed (migrate_tables (fun _ => 0) accepts_statement
                         accepts_batch kuma_db
                         ["tag"; "knex_migrations"; "user"] empty_conn))
     = true.
Proof.
  destruct (migrate_tables (fun _ => 0) accepts_statement accepts_batch
              kuma_db ["tag"] empty_conn) as [[c1|e1] l1] eqn:E1;
    [|vm_compute in E1; discriminate E1].
  destruct (migrate_table (fun _ => 0) accepts_statement accepts_batch
              kuma_db "knex_migrations" c1) as [[c2|e2] l2] eqn:E2.
  { vm_compute in E1. injection E1 as <- _. vm_compute in E2.
    discriminate E2. }
  change ["tag"; "knex_migrations"; "user"]
    with (["tag"] ++ "knex_migrations" :: ["user"])%list.
  rewrite (migrate_tables_stops_at_exception (fun _ => 0) accepts_statement
             accepts_batch kuma_db ["tag"] ["user"] "knex_migrations"
             empty_conn c1 e2 l1 l2 E1 E2).
  vm_compute in E1. injection E1 as <- <-.
  vm_compute in E2. injection E2 as <- <-.
  split; vm_compute; reflexivity.
Defined.

Lemma migrate_tables_copies_every_table_witness :
  (forall t, In t (user_tables ["tag"; "sqlite_sequence"; "user"]) ->
             hands_over tag_db t)
  /\ exists (conn' : mysql_conn) (lines : list string),
       migrate_tables (fun _ => 0) accepts_statement accepts_batch tag_db
                      ["tag"; "sqlite_sequence"; "user"] empty_conn
       = (Ok conn', lines)
       /\ committed conn'
          = [ [VInt 1; VStr "prod"]; [VInt 2; VStr "staging"];
              [VInt 3; VStr "dev"];
              [VInt 1; VStr "prod"]; [VInt 2; VStr "staging"];
              [VInt 3; VStr "dev"] ].
Proof.
  assert (Hsrc : forall t, In t (user_tables ["tag"; "sqlite_sequence"; "user"])
                           -> hands_over tag_db t).
  { intros t _. split; [reflexivity|].
    split; [split; [reflexivity | intros idx []]|].
    split; [reflexivity|]. intros col [<-|[<-|[]]]; reflexivity. }
  assert (Hk : ~ In "knex_migrations" ["tag"; "sqlite_sequence"; "user"]).
  { intros [H|[H|[H|[]]]]; discriminate H. }
  split; [exact Hsrc|].
  destruct (migrate_tables_copies_every_table (fun _ => 0) accepts_statement
              accepts_batch tag_db ["tag"; "sqlite_sequence"; "user"]
              empty_conn Hsrc (fun _ => eq_refl) (fun _ _ _ => eq_refl)
              (fun _ _ _ => eq_refl) Hk eq_refl)
    as (conn' & lines & E & _ & _ & _ & Hc).
  exists conn', lines. split; [exact E | exact Hc].
Defined.

Lemma all_from_spec (p : Z -> bool) (fuel : nat) (z : Z) :
  all_from p fuel z = true ->
  forall x, z <= x < z + Z.of_nat fuel -> p x = true.
Proof.
  revert z. induction fuel as [|fuel IH]; intros z H x Hx; [lia|].
  cbn [all_from] in H. destruct (p z) eqn:E; [|discriminate].
  destruct (Z.eq_dec x z) as [->|ne]; [exact E|].
  apply (IH (z + 1) H). lia.
Qed.

Lemma two_digits_all : all_from two_digits (Z.to_nat 100) 0 = true.
Proof. vm_compute. reflexivity. Qed.

Lemma four_digits_all : all_from four_digits (Z.to_nat 9000) 1000 = true.
Proof. vm_compute. reflexivity. Qed.

Lemma date_in_range_all :
  all_from date_in_range (Z.to_nat 146097) 0 = true.
Proof. vm_compute. reflexivity. Qed.

Lemma two_digits_spec (n : Z) :
  0 <= n < 100 ->
  exists a b, zero_padded 2 n = String a (String b EmptyString)
              /\ is_digit a = true /\ is_digit b = true.
Proof.
  intros H. pose proof (all_from_spec _ _ _ two_digits_all n ltac:(lia)) as T.
  unfold two_digits in T.
  destruct (zero_padded 2 n) as [|a [|b [|c s]]]; try discriminate.
  apply andb_true_iff in T as [Ha Hb]. now exists a, b.
Qed.

Lemma four_digits_spec (n : Z) :
  1000 <= n <= 9999 ->
  exists a b c d,
    str_Z n = String a (String b (String c (String d EmptyString)))
    /\ is_digit a = true /\ is_digit b = true
    /\ is_digit c = true /\ is_digit d = true.
Proof.
  intros H. pose proof (all_from_spec _ _ _ four_digits_all n ltac:(lia)) as T.
  unfold four_digits in T.
  destruct (str_Z n) as [|a [|b [|c [|d [|e s]]]]]; try discriminate.
  apply andb_true_iff in T as [T Hd]. apply andb_true_iff in T as [T Hc].
  apply andb_true_iff in T as [Ha Hb]. now exists a, b, c, d.
Qed.

(** The date of a day: the month and the day of the month depend on the
    day of the era only, and the year is the year of the era plus 400 years
    for each era. *)
Lemma civil_from_days_era (days : Z) :
  let era := (days + 719468) / 146097 in
  let doe := days + 719468 - era * 146097 in
  civil_from_days days
  = let '(y, m, d) := civil_from_days (doe - 719468) in (y + era * 400, m, d).
Proof.
  cbv zeta. set (era := (days + 719468) / 146097).
  set (doe := days + 719468 - era * 146097).
  assert (Hdoe : 0 <= doe < 146097).
  { unfold doe, era.
    pose proof (Z.mod_pos_bound (days + 719468) 146097 ltac:(lia)) as Hm.
    rewrite Z.mod_eq in Hm by lia. lia. }
  unfold civil_from_days. cbv zeta. fold era. fold doe.
  replace (doe - 719468 + 719468) with doe by lia.
  rewrite (Z.div_small doe 146097) by lia.
  replace (doe - 0 * 146097) with doe by lia.
  f_equal. f_equal. lia.
Qed.

Lemma civil_from_days_ranges (days : Z) :
  - 1 <= days ->
  let '(y, m, d) := civil_from_days days in
  1600 <= y /\ 1 <= m <= 12 /\ 1 <= d <= 31.
Proof.
  intros Hd. rewrite civil_from_days_era.
  set (era := (days + 719468) / 146097).
  set (doe := days + 719468 - era * 146097).
  assert (Hdoe : 0 <= doe < 146097).
  { unfold doe, era.
    pose proof (Z.mod_pos_bound (days + 719468) 146097 ltac:(lia)) as Hm.
    rewrite Z.mod_eq in Hm by lia. lia. }
  assert (Hera : 4 <= era)
    by (unfold era; apply Z.div_le_lower_bound; lia).
  pose proof (all_from_spec _ _ _ date_in_range_all doe ltac:(lia)) as T.
  unfold date_in_range in T.
  destruct (civil_from_days (doe - 719468)) as [[y m] d].
  repeat (apply andb_true_iff in T as [T ?]).
  repeat match goal with
         | H : (_ <=? _) = true |- _ => apply Z.leb_le in H
         end.
  apply Z.leb_le in T. lia.
Qed.

Section DateTimeText.

Variable utcoffset : Z -> Z.

(** What [fromtimestamp] returns from 1970 on is a date with a year of
    four digits. *)
Lemma fromtimestamp_fields (t : Z) (dt : datetime) (lines : list string) :
  0 <= t -> - 86400 <= utcoffset t ->
  fromtimestamp utcoffset t = (Ok dt, lines) ->
  lines = []
  /\ 1000 <= year dt <= 9999 /\ 1 <= month dt <= 12 /\ 1 <= day dt <= 31
  /\ 0 <= hour dt < 24 /\ 0 <= minute dt < 60 /\ 0 <= second dt < 60.
Proof.
  intros Ht Ho. unfold fromtimestamp.
  destruct ((t <? - 2 ^ 63) || (2 ^ 63 <=? t)); [discriminate|].
  set (local := t + utcoffset t).
  assert (Hdays : - 1 <= local / 86400)
    by (apply Z.div_le_lower_bound; unfold local; lia).
  pose proof (civil_from_days_ranges (local / 86400) Hdays) as R.
  destruct (civil_from_days (local / 86400)) as [[y m] d].
  cbv zeta.
  destruct ((y <? 1) || (9999 <? y)) eqn:Hy; [discriminate|].
  apply orb_false_iff in Hy as [_ Hy]. apply Z.ltb_ge in Hy.
  intros E. injection E as <- <-. cbn [year month day hour minute second].
  pose proof (Z.mod_pos_bound local 86400 ltac:(lia)) as Hs.
  pose proof (Z.mod_pos_bound (local mod 86400) 3600 ltac:(lia)) as Hs'.
  pose proof (Z.mod_pos_bound (local mod 86400) 60 ltac:(lia)) as Hs''.
  repeat split; try lia.
  - apply Z.div_pos; lia.
  - apply Z.div_lt_upper_bound; lia.
  - apply Z.div_pos; lia.
  - apply Z.div_lt_upper_bound; lia.
Qed.

Lemma strftime_shape (dt : datetime) :
  1000 <= year dt <= 9999 -> 1 <= month dt <= 12 -> 1 <= day dt <= 31 ->
  0 <= hour dt < 24 -> 0 <= minute dt < 60 -> 0 <= second dt < 60 ->
  is_datetime_text (strftime dt) = true.
Proof.
  intros Hy Hm Hd Hh Hn Hs. unfold strftime.
  destruct (four_digits_spec _ Hy) as (y1 & y2 & y3 & y4 & -> & ? & ? & ? & ?).
  destruct (two_digits_spec (month dt) ltac:(lia)) as (m1 & m2 & -> & ? & ?).
  destruct (two_digits_spec (day dt) ltac:(lia)) as (a1 & a2 & -> & ? & ?).
  destruct (two_digits_spec (hour dt) ltac:(lia)) as (h1 & h2 & -> & ? & ?).
  destruct (two_digits_spec (minute dt) ltac:(lia)) as (n1 & n2 & -> & ? & ?).
  destruct (two_digits_spec (second dt) ltac:(lia)) as (s1 & s2 & -> & ? & ?).
  unfold is_datetime_text.
  cbn [append list_ascii_of_string forallb].
  repeat match goal with
         | H : is_digit _ = true |- _ => rewrite H; clear H
         end.
  reflexivity.
Qed.

Lemma nth_set_item (l : row) (x d : value) :
  (4 <= List.length l)%nat -> nth 3 (set_item l 3 x) d = x.
Proof.
  destruct l as [|a [|b [|c [|e l]]]]; cbn [List.length]; try lia.
  reflexivity.
Qed.

(** X21.  What the normalizer writes into the fourth field of a row is a
    well-formed date-time text, YYYY-MM-DD HH:MM:SS with digits in the
    place of the letters, or NULL together with a warning: for a row that
    is converted and whose conversion returns, in a time zone whose offset
    is within a day. *)
Theorem converted_field_is_datetime_text :
  forall (r r' : row) (lines : list string) (text : string),
    (forall t, - 86400 <= utcoffset t <= 86400) ->
    (4 <= List.length r)%nat ->
    truthy (nth 3 r VNone) = true ->
    digit_text (nth 3 r VNone) = Some text ->
    convert_row utcoffset r = (Ok r', lines) ->
    (exists formatted : string,
       nth 3 r' VNone = VStr formatted
       /\ is_datetime_text formatted = true /\ lines = [])
    \/ (nth 3 r' VNone = VNone
        /\ exists msg, lines
                       = ["Warning: Could not convert timestamp " ++ text
                          ++ ": " ++ msg]).
Proof.
  intros r r' lines text Ho Hlen Ht Hd.
  unfold convert_row.
  replace (4 <=? List.length r)%nat with true
    by (symmetry; now apply Nat.leb_le).
  rewrite Ht, Hd.
  set (t := if 4000000000 <? py_int (nth 3 r VNone)
            then py_int (nth 3 r VNone) / 1000
            else py_int (nth 3 r VNone)).
  assert (Hnn : 0 <= t).
  { pose proof (digit_text_nonneg _ _ Hd) as Hv. unfold t.
    destruct (4000000000 <? py_int (nth 3 r VNone)); [|exact Hv].
    apply Z.div_pos; lia. }
  destruct (fromtimestamp utcoffset t) as [[dt|e] l0] eqn:E.
  - destruct (fromtimestamp_fields t dt l0 Hnn (proj1 (Ho t)) E)
      as (-> & Hy & Hm & Hday & Hh & Hn & Hs).
    cbv beta iota delta [try_except bind ret]. cbn [app].
    intros E'. injection E' as <- <-. left. exists (strftime dt).
    split; [now apply nth_set_item|].
    split; [now apply strftime_shape | reflexivity].
  - destruct (fromtimestamp_cases utcoffset t) as [[dt E']|[[msg E']|E']];
      rewrite E' in E; [discriminate E| |]; injection E as <- <-;
      cbv beta iota delta [try_except bind ret print
                           is_ValueError_or_OSError exn_msg time_t_overflow];
      cbn [app]; intros E''; [|discriminate E''].
    injection E'' as <- <-. right.
    split; [now apply nth_set_item | now exists msg].
Qed.

End DateTimeText.

Lemma converted_field_is_datetime_text_witness :
  exists formatted : string,
    convert_row (fun _ => 3600)
      [VInt 1; VStr "init.js"; VInt 1; VInt 1700000000000]
    = (Ok [VInt 1; VStr "init.js"; VInt 1; VStr formatted], [])
    /\ is_datetime_text formatted = true.
Proof.
  destruct (convert_row (fun _ => 3600)
              [VInt 1; VStr "init.js"; VInt 1; VInt 1700000000000])
    as [[r'|e] lines] eqn:E; [|vm_compute in E; discriminate E].
  destruct (converted_field_is_datetime_text (fun _ => 3600)
              [VInt 1; VStr "init.js"; VInt 1; VInt 1700000000000] r' lines
              "1700000000000" (fun _ => ltac:(lia)) ltac:(cbn; lia)
              eq_refl eq_refl E)
    as [(formatted & Hf & Hs & Hl)|(Hn & _)].
  - vm_compute in E. injection E as <- <-.
    exists formatted. cbn [nth] in Hf. injection Hf as <-.
    split; [reflexivity | exact Hs].
  - vm_compute in E. injection E as <- _. discriminate Hn.
Defined.
